(** * Plan-gated project search and the investment ledger

    A shallow embedding of the plan feature policy ([config/planFeatures.ts]),
    the project search service and controller ([services/projectService.ts],
    [controllers/projectController.ts]) and the investment controller, with the
    Mongoose schemas they save through ([models/Project], [models/Investment],
    [models/Payment]) and the zod schemas they parse with
    ([utils/projectValidation.ts]).

    Conventions of the embedding.
    - The search, the listings and the control flow of the investment
      controller are embedded with a JavaScript number as the rational it
      stands for ([Q]); counters and whole months are [Z]; instants are
      milliseconds since the epoch ([Z]). What depends on the arithmetic of
      amounts - the funding ledger and the preconditions of an investment -
      is embedded a second time, in [Double], with binary64 numbers and
      [save()] validating the whole document.
    - A collection is the list of its documents and an [ObjectId] is the
      position of a document in it; documents are never deleted by the
      operations modelled here.
    - An exception is a value of [Thrown]; a handler that mutates the store
      before it throws returns the mutated store together with the exception.
    - Requests are handled one after the other. *)

From Stdlib Require Import ZArith QArith Qminmax String Ascii List Bool Lia.
From Stdlib Require Import Sorting.Sorted.
From Stdlib Require Import Floats.
From stdpp Require Import base list.
Import ListNotations.

Open Scope string_scope.

(** ** JavaScript values *)

Module Js.

(** [!s] is false exactly for a present, non-empty string. *)
Definition truthy_string (s : option string) : bool :=
  match s with
  | Some s => negb (s =? EmptyString)
  | None => false
  end.

(** [!n] is false exactly for a present, non-zero number. *)
Definition truthy_number (n : option Q) : bool :=
  match n with
  | Some n => negb (Qeq_bool n 0)
  | None => false
  end.

(** [!x] is false for a present enumeration value. *)
Definition defined {A : Type} (x : option A) : bool :=
  match x with
  | Some _ => true
  | None => false
  end.

Definition Qlt_bool (a b : Q) : bool := negb (Qle_bool b a).

(** [a || b] on numbers. *)
Definition or_else (a b : Z) : Z := if (a =? 0)%Z then b else a.

(** [a || b] on strings. *)
Definition string_or_else (a : option string) (b : string) : string :=
  match a with
  | Some s => if s =? EmptyString then b else s
  | None => b
  end.

(** A property key: indexing with [undefined] reads the key "undefined". *)
Definition property_key (k : option string) : string :=
  match k with
  | Some k => k
  | None => "undefined"
  end.

(** [s.includes(t)] *)
Fixpoint includes (s t : string) : bool :=
  String.prefix t s ||
  match s with
  | EmptyString => false
  | String _ s' => includes s' t
  end.

End Js.

(** ** Errors ([middlewares/errorHandler.ts]) *)

Module Errors.

(** The message of an [AppError]: a literal, or one of the two template
    strings with the number they interpolate. *)
Inductive Message : Type :=
| Lit (s : string)
| MinimumInvestmentIs (minInvestment : Q)
| MaximumYouCanInvest (remaining : Q).

Record AppError : Type := mkAppError { message : Message; statusCode : Z }.

Inductive Thrown : Type :=
| AppErr (e : AppError)
| ValidationError (model : string) (paths : list string)
| ZodError (paths : list string)
| TypeError
| MongoServerError.

(** What [errorHandler] sends for a thrown value. *)
Record ErrorResponse : Type := mkErrorResponse { status : Z; body : Message }.

Definition errorHandler (err : Thrown) : ErrorResponse :=
  match err with
  | ZodError _ => mkErrorResponse 400 (Lit "Validation error")
  | ValidationError _ _ => mkErrorResponse 400 (Lit "Validation error")
  | AppErr e => mkErrorResponse (Js.or_else (statusCode e) 500) (message e)
  | TypeError | MongoServerError => mkErrorResponse 500 (Lit "Internal server error")
  end.

(** The four caller-facing kinds of failure and the internal fault. *)
Inductive Kind : Type := Validation | Authorization | NotFound | InvalidState | Internal.

Definition state_messages : list string :=
  [ "This project is not accepting investments at the moment";
    "This project is fully funded";
    "Investment is already refunded";
    "Investments can only be cancelled within 24 hours" ].

(** The kind of a thrown value: by status code, and for a 400 by whether the
    message reports the state of the entity or the input. *)
Definition kind (err : Thrown) : Kind :=
  match err with
  | ZodError _ | ValidationError _ _ => Validation
  | TypeError | MongoServerError => Internal
  | AppErr e =>
      if (statusCode e =? 404)%Z then NotFound
      else if (statusCode e =? 403)%Z then Authorization
      else if (statusCode e =? 400)%Z then
        match message e with
        | Lit s => if existsb (String.eqb s) state_messages then InvalidState else Validation
        | _ => Validation
        end
      else Internal
  end.

End Errors.
Import Errors.

(** ** Plan feature policy ([config/planFeatures.ts]) *)

Module PlanFeatures.

Inductive Feature : Type :=
| basicFilters | roiRange | amountRange | multipleCategories | advancedSort | durationFilter.

Record SearchFilters : Type := mkSearchFilters {
  has_basicFilters : bool;
  has_roiRange : bool;
  has_amountRange : bool;
  has_multipleCategories : bool;
  has_advancedSort : bool;
  has_durationFilter : bool
}.

Record Limits : Type := mkLimits {
  projectsPerMonth : Z;
  simulationsPerMonth : Z;
  savedSearches : Z
}.

Record t : Type := mkPlan {
  name : string;
  searchFilters : SearchFilters;
  limits : Limits
}.

(** [filters[feature]] *)
Definition flag (f : SearchFilters) (feature : Feature) : bool :=
  match feature with
  | basicFilters => has_basicFilters f
  | roiRange => has_roiRange f
  | amountRange => has_amountRange f
  | multipleCategories => has_multipleCategories f
  | advancedSort => has_advancedSort f
  | durationFilter => has_durationFilter f
  end.

Definition free : t :=
  mkPlan "Free" (mkSearchFilters true false false false false false) (mkLimits 10 5 0).
Definition basic : t :=
  mkPlan "Basic" (mkSearchFilters true true false false false false) (mkLimits 50 20 3).
Definition plus : t :=
  mkPlan "Plus" (mkSearchFilters true true true true false true) (mkLimits 200 100 10).
Definition premium : t :=
  mkPlan "Premium" (mkSearchFilters true true true true true true) (mkLimits (-1) (-1) (-1)).

(** The own properties of the object literal. *)
Definition PLAN_FEATURES : list (string * t) :=
  [ ("free", free); ("basic", basic); ("plus", plus); ("premium", premium) ].

Fixpoint own_property (o : list (string * t)) (k : string) : option t :=
  match o with
  | [] => None
  | (k', v) :: o' => if k' =? k then Some v else own_property o' k
  end.

(** [PLAN_FEATURES] is a plain object literal, so its prototype is
    [Object.prototype] and these keys are found on it by a property read. *)
Definition Object_prototype_keys : list string :=
  [ "constructor"; "__proto__"; "hasOwnProperty"; "isPrototypeOf";
    "propertyIsEnumerable"; "toLocaleString"; "toString"; "valueOf";
    "__defineGetter__"; "__defineSetter__"; "__lookupGetter__"; "__lookupSetter__" ].

(** The value of a property read [PLAN_FEATURES[k]]. *)
Inductive Value : Type :=
| Plan (p : t)              (* one of the four entries *)
| Inherited (k : string)    (* a member of Object.prototype: a truthy object *)
| Undefined.

Definition get (k : string) : Value :=
  match own_property PLAN_FEATURES k with
  | Some p => Plan p
  | None => if existsb (String.eqb k) Object_prototype_keys then Inherited k else Undefined
  end.

(** [PLAN_FEATURES[planKey] || PLAN_FEATURES.free] *)
Definition resolve (planKey : string) : Value :=
  match get planKey with
  | Undefined => Plan free
  | v => v
  end.

(** [getPlanFeatures(planKey)] *)
Definition getPlanFeatures (planKey : string) : Value := resolve planKey.

(** [hasFeatureAccess(planKey, feature)]: [plan.searchFilters[feature]];
    a member of [Object.prototype] has no [searchFilters], and reading a
    property of [undefined] throws. *)
Definition hasFeatureAccess (planKey : string) (feature : Feature) : Thrown + bool :=
  match resolve planKey with
  | Plan p => inr (flag (searchFilters p) feature)
  | Inherited _ => inl TypeError
  | Undefined => inl TypeError
  end.

(** [getMinimumPlanForFeature(feature)]: the loop over the four keys. *)
Fixpoint first_plan_with (feature : Feature) (plans : list string) : option string :=
  match plans with
  | [] => None
  | planKey :: rest =>
      match own_property PLAN_FEATURES planKey with
      | Some p => if flag (searchFilters p) feature then Some planKey
                  else first_plan_with feature rest
      | None => first_plan_with feature rest
      end
  end.

Definition getMinimumPlanForFeature (feature : Feature) : string :=
  match first_plan_with feature ["free"; "basic"; "plus"; "premium"] with
  | Some planKey => planKey
  | None => "premium"
  end.

(** The plan keys of the table. *)
Definition plan_keys : list string := map fst PLAN_FEATURES.

End PlanFeatures.

(** ** Mongoose models *)

Definition ObjectId : Type := nat.

(** [models/Project] *)
Module Project.

Inductive Status : Type := active | completed | closed.

Definition Status_eqb (a b : Status) : bool :=
  match a, b with
  | active, active | completed, completed | closed, closed => true
  | _, _ => false
  end.

Record t : Type := mk {
  title : string;
  description : string;
  category : string;
  minInvestment : Q;
  roiPercent : Q;
  targetAmount : Q;
  fundedAmount : Q;
  totalInvestors : Z;
  durationMonths : Z;
  status : Status;
  isPremium : bool;
  createdBy : ObjectId;
  createdAt : Z
}.

Definition set_fundedAmount (v : Q) (p : t) : t :=
  mk (title p) (description p) (category p) (minInvestment p) (roiPercent p)
     (targetAmount p) v (totalInvestors p) (durationMonths p) (status p)
     (isPremium p) (createdBy p) (createdAt p).

Definition set_totalInvestors (v : Z) (p : t) : t :=
  mk (title p) (description p) (category p) (minInvestment p) (roiPercent p)
     (targetAmount p) (fundedAmount p) v (durationMonths p) (status p)
     (isPremium p) (createdBy p) (createdAt p).

Definition set_status (v : Status) (p : t) : t :=
  mk (title p) (description p) (category p) (minInvestment p) (roiPercent p)
     (targetAmount p) (fundedAmount p) (totalInvestors p) (durationMonths p) v
     (isPremium p) (createdBy p) (createdAt p).

(** The schema's validators on the numeric paths: [min] and [max]. *)
Definition validator (path : string) (p : t) : bool :=
  if path =? "minInvestment" then Qle_bool 0 (minInvestment p)
  else if path =? "roiPercent" then Qle_bool 0 (roiPercent p) && Qle_bool (roiPercent p) 1000
  else if path =? "targetAmount" then Qle_bool 0 (targetAmount p)
  else if path =? "fundedAmount" then Qle_bool 0 (fundedAmount p)
  else if path =? "totalInvestors" then (0 <=? totalInvestors p)%Z
  else if path =? "durationMonths" then (1 <=? durationMonths p)%Z && (durationMonths p <=? 240)%Z
  else true.

Definition numeric_paths : list string :=
  [ "minInvestment"; "roiPercent"; "targetAmount"; "fundedAmount";
    "totalInvestors"; "durationMonths" ].

(** The paths among [paths] whose validator rejects the document. *)
Definition invalid (paths : list string) (p : t) : list string :=
  List.filter (fun path => negb (validator path p)) paths.

(** A document every numeric path of which passes its validator. *)
Definition schema_valid (p : t) : Prop := invalid numeric_paths p = [].


End Project.

(** [models/Investment] *)
Module Investment.

Inductive Status : Type := pending | completed | failed | refunded.

Definition Status_eqb (a b : Status) : bool :=
  match a, b with
  | pending, pending | completed, completed | failed, failed | refunded, refunded => true
  | _, _ => false
  end.

Record t : Type := mk {
  userId : ObjectId;
  projectId : ObjectId;
  amount : Q;
  status : Status;
  paymentMethod : string;
  investmentDate : Z;
  expectedReturn : Q;
  (* [new Date()] moved forward by a number of months: the instant and the months *)
  expectedReturnDate : option (Z * Z);
  refundReason : option string;
  refundDate : option Z
}.

Definition paymentMethods : list string := [ "stripe"; "paypal"; "bank_transfer"; "wallet" ].

Definition validator (path : string) (i : t) : bool :=
  if path =? "amount" then Qle_bool 0 (amount i)
  else if path =? "paymentMethod" then existsb (String.eqb (paymentMethod i)) paymentMethods
  else if path =? "expectedReturn" then Qle_bool 0 (expectedReturn i)
  else if path =? "refundReason" then
    match refundReason i with
    | Some r => (String.length r <=? 500)%nat
    | None => true
    end
  else true.

Definition invalid (paths : list string) (i : t) : list string :=
  List.filter (fun path => negb (validator path i)) paths.

(** The cancellation: [status], [refundReason] and [refundDate] assigned. *)
Definition refund (reason : string) (now : Z) (i : t) : t :=
  mk (userId i) (projectId i) (amount i) refunded (paymentMethod i)
     (investmentDate i) (expectedReturn i) (expectedReturnDate i)
     (Some reason) (Some now).

End Investment.

(** [models/Payment] *)
Module Payment.

Record t : Type := mk {
  userId : ObjectId;
  subscriptionId : option ObjectId;
  (* [`INV-${investment._id}`] *)
  transactionId : ObjectId;
  amount : Q;
  currency : string;
  status : string;
  method : string;
  description : string
}.

Definition statuses : list string := [ "pending"; "succeeded"; "failed"; "refunded" ].

Definition validator (path : string) (p : t) : bool :=
  if path =? "subscriptionId" then
    match subscriptionId p with Some _ => true | None => false end
  else if path =? "amount" then Qle_bool 0 (amount p)
  else if path =? "status" then existsb (String.eqb (status p)) statuses
  else true.

Definition invalid (paths : list string) (p : t) : list string :=
  List.filter (fun path => negb (validator path p)) paths.

End Payment.

(** ** The store and the handlers' monad *)

Record Store : Type := mkStore {
  projects : list Project.t;
  investments : list Investment.t;
  payments : list Payment.t
}.

(** A handler body: it reads and writes the store and either returns or throws. *)
Definition M (A : Type) : Type := Store -> (Thrown + A) * Store.

Definition ret {A : Type} (a : A) : M A := fun s => (inr a, s).

Definition throw {A : Type} (err : Thrown) : M A := fun s => (inl err, s).

Definition bind {A B : Type} (m : M A) (k : A -> M B) : M B :=
  fun s =>
    match m s with
    | (inl err, s') => (inl err, s')
    | (inr a, s') => k a s'
    end.

Declare Scope handler_scope.
Delimit Scope handler_scope with handler.
Notation "'do' x <- m ;; k" := (bind m (fun x => k))
  (at level 10, x name, m at level 99, k at level 200) : handler_scope.
Notation "'run' m ;; k" := (bind m (fun _ => k))
  (at level 10, m at level 99, k at level 200) : handler_scope.

Definition appError {A : Type} (msg : Message) (code : Z) : M A :=
  throw (AppErr (mkAppError msg code)).

(** The documents of the Project collection. *)
Definition Project_collection (s : Store) : list Project.t := projects s.

(** [Project.findById(id)] *)
Definition Project_findById (id : ObjectId) : M (option Project.t) :=
  fun s => (inr (projects s !! id), s).

(** [project.save()] after the handler assigned [paths]: the validators of the
    modified paths run, and the document is written when they pass. *)
Definition Project_save (id : ObjectId) (paths : list string) (p : Project.t) : M unit :=
  fun s =>
    match Project.invalid paths p with
    | [] => (inr tt, mkStore (<[id := p]> (projects s)) (investments s) (payments s))
    | bad => (inl (ValidationError "Project" bad), s)
    end.

(** [Investment.findById(id)] *)
Definition Investment_findById (id : ObjectId) : M (option Investment.t) :=
  fun s => (inr (investments s !! id), s).

(** [Investment.create(doc)]: every validator runs; the new document gets the
    next id. *)
Definition Investment_create (i : Investment.t) : M (ObjectId * Investment.t) :=
  fun s =>
    match Investment.invalid ["amount"; "paymentMethod"; "expectedReturn"] i with
    | [] => (inr (length (investments s), i),
             mkStore (projects s) (investments s ++ [i]) (payments s))
    | bad => (inl (ValidationError "Investment" bad), s)
    end.

(** [investment.save()] after the handler assigned [paths]. *)
Definition Investment_save (id : ObjectId) (paths : list string) (i : Investment.t) : M unit :=
  fun s =>
    match Investment.invalid paths i with
    | [] => (inr tt, mkStore (projects s) (<[id := i]> (investments s)) (payments s))
    | bad => (inl (ValidationError "Investment" bad), s)
    end.

(** [Payment.create(doc)] *)
Definition Payment_create (p : Payment.t) : M unit :=
  fun s =>
    match Payment.invalid ["subscriptionId"; "amount"; "status"] p with
    | [] => (inr tt, mkStore (projects s) (investments s) (payments s ++ [p]))
    | bad => (inl (ValidationError "Payment" bad), s)
    end.

(** What a handler sends: the JSON of the success path, or what
    [errorHandler] makes of the value passed to [next]. *)
Inductive Response (A : Type) : Type :=
| Json (code : Z) (text : string) (data : A)
| Failure (r : ErrorResponse).
Arguments Json {A} code text data.
Arguments Failure {A} r.

Definition respond {A : Type} (code : Z) (text : string) (m : M A) (s : Store)
  : Response A * Store :=
  match m s with
  | (inr a, s') => (Json code text a, s')
  | (inl err, s') => (Failure (errorHandler err), s')
  end.

(** ** The investment controller *)

Module InvestmentController.

Open Scope handler_scope.
Open Scope Q_scope.

(** [req.body] of [POST /api/investments]. An absent, null or empty
    [projectId] is [None]; a present one is a well-formed id. *)
Record CreateBody : Type := mkCreateBody {
  body_projectId : option ObjectId;
  body_amount : option Q;
  body_paymentMethod : option string
}.

(** The three fields when none of them is falsy:
    [!projectId || !amount || !paymentMethod] is false. *)
Definition required_fields (body : CreateBody) : option (ObjectId * Q * string) :=
  match body_projectId body, body_amount body, body_paymentMethod body with
  | Some projectId, Some amount, Some paymentMethod =>
      if Js.truthy_number (Some amount) && Js.truthy_string (Some paymentMethod)
      then Some (projectId, amount, paymentMethod)
      else None
  | _, _, _ => None
  end.

(** [createInvestment]: the body of the [try] block up to the response. *)
Definition createInvestment (now : Z) (userId : ObjectId) (body : CreateBody)
  : M (ObjectId * Investment.t) :=
  (* Validate required fields *)
  match required_fields body with
  | None => appError (Lit "Project ID, amount, and payment method are required") 400
  | Some (projectId, amount, paymentMethod) =>
  (* Get project *)
  do project <- Project_findById projectId ;;
  match project with
  | None => appError (Lit "Project not found") 404
  | Some project =>
  (* Check if project accepts investments *)
  if negb (Project.Status_eqb (Project.status project) Project.active) then
    appError (Lit "This project is not accepting investments at the moment") 400
  (* Validate investment amount *)
  else if Js.Qlt_bool amount (Project.minInvestment project) then
    appError (MinimumInvestmentIs (Project.minInvestment project)) 400
  (* Check if project is fully funded *)
  else if Qle_bool (Project.targetAmount project) (Project.fundedAmount project) then
    appError (Lit "This project is fully funded") 400
  (* Check if investment would exceed target *)
  else if Js.Qlt_bool (Project.targetAmount project) (Project.fundedAmount project + amount) then
    let remaining := Project.targetAmount project - Project.fundedAmount project in
    appError (MaximumYouCanInvest remaining) 400
  else
  (* Calculate expected return based on project ROI *)
  let expectedReturn := amount + (amount * Project.roiPercent project) / 100 in
  (* Calculate expected return date (project duration) *)
  let expectedReturnDate :=
    if (Project.durationMonths project =? 0)%Z then None
    else Some (now, Project.durationMonths project) in
  (* Create investment *)
  do created <- Investment_create
    (Investment.mk userId projectId amount Investment.completed paymentMethod
       now expectedReturn expectedReturnDate None None) ;;
  (* Update project funding *)
  let project := Project.set_fundedAmount (Project.fundedAmount project + amount) project in
  let project :=
    Project.set_totalInvestors (Js.or_else (Project.totalInvestors project) 0 + 1)%Z project in
  (* Check if project reached target *)
  let project :=
    if Qle_bool (Project.targetAmount project) (Project.fundedAmount project)
    then Project.set_status Project.completed project
    else project in
  run Project_save projectId ["fundedAmount"; "totalInvestors"; "status"] project ;;
  (* Create payment record: the document has no subscriptionId *)
  run Payment_create
    (Payment.mk userId None (fst created) amount "USD" "completed" paymentMethod
       ("Investment in " ++ Project.title project)) ;;
  ret created
  end
  end.

(** [POST /api/investments] *)
Definition createInvestment_response (now : Z) (userId : ObjectId) (body : CreateBody)
  : Store -> Response (ObjectId * Investment.t) * Store :=
  respond 201 "Investment successful!" (createInvestment now userId body).

(** [cancelInvestment]: [id] is [req.params.id], [reason] is
    [req.body.reason], [isAdmin] is [req.user.role === 'admin']. *)
Definition cancelInvestment (now : Z) (userId : ObjectId) (isAdmin : bool)
    (id : ObjectId) (reason : option string) : M Investment.t :=
  do investment <- Investment_findById id ;;
  match investment with
  | None => appError (Lit "Investment not found") 404
  | Some investment =>
  (* Check permissions *)
  if negb (Investment.userId investment =? userId)%nat && negb isAdmin then
    appError (Lit "You do not have permission to cancel this investment") 403
  (* Check if already cancelled *)
  else if Investment.Status_eqb (Investment.status investment) Investment.refunded then
    appError (Lit "Investment is already refunded") 400
  (* Check if investment can be cancelled (within 24 hours for non-admin) *)
  else if negb isAdmin &&
          (let hoursSinceInvestment :=
             inject_Z (now - Investment.investmentDate investment) / inject_Z (1000 * 60 * 60) in
           Js.Qlt_bool 24 hoursSinceInvestment) then
    appError (Lit "Investments can only be cancelled within 24 hours") 400
  else
  (* Update investment status *)
  let investment :=
    Investment.refund (Js.string_or_else reason "User requested refund") now investment in
  run Investment_save id ["status"; "refundReason"; "refundDate"] investment ;;
  (* Update project funding *)
  do project <- Project_findById (Investment.projectId investment) ;;
  run match project with
      | Some project =>
          let project :=
            Project.set_fundedAmount
              (Project.fundedAmount project - Investment.amount investment) project in
          let project :=
            Project.set_totalInvestors
              (Z.max (Js.or_else (Project.totalInvestors project) 1 - 1) 0)%Z project in
          let project :=
            if Project.Status_eqb (Project.status project) Project.completed
            then Project.set_status Project.active project (* Reopen if was completed *)
            else project in
          Project_save (Investment.projectId investment)
            ["fundedAmount"; "totalInvestors"; "status"] project
      | None => ret tt
      end ;;
  ret investment
  end.

(** [POST /api/investments/:id/cancel] *)
Definition cancelInvestment_response (now : Z) (userId : ObjectId) (isAdmin : bool)
    (id : ObjectId) (reason : option string) : Store -> Response Investment.t * Store :=
  respond 200 "Investment cancelled and refund initiated"
    (cancelInvestment now userId isAdmin id reason).

End InvestmentController.

(** ** Request schemas ([utils/projectValidation.ts]) *)

Module Zod.

(** A digit of [\d]. *)
Definition digit (c : ascii) : option Z :=
  let n := Z.of_nat (nat_of_ascii c) in
  if (48 <=? n)%Z && (n <=? 57)%Z then Some (n - 48)%Z else None.

Fixpoint digits (s : string) (acc : Z) : option Z :=
  match s with
  | EmptyString => Some acc
  | String c s' =>
      match digit c with
      | Some d => digits s' (10 * acc + d)%Z
      | None => None
      end
  end.

(** [z.string().regex(/^\d+$/).transform(Number)] *)
Definition natural (s : string) : option Z :=
  match s with
  | EmptyString => None
  | _ => digits s 0
  end.

(** The text before the first dot and the text after it. *)
Fixpoint split_dot (s : string) : string * option string :=
  match s with
  | EmptyString => (EmptyString, None)
  | String c s' =>
      if Ascii.eqb c "."%char then (EmptyString, Some s')
      else let '(a, b) := split_dot s' in (String c a, b)
  end.

(** [z.string().regex(/^\d+(\.\d+)?$/).transform(Number)] *)
Definition decimal (s : string) : option Q :=
  match split_dot s with
  | (whole, None) => option_map inject_Z (natural whole)
  | (whole, Some frac) =>
      match natural whole, natural frac with
      | Some w, Some f =>
          Some (inject_Z w + inject_Z f / inject_Z (10 ^ Z.of_nat (String.length frac)))%Q
      | _, _ => None
      end
  end.

(** [z.number().int()]: the integer a number is, if it is one. *)
Definition int (q : Q) : option Z :=
  if (Zpos (Qden (Qred q)) =? 1)%Z then Some (Qnum (Qred q)) else None.

(** An optional field: [None] when the value is rejected, [Some None] when
    the field is absent. *)
Definition optional {A B : Type} (parse : A -> option B) (field : option A)
  : option (option B) :=
  match field with
  | None => Some None
  | Some a => option_map Some (parse a)
  end.

(** [.optional().default(d)] *)
Definition with_default {A B : Type} (parse : A -> option B) (d : B) (field : option A)
  : option B :=
  match field with
  | None => Some d
  | Some a => parse a
  end.

Definition check {A : Type} (ok : A -> bool) (a : A) : option A :=
  if ok a then Some a else None.

(** The issue raised for a field that was rejected. *)
Definition issue {A : Type} (path : string) (parsed : option A) : list string :=
  match parsed with
  | Some _ => []
  | None => [path]
  end.

(** [z.enum(['active', 'completed', 'closed'])] *)
Definition projectStatus (s : string) : option Project.Status :=
  if s =? "active" then Some Project.active
  else if s =? "completed" then Some Project.completed
  else if s =? "closed" then Some Project.closed
  else None.

End Zod.

(** [projectQuerySchema] *)
Module ProjectQuery.

(** [req.query]: every field a string. *)
Record raw : Type := mkRaw {
  raw_page : option string;
  raw_limit : option string;
  raw_category : option string;
  raw_status : option string;
  raw_minROI : option string;
  raw_maxROI : option string;
  raw_search : option string
}.

Record t : Type := mk {
  page : Z;
  limit : Z;
  category : option string;
  status : option Project.Status;
  minROI : option Q;
  maxROI : option Q;
  search : option string
}.

Definition parse (q : raw) : Thrown + t :=
  let page := Zod.with_default Zod.natural 1%Z (raw_page q) in
  let limit := Zod.with_default Zod.natural 10%Z (raw_limit q) in
  let status := Zod.optional Zod.projectStatus (raw_status q) in
  let minROI := Zod.optional Zod.decimal (raw_minROI q) in
  let maxROI := Zod.optional Zod.decimal (raw_maxROI q) in
  match page, limit, status, minROI, maxROI with
  | Some page, Some limit, Some status, Some minROI, Some maxROI =>
      inr (mk page limit (raw_category q) status minROI maxROI (raw_search q))
  | _, _, _, _, _ =>
      inl (ZodError (Zod.issue "page" page ++ Zod.issue "limit" limit ++
                     Zod.issue "status" status ++ Zod.issue "minROI" minROI ++
                     Zod.issue "maxROI" maxROI))
  end.

End ProjectQuery.

(** [advancedSearchSchema] *)
Module AdvancedSearchInput.

Inductive SortBy : Type :=
| createdAt | roiPercent | targetAmount | fundedAmount | progress | durationMonths.

Inductive SortOrder : Type := asc | desc.

Definition SortBy_eqb (a b : SortBy) : bool :=
  match a, b with
  | createdAt, createdAt | roiPercent, roiPercent | targetAmount, targetAmount
  | fundedAmount, fundedAmount | progress, progress | durationMonths, durationMonths => true
  | _, _ => false
  end.

Definition SortOrder_eqb (a b : SortOrder) : bool :=
  match a, b with
  | asc, asc | desc, desc => true
  | _, _ => false
  end.

(** The JSON body: numbers where the schema wants numbers, strings where it
    wants strings. *)
Record raw : Type := mkRaw {
  raw_page : option Q;
  raw_limit : option Q;
  raw_category : option string;
  raw_status : option string;
  raw_search : option string;
  raw_categories : option (list string);
  raw_minROI : option Q;
  raw_maxROI : option Q;
  raw_minAmount : option Q;
  raw_maxAmount : option Q;
  raw_minDuration : option Q;
  raw_maxDuration : option Q;
  raw_sortBy : option string;
  raw_sortOrder : option string
}.

Record t : Type := mk {
  page : Z;
  limit : Z;
  category : option string;
  status : option Project.Status;
  search : option string;
  categories : option (list string);
  minROI : option Q;
  maxROI : option Q;
  minAmount : option Q;
  maxAmount : option Q;
  minDuration : option Z;
  maxDuration : option Z;
  sortBy : SortBy;
  sortOrder : SortOrder
}.

Definition parse_sortBy (s : string) : option SortBy :=
  if s =? "createdAt" then Some createdAt
  else if s =? "roiPercent" then Some roiPercent
  else if s =? "targetAmount" then Some targetAmount
  else if s =? "fundedAmount" then Some fundedAmount
  else if s =? "progress" then Some progress
  else if s =? "durationMonths" then Some durationMonths
  else None.

Definition parse_sortOrder (s : string) : option SortOrder :=
  if s =? "asc" then Some asc
  else if s =? "desc" then Some desc
  else None.

(** [z.number().int().min(lo)] and [.max(hi)] *)
Definition int_min (lo : Z) (q : Q) : option Z :=
  match Zod.int q with
  | Some n => Zod.check (fun n => (lo <=? n)%Z) n
  | None => None
  end.

Definition int_between (lo hi : Z) (q : Q) : option Z :=
  match Zod.int q with
  | Some n => Zod.check (fun n => (lo <=? n)%Z && (n <=? hi)%Z) n
  | None => None
  end.

Definition parse (b : raw) : Thrown + t :=
  let page := Zod.with_default (int_min 1) 1%Z (raw_page b) in
  let limit := Zod.with_default (int_between 1 100) 20%Z (raw_limit b) in
  let status := Zod.optional Zod.projectStatus (raw_status b) in
  let roi := Zod.check (fun q => Qle_bool 0 q && Qle_bool q 1000) in
  let minROI := Zod.optional roi (raw_minROI b) in
  let maxROI := Zod.optional roi (raw_maxROI b) in
  let minAmount := Zod.optional (Zod.check (Qle_bool 0)) (raw_minAmount b) in
  let maxAmount := Zod.optional (Zod.check (Qle_bool 0)) (raw_maxAmount b) in
  let minDuration := Zod.optional (int_min 1) (raw_minDuration b) in
  let maxDuration := Zod.optional (int_min 1) (raw_maxDuration b) in
  let sortBy := Zod.with_default parse_sortBy createdAt (raw_sortBy b) in
  let sortOrder := Zod.with_default parse_sortOrder desc (raw_sortOrder b) in
  match page, limit, status, minROI, maxROI, minAmount, maxAmount,
        minDuration, maxDuration, sortBy, sortOrder with
  | Some page, Some limit, Some status, Some minROI, Some maxROI, Some minAmount,
    Some maxAmount, Some minDuration, Some maxDuration, Some sortBy, Some sortOrder =>
      inr (mk page limit (raw_category b) status (raw_search b) (raw_categories b)
             minROI maxROI minAmount maxAmount minDuration maxDuration sortBy sortOrder)
  | _, _, _, _, _, _, _, _, _, _, _ =>
      inl (ZodError (Zod.issue "page" page ++ Zod.issue "limit" limit ++
                     Zod.issue "status" status ++ Zod.issue "minROI" minROI ++
                     Zod.issue "maxROI" maxROI ++ Zod.issue "minAmount" minAmount ++
                     Zod.issue "maxAmount" maxAmount ++
                     Zod.issue "minDuration" minDuration ++
                     Zod.issue "maxDuration" maxDuration ++
                     Zod.issue "sortBy" sortBy ++ Zod.issue "sortOrder" sortOrder))
  end.

End AdvancedSearchInput.

(** ** The project service ([services/projectService.ts]) *)

Module ProjectService.

Open Scope handler_scope.

(** [{ $gte, $lte }] *)
Record Range : Type := mkRange { gte : option Q; lte : option Q }.

Inductive CategoryFilter : Type :=
| category_is (c : string)           (* [filter.category = category] *)
| category_in (cs : list string).    (* [filter.category = { $in: categories }] *)

Inductive PremiumFilter : Type :=
| premium_ne_true                    (* [{ isPremium: { $ne: true } }] *)
| premium_true.                      (* [{ isPremium: true }] *)

(** The filter object: an absent key is [None]. *)
Record Filter : Type := mkFilter {
  isPremium : option PremiumFilter;
  category : option CategoryFilter;
  status : option Project.Status;
  roiPercent : option Range;
  targetAmount : option Range;
  durationMonths : option Range;
  or_regex : option string
}.

Definition set_category (c : CategoryFilter) (f : Filter) : Filter :=
  mkFilter (isPremium f) (Some c) (status f) (roiPercent f) (targetAmount f)
    (durationMonths f) (or_regex f).
Definition set_status (s : Project.Status) (f : Filter) : Filter :=
  mkFilter (isPremium f) (category f) (Some s) (roiPercent f) (targetAmount f)
    (durationMonths f) (or_regex f).
Definition set_roiPercent (r : Range) (f : Filter) : Filter :=
  mkFilter (isPremium f) (category f) (status f) (Some r) (targetAmount f)
    (durationMonths f) (or_regex f).
Definition set_targetAmount (r : Range) (f : Filter) : Filter :=
  mkFilter (isPremium f) (category f) (status f) (roiPercent f) (Some r)
    (durationMonths f) (or_regex f).
Definition set_durationMonths (r : Range) (f : Filter) : Filter :=
  mkFilter (isPremium f) (category f) (status f) (roiPercent f) (targetAmount f)
    (Some r) (or_regex f).
Definition set_or_regex (s : string) (f : Filter) : Filter :=
  mkFilter (isPremium f) (category f) (status f) (roiPercent f) (targetAmount f)
    (durationMonths f) (Some s).

(** [minX !== undefined || maxX !== undefined] *)
Definition some_bound {A : Type} (lo hi : option A) : bool :=
  match lo, hi with
  | None, None => false
  | _, _ => true
  end.

(** The sort object: one key, ascending ([1]) or descending ([-1]). *)
Record Sort : Type := mkSort {
  sort_key : AdvancedSearchInput.SortBy;
  sort_direction : Z
}.

Definition createdAt_descending : Sort := mkSort AdvancedSearchInput.createdAt (-1).

Record Pagination : Type := mkPagination {
  page : Z;
  limit : Z;
  total : Z;
  (* [Math.ceil(total / limit)]; [None] when the quotient is not finite *)
  totalPages : option Z
}.

Record Listing : Type := mkListing {
  projects : list Project.t;
  pagination : Pagination
}.

Record SearchResult : Type := mkSearchResult {
  found : Listing;
  planFeatures : PlanFeatures.Value
}.

(** [Math.ceil(total / limit)] *)
Definition ceil_div (total limit : Z) : option Z :=
  if (limit =? 0)%Z then None else Some ((total + limit - 1) / limit)%Z.

Section Queries.

(** [{ $regex: pattern, $options: 'i' }] applied to a text: the regular
    expression engine of the database. *)
Variable regex_i : string -> string -> bool.

Definition in_range (r : option Range) (v : Q) : bool :=
  match r with
  | None => true
  | Some r =>
      match gte r with Some lo => Qle_bool lo v | None => true end &&
      match lte r with Some hi => Qle_bool v hi | None => true end
  end.

(** Whether a document satisfies the filter. *)
Definition matches (f : Filter) (p : Project.t) : bool :=
  match isPremium f with
  | None => true
  | Some premium_ne_true => negb (Project.isPremium p)
  | Some premium_true => Project.isPremium p
  end &&
  match category f with
  | None => true
  | Some (category_is c) => Project.category p =? c
  | Some (category_in cs) => existsb (String.eqb (Project.category p)) cs
  end &&
  match status f with
  | None => true
  | Some s => Project.Status_eqb (Project.status p) s
  end &&
  in_range (roiPercent f) (Project.roiPercent p) &&
  in_range (targetAmount f) (Project.targetAmount p) &&
  in_range (durationMonths f) (inject_Z (Project.durationMonths p)) &&
  match or_regex f with
  | None => true
  | Some pattern => regex_i pattern (Project.title p) || regex_i pattern (Project.description p)
  end.

(** The stored value a sort key reads; [progress] is not stored. *)
Definition sort_value (k : AdvancedSearchInput.SortBy) (p : Project.t) : Q :=
  match k with
  | AdvancedSearchInput.createdAt => inject_Z (Project.createdAt p)
  | AdvancedSearchInput.roiPercent => Project.roiPercent p
  | AdvancedSearchInput.targetAmount => Project.targetAmount p
  | AdvancedSearchInput.fundedAmount => Project.fundedAmount p
  | AdvancedSearchInput.durationMonths => inject_Z (Project.durationMonths p)
  | AdvancedSearchInput.progress => 0
  end.

(** [a] may come before [b] under the sort object. *)
Definition before (o : Sort) (a b : Project.t) : bool :=
  if (sort_direction o =? 1)%Z
  then Qle_bool (sort_value (sort_key o) a) (sort_value (sort_key o) b)
  else Qle_bool (sort_value (sort_key o) b) (sort_value (sort_key o) a).

Fixpoint insert_sorted (o : Sort) (x : Project.t) (l : list Project.t) : list Project.t :=
  match l with
  | [] => [x]
  | y :: l' => if before o x y then x :: l else y :: insert_sorted o x l'
  end.

(** [.sort(sortObject)]: documents with equal keys keep their stored
    order. *)
Definition sort (o : Sort) (l : list Project.t) : list Project.t :=
  fold_right (insert_sorted o) [] l.

(** [.limit(n)]: zero means no limit. *)
Definition limit_to (n : Z) (l : list Project.t) : list Project.t :=
  if (n =? 0)%Z then l else take (Z.to_nat n) l.

(** [Project.find(filter).sort(sortObject).skip(skip).limit(limit)];
    the database rejects a negative skip. *)
Definition Project_find (f : Filter) (o : Sort) (skip limit : Z) : M (list Project.t) :=
  fun s =>
    if (skip <? 0)%Z then (inl MongoServerError, s)
    else (inr (limit_to limit (drop (Z.to_nat skip)
                 (sort o (List.filter (matches f) (Project_collection s))))), s).

(** [Project.countDocuments(filter)] *)
Definition Project_countDocuments (f : Filter) : M Z :=
  fun s => (inr (Z.of_nat (length (List.filter (matches f) (Project_collection s)))), s).

(** The filter both listings add to their fixed [isPremium] clause. *)
Definition listing_filter (premium : PremiumFilter) (query : ProjectQuery.t) : Filter :=
  let filter := mkFilter (Some premium) None None None None None None in
  let filter :=
    match ProjectQuery.category query with
    | Some c => if Js.truthy_string (Some c) then set_category (category_is c) filter else filter
    | None => filter
    end in
  let filter :=
    match ProjectQuery.status query with
    | Some s => set_status s filter
    | None => filter
    end in
  let filter :=
    if some_bound (ProjectQuery.minROI query) (ProjectQuery.maxROI query)
    then set_roiPercent (mkRange (ProjectQuery.minROI query) (ProjectQuery.maxROI query)) filter
    else filter in
  match ProjectQuery.search query with
  | Some s => if Js.truthy_string (Some s) then set_or_regex s filter else filter
  | None => filter
  end.

Definition listing (premium : PremiumFilter) (query : ProjectQuery.t) : M Listing :=
  let page := ProjectQuery.page query in
  let limit := ProjectQuery.limit query in
  let filter := listing_filter premium query in
  (* Calculate pagination *)
  let skip := ((page - 1) * limit)%Z in
  (* Execute query *)
  do projects <- Project_find filter createdAt_descending skip limit ;;
  do total <- Project_countDocuments filter ;;
  ret (mkListing projects (mkPagination page limit total (ceil_div total limit))).

(** [getAllProjects(query)]: premium projects excluded by default. *)
Definition getAllProjects (query : ProjectQuery.t) : M Listing :=
  listing premium_ne_true query.

(** [getPremiumProjects(query)]: must be premium projects. *)
Definition getPremiumProjects (query : ProjectQuery.t) : M Listing :=
  listing premium_true query.

(** [supplied && hasFeatureAccess(userPlan, feature)] *)
Definition and_access (supplied : bool) (userPlan : string) (feature : PlanFeatures.Feature)
  : M bool :=
  if supplied then
    match PlanFeatures.hasFeatureAccess userPlan feature with
    | inl err => throw err
    | inr b => ret b
    end
  else ret false.

(** [if (!hasFeatureAccess(userPlan, feature)) throw new AppError(text, 403)] *)
Definition require_access (userPlan : string) (feature : PlanFeatures.Feature) (text : string)
  : M unit :=
  match PlanFeatures.hasFeatureAccess userPlan feature with
  | inl err => throw err
  | inr true => ret tt
  | inr false => appError (Lit text) 403
  end.

(** [categories && categories.length > 0] *)
Definition nonempty (categories : option (list string)) : bool :=
  match categories with
  | Some (_ :: _) => true
  | _ => false
  end.

(** [advancedSearch(searchInput, userPlan)] *)
Definition advancedSearch (searchInput : AdvancedSearchInput.raw) (userPlan : string)
  : M SearchResult :=
  (* Validate input *)
  match AdvancedSearchInput.parse searchInput with
  | inl err => throw err
  | inr validatedInput =>
  let page := AdvancedSearchInput.page validatedInput in
  let limit := AdvancedSearchInput.limit validatedInput in
  let category := AdvancedSearchInput.category validatedInput in
  let status := AdvancedSearchInput.status validatedInput in
  let search := AdvancedSearchInput.search validatedInput in
  let categories := AdvancedSearchInput.categories validatedInput in
  let minROI := AdvancedSearchInput.minROI validatedInput in
  let maxROI := AdvancedSearchInput.maxROI validatedInput in
  let minAmount := AdvancedSearchInput.minAmount validatedInput in
  let maxAmount := AdvancedSearchInput.maxAmount validatedInput in
  let minDuration := AdvancedSearchInput.minDuration validatedInput in
  let maxDuration := AdvancedSearchInput.maxDuration validatedInput in
  let sortBy := AdvancedSearchInput.sortBy validatedInput in
  let sortOrder := AdvancedSearchInput.sortOrder validatedInput in
  (* Get user's plan features *)
  let planFeatures := PlanFeatures.getPlanFeatures userPlan in
  (* Build filter object based on plan restrictions *)
  let filter := mkFilter None None None None None None None in
  (* Basic filters (available to all plans) *)
  do byCategory <- and_access (Js.truthy_string category) userPlan PlanFeatures.basicFilters ;;
  let filter :=
    if byCategory then set_category (category_is (Js.string_or_else category EmptyString)) filter
    else filter in
  do byStatus <- and_access (Js.defined status) userPlan PlanFeatures.basicFilters ;;
  let filter :=
    match status with
    | Some s => if byStatus then set_status s filter else filter
    | None => filter
    end in
  do bySearch <- and_access (Js.truthy_string search) userPlan PlanFeatures.basicFilters ;;
  let filter :=
    if bySearch then set_or_regex (Js.string_or_else search EmptyString) filter else filter in
  (* Multiple categories (Plus/Premium only) *)
  do filter <-
    (if nonempty categories then
       run require_access userPlan PlanFeatures.multipleCategories
             "Multiple category selection requires Plus or Premium plan" ;;
       ret (set_category (category_in (default [] categories)) filter)
     else ret filter) ;;
  (* ROI range filter (Basic+) *)
  do filter <-
    (if some_bound minROI maxROI then
       run require_access userPlan PlanFeatures.roiRange
             "ROI range filter requires Basic plan or higher" ;;
       ret (set_roiPercent (mkRange minROI maxROI) filter)
     else ret filter) ;;
  (* Amount range filter (Plus+) *)
  do filter <-
    (if some_bound minAmount maxAmount then
       run require_access userPlan PlanFeatures.amountRange
             "Amount range filter requires Plus plan or higher" ;;
       ret (set_targetAmount (mkRange minAmount maxAmount) filter)
     else ret filter) ;;
  (* Duration filter (Plus+) *)
  do filter <-
    (if some_bound minDuration maxDuration then
       run require_access userPlan PlanFeatures.durationFilter
             "Duration filter requires Plus plan or higher" ;;
       ret (set_durationMonths
              (mkRange (option_map inject_Z minDuration) (option_map inject_Z maxDuration))
              filter)
     else ret filter) ;;
  (* Calculate pagination *)
  let skip := ((page - 1) * limit)%Z in
  (* Build sort object; advanced sorting (Premium only) *)
  do sortObject <-
    (if negb (AdvancedSearchInput.SortBy_eqb sortBy AdvancedSearchInput.createdAt) ||
        negb (AdvancedSearchInput.SortOrder_eqb sortOrder AdvancedSearchInput.desc) then
       run require_access userPlan PlanFeatures.advancedSort
             "Advanced sorting requires Premium plan" ;;
       (* Handle special case for 'progress' sorting: fall back to default sorting *)
       if AdvancedSearchInput.SortBy_eqb sortBy AdvancedSearchInput.progress then
         ret createdAt_descending
       else
         ret (mkSort sortBy
                (if AdvancedSearchInput.SortOrder_eqb sortOrder AdvancedSearchInput.asc
                 then 1 else -1)%Z)
     else ret createdAt_descending) ;;
  (* Execute query *)
  do projects <- Project_find filter sortObject skip limit ;;
  do total <- Project_countDocuments filter ;;
  ret (mkSearchResult
         (mkListing projects (mkPagination page limit total (ceil_div total limit)))
         planFeatures)
  end.

End Queries.

End ProjectService.

(** ** The project controller ([controllers/projectController.ts]) *)

Module ProjectController.

Open Scope handler_scope.

Section Handlers.

Variable regex_i : string -> string -> bool.

(** [req.user?.planKey || 'free'] *)
Definition userPlan (planKey : option string) : string := Js.string_or_else planKey "free".

(** [GET /api/projects] *)
Definition getAllProjects (query : ProjectQuery.raw)
  : Store -> Response ProjectService.Listing * Store :=
  respond 200 EmptyString
    (match ProjectQuery.parse query with
     | inl err => throw err
     | inr validatedQuery => ProjectService.getAllProjects regex_i validatedQuery
     end).

(** [POST /api/projects/search] *)
Definition advancedSearch (planKey : option string) (body : AdvancedSearchInput.raw)
  : Store -> Response ProjectService.SearchResult * Store :=
  respond 200 EmptyString (ProjectService.advancedSearch regex_i body (userPlan planKey)).

(** [GET /api/projects/premium]: the plan check answers 403 itself. *)
Definition getPremiumProjects (planKey : option string) (query : ProjectQuery.raw)
  : Store -> Response ProjectService.Listing * Store :=
  fun s =>
    (* Check if user has premium plan *)
    if negb (userPlan planKey =? "premium") then
      (Failure (mkErrorResponse 403 (Lit "Premium plan required to access premium projects")), s)
    else
      respond 200 EmptyString
        (match ProjectQuery.parse query with
         | inl err => throw err
         | inr validatedQuery => ProjectService.getPremiumProjects regex_i validatedQuery
         end) s.

End Handlers.

End ProjectController.


(** * The specification's vocabulary

    Definitions that follow the words of the specification, to be compared
    with the handlers above. *)

(** ** The preconditions of invest, in the order the specification lists them *)

Module InvestSpec.

Inductive Precondition : Type :=
| ProjectExists       (* 1. Project must exist -> NotFound *)
| ProjectActive       (* 2. Project.status must be active -> InvalidState *)
| MinimumMet          (* 3. amount >= Project.minInvestment -> Validation *)
| NotFullyFunded      (* 4. Project.fundedAmount < Project.targetAmount -> InvalidState *)
| WithinHeadroom.     (* 5. Project.fundedAmount + amount <= Project.targetAmount -> Validation *)

Definition listed : list Precondition :=
  [ ProjectExists; ProjectActive; MinimumMet; NotFullyFunded; WithinHeadroom ].

(** Whether a precondition holds of the project an id finds and an amount;
    a precondition about the project cannot hold when there is none. *)
Definition holds (project : option Project.t) (amount : Q) (c : Precondition) : bool :=
  match project with
  | None => false
  | Some p =>
      match c with
      | ProjectExists => true
      | ProjectActive => Project.Status_eqb (Project.status p) Project.active
      | MinimumMet => Qle_bool (Project.minInvestment p) amount
      | NotFullyFunded => Js.Qlt_bool (Project.fundedAmount p) (Project.targetAmount p)
      | WithinHeadroom => Qle_bool (Project.fundedAmount p + amount) (Project.targetAmount p)
      end
  end.

(** The first precondition of the list that is violated. *)
Definition first_violated (project : option Project.t) (amount : Q) : option Precondition :=
  List.find (fun c => negb (holds project amount c)) listed.

(** The funding headroom: targetAmount - fundedAmount. *)
Definition headroom (project : option Project.t) : Q :=
  match project with
  | Some p => Project.targetAmount p - Project.fundedAmount p
  | None => 0
  end.

(** The failure the specification attaches to each precondition. *)
Definition failure_kind (c : Precondition) : Kind :=
  match c with
  | ProjectExists => NotFound
  | ProjectActive => InvalidState
  | MinimumMet => Validation
  | NotFullyFunded => InvalidState
  | WithinHeadroom => Validation
  end.

(** The error of the handler that reports each precondition. *)
Definition failure (project : option Project.t) (c : Precondition) : Thrown :=
  match c with
  | ProjectExists => AppErr (mkAppError (Lit "Project not found") 404)
  | ProjectActive =>
      AppErr (mkAppError (Lit "This project is not accepting investments at the moment") 400)
  | MinimumMet =>
      AppErr (mkAppError
                (MinimumInvestmentIs
                   (match project with Some p => Project.minInvestment p | None => 0 end))
                400)
  | NotFullyFunded => AppErr (mkAppError (Lit "This project is fully funded") 400)
  | WithinHeadroom => AppErr (mkAppError (MaximumYouCanInvest (headroom project)) 400)
  end.

End InvestSpec.

(** ** The preconditions of cancel *)

Module CancelSpec.

Inductive Precondition : Type :=
| InvestmentExists    (* 1. Investment must exist -> NotFound *)
| OwnerOrAdmin        (* 2. caller is the owner or an admin -> Authorization *)
| NotRefunded         (* 3. status must not already be refunded -> InvalidState *)
| WithinWindow.       (* 4. non-admin callers: within 24 hours -> InvalidState *)

Definition listed : list Precondition :=
  [ InvestmentExists; OwnerOrAdmin; NotRefunded; WithinWindow ].

(** 24 hours, in milliseconds. *)
Definition window : Z := 24 * 60 * 60 * 1000.

Definition holds (investment : option Investment.t) (now : Z) (callerId : ObjectId)
    (isAdmin : bool) (c : Precondition) : bool :=
  match investment with
  | None => false
  | Some i =>
      match c with
      | InvestmentExists => true
      | OwnerOrAdmin => (Investment.userId i =? callerId)%nat || isAdmin
      | NotRefunded => negb (Investment.Status_eqb (Investment.status i) Investment.refunded)
      | WithinWindow => isAdmin || (now - Investment.investmentDate i <=? window)%Z
      end
  end.

Definition first_violated (investment : option Investment.t) (now : Z) (callerId : ObjectId)
    (isAdmin : bool) : option Precondition :=
  List.find (fun c => negb (holds investment now callerId isAdmin c)) listed.

Definition failure_kind (c : Precondition) : Kind :=
  match c with
  | InvestmentExists => NotFound
  | OwnerOrAdmin => Authorization
  | NotRefunded => InvalidState
  | WithinWindow => InvalidState
  end.

Definition failure (c : Precondition) : Thrown :=
  match c with
  | InvestmentExists => AppErr (mkAppError (Lit "Investment not found") 404)
  | OwnerOrAdmin =>
      AppErr (mkAppError (Lit "You do not have permission to cancel this investment") 403)
  | NotRefunded => AppErr (mkAppError (Lit "Investment is already refunded") 400)
  | WithinWindow =>
      AppErr (mkAppError (Lit "Investments can only be cancelled within 24 hours") 400)
  end.

End CancelSpec.

(** ** Sequences of invest and cancel calls *)

Module Ledger.

(** A call of one of the two ledger operations. *)
Inductive Call : Type :=
| Invest (now : Z) (userId : ObjectId) (body : InvestmentController.CreateBody)
| Cancel (now : Z) (userId : ObjectId) (isAdmin : bool) (id : ObjectId)
    (reason : option string).

(** The store a call leaves, whether it answers with a success or not. *)
Definition perform (s : Store) (c : Call) : Store :=
  match c with
  | Invest now userId body =>
      snd (InvestmentController.createInvestment now userId body s)
  | Cancel now userId isAdmin id reason =>
      snd (InvestmentController.cancelInvestment now userId isAdmin id reason s)
  end.

Definition perform_all (calls : list Call) (s : Store) : Store :=
  fold_left perform calls s.

End Ledger.

(** ** Sample documents *)

Module Sample.

(** A project with a target of 1000, a minimum investment of 100 and a
    return of 20%, created by user 0 at instant 0. *)
Definition solar_farm (funded : Q) (investors : Z) (status : Project.Status) : Project.t :=
  Project.mk "Solar farm" "A solar farm by the sea" "energy"
    100 20 1000 funded investors 12 status false 0%nat 0%Z.

(** An investment of 100 in project 0, placed at instant 0 by user 1. *)
Definition stake : Investment.t :=
  Investment.mk 1%nat 0%nat 100 Investment.completed "stripe" 0 120 (Some (0%Z, 12%Z))
    None None.

(** Two investments in project 0, then the cancellation of the first by
    its owner an hour later. *)
Definition history : list Ledger.Call :=
  [ Ledger.Invest 0 1%nat
      (InvestmentController.mkCreateBody (Some 0%nat) (Some 100%Q) (Some "stripe"));
    Ledger.Invest 10 2%nat
      (InvestmentController.mkCreateBody (Some 0%nat) (Some 250%Q) (Some "paypal"));
    Ledger.Cancel 3600000 1%nat false 0%nat None ].

(** A premium project, created after the solar farm. *)
Definition wind_park : Project.t :=
  Project.mk "Wind park" "A wind park on the hill" "energy"
    50 30 5000 2500 10 24 Project.active true 0%nat 2%Z.

Definition catalogue : Store :=
  mkStore [solar_farm 900 3 Project.active; wind_park] [] [].

(** A regular expression engine for which every text matches. *)
Definition matches_everything (pattern text : string) : bool := true.

(** [GET /api/projects] with no query string. *)
Definition first_page : ProjectQuery.raw :=
  ProjectQuery.mkRaw None None None None None None None.

(** A search body with, at most, categories, a minimum ROI and sort fields. *)
Definition request (categories : option (list string)) (minROI : option Q)
    (sortBy sortOrder : option string) : AdvancedSearchInput.raw :=
  AdvancedSearchInput.mkRaw None None None None None categories minROI None None None
    None None sortBy sortOrder.

(** What the schema makes of such a body. *)
Definition validated (categories : option (list string)) (minROI : option Q)
    (sortBy : AdvancedSearchInput.SortBy) (sortOrder : AdvancedSearchInput.SortOrder)
  : AdvancedSearchInput.t :=
  AdvancedSearchInput.mk 1 20 None None None categories minROI None None None None None
    sortBy sortOrder.

End Sample.

(** ** The gated dimensions of a search *)

Module Gating.

Import PlanFeatures.

(** The gated filter dimensions, in the order the search checks them. *)
Definition gated : list Feature :=
  [ multipleCategories; roiRange; amountRange; durationFilter ].

(** Whether a request supplies a value for a dimension: a non-empty list of
    categories, or a bound of the range. *)
Definition supplied (v : AdvancedSearchInput.t) (dimension : Feature) : bool :=
  match dimension with
  | multipleCategories => ProjectService.nonempty (AdvancedSearchInput.categories v)
  | roiRange =>
      ProjectService.some_bound (AdvancedSearchInput.minROI v) (AdvancedSearchInput.maxROI v)
  | amountRange =>
      ProjectService.some_bound (AdvancedSearchInput.minAmount v)
        (AdvancedSearchInput.maxAmount v)
  | durationFilter =>
      ProjectService.some_bound (AdvancedSearchInput.minDuration v)
        (AdvancedSearchInput.maxDuration v)
  | basicFilters | advancedSort => false
  end.

(** The plan lacks the capability: its flag is false. *)
Definition lacks (userPlan : string) (dimension : Feature) : Prop :=
  hasFeatureAccess userPlan dimension = inr false.

(** The same as a test. *)
Definition lacking (userPlan : string) (dimension : Feature) : bool :=
  match hasFeatureAccess userPlan dimension with
  | inr false => true
  | _ => false
  end.

(** The first dimension, in the order of [gated], for which the request
    supplies a value and the plan lacks the capability. *)
Definition first_denied (v : AdvancedSearchInput.t) (userPlan : string) : option Feature :=
  List.find (fun dimension => supplied v dimension && lacking userPlan dimension) gated.

(** The message of the 403 the search throws for each gated dimension. *)
Definition refusal (dimension : Feature) : option string :=
  match dimension with
  | multipleCategories => Some "Multiple category selection requires Plus or Premium plan"
  | roiRange => Some "ROI range filter requires Basic plan or higher"
  | amountRange => Some "Amount range filter requires Plus plan or higher"
  | durationFilter => Some "Duration filter requires Plus plan or higher"
  | basicFilters | advancedSort => None
  end.

(** The display name of the cheapest plan that grants a capability. *)
Definition minimum_plan_name (dimension : Feature) : string :=
  match own_property PLAN_FEATURES (getMinimumPlanForFeature dimension) with
  | Some p => name p
  | None => EmptyString
  end.





End Gating.


(** * Reading the ledger and the catalogue

    The statics and the virtual of [models/Investment], the handlers of the
    investment controller that only read, and the statistics of the project
    service. *)

(** The documents of the Investment collection. *)
Definition Investment_collection (s : Store) : list Investment.t := investments s.

(** ** Aggregation results *)

Module Aggregate.

Open Scope Q_scope.

(** [x || 0] on a number that may be missing. *)
Definition or_zero (x : option Q) : Q :=
  match x with
  | Some x => if Qeq_bool x 0 then 0 else x
  | None => 0
  end.

(** [n || 0] on a count that may be missing. *)
Definition count_or_zero (n : option Z) : Z :=
  match n with
  | Some n => Js.or_else n 0
  | None => 0
  end.

(** [{ $sum: '$path' }] over the documents that reach the stage. *)
Fixpoint sum {A : Type} (path : A -> Q) (l : list A) : Q :=
  match l with
  | [] => 0
  | x :: l' => path x + sum path l'
  end.

End Aggregate.

(** ** The statics of [models/Investment] *)

Module InvestmentStatics.

Open Scope Q_scope.

(** The output of
    [{ $group: { _id: null, total: { $sum: '$amount' }, count: { $sum: 1 } } }]:
    one group when a document reaches the stage, none otherwise. *)
Record Group : Type := mkGroup { total : Q; count : Z }.

Definition group (matched : list Investment.t) : list Group :=
  match matched with
  | [] => []
  | _ :: _ => [mkGroup (Aggregate.sum Investment.amount matched) (Z.of_nat (length matched))]
  end.

(** [{ $match: { userId, status: 'completed' } }] *)
Definition completed_by_user (userId : ObjectId) (i : Investment.t) : bool :=
  (Investment.userId i =? userId)%nat &&
  Investment.Status_eqb (Investment.status i) Investment.completed.

(** [{ $match: { projectId, status: 'completed' } }] *)
Definition completed_in_project (projectId : ObjectId) (i : Investment.t) : bool :=
  (Investment.projectId i =? projectId)%nat &&
  Investment.Status_eqb (Investment.status i) Investment.completed.

(** [Investment.getTotalInvestedByUser(userId)] *)
Definition getTotalInvestedByUser (userId : ObjectId) : M Q :=
  fun s =>
    let result := group (List.filter (completed_by_user userId) (Investment_collection s)) in
    (inr (Aggregate.or_zero (option_map total (head result))), s).

(** [Investment.getTotalInvestedInProject(projectId)] *)
Definition getTotalInvestedInProject (projectId : ObjectId) : M Group :=
  fun s =>
    let result :=
      group (List.filter (completed_in_project projectId) (Investment_collection s)) in
    (inr (mkGroup (Aggregate.or_zero (option_map total (head result)))
                  (Aggregate.count_or_zero (option_map count (head result)))), s).

End InvestmentStatics.

(** ** The reading handlers of the investment controller

    [req.query.page] and [req.query.limit] are the integers [Number(...)]
    makes of them, or absent. [populate] joins a projection of the referenced
    document into the response; the handlers below return the reference. *)

Module InvestmentQueries.

Open Scope handler_scope.

(** The value of the [status] path. *)
Definition status_name (s : Investment.Status) : string :=
  match s with
  | Investment.pending => "pending"
  | Investment.completed => "completed"
  | Investment.failed => "failed"
  | Investment.refunded => "refunded"
  end.

(** The query object: an absent key is [None]. *)
Record Filter : Type := mkFilter {
  userId : option ObjectId;
  projectId : option ObjectId;
  status : option string
}.

Definition matches (f : Filter) (i : Investment.t) : bool :=
  match userId f with
  | Some u => (Investment.userId i =? u)%nat
  | None => true
  end &&
  match projectId f with
  | Some p => (Investment.projectId i =? p)%nat
  | None => true
  end &&
  match status f with
  | Some name => status_name (Investment.status i) =? name
  | None => true
  end.

(** A document with its [_id]. *)
Definition Document : Type := (ObjectId * Investment.t)%type.

Fixpoint documents_from (id : ObjectId) (l : list Investment.t) : list Document :=
  match l with
  | [] => []
  | i :: l' => (id, i) :: documents_from (S id) l'
  end.

(** [Investment.countDocuments(query)] *)
Definition Investment_countDocuments (f : Filter) : M Z :=
  fun s => (inr (Z.of_nat (length (List.filter (matches f) (Investment_collection s)))), s).

Record Pagination : Type := mkPagination {
  page : Z;
  limit : Z;
  total : Z;
  (* [Math.ceil(total / limit)]; [None] when the quotient is not finite *)
  pages : option Z
}.

(** [Math.ceil(total / limit)] *)
Definition ceil_quotient (total limit : Z) : option Z :=
  if (limit =? 0)%Z then None else Some (- ((- total) / limit))%Z.

(** [GET /api/investments/:id]: [isAdmin] is [req.user.role === 'admin']. *)
Definition getInvestmentById (userId : ObjectId) (isAdmin : bool) (id : ObjectId)
  : M Investment.t :=
  do investment <- Investment_findById id ;;
  match investment with
  | None => appError (Lit "Investment not found") 404
  | Some investment =>
  (* Check if user owns this investment or is admin *)
  if negb (Investment.userId investment =? userId)%nat && negb isAdmin then
    appError (Lit "You do not have permission to view this investment") 403
  else ret investment
  end.

Record StatusGroup : Type := mkStatusGroup {
  group_id : string;
  count : Z;
  totalAmount : Q;
  totalExpectedReturn : Q;
  totalActualReturn : Q
}.

Definition statuses : list Investment.Status :=
  [ Investment.pending; Investment.completed; Investment.failed; Investment.refunded ].

(** [{ $group: { _id: '$status', ... } }]: one group for each status a
    document that reaches the stage has, listed here in the order of the
    schema's enum. No stored document has an [actualReturn]. *)
Definition group_by_status (matched : list Investment.t) : list StatusGroup :=
  flat_map
    (fun st =>
       match List.filter (fun i => Investment.Status_eqb (Investment.status i) st) matched with
       | [] => []
       | g => [mkStatusGroup (status_name st) (Z.of_nat (length g))
                 (Aggregate.sum Investment.amount g)
                 (Aggregate.sum Investment.expectedReturn g) 0]
       end)
    statuses.

Record Stats : Type := mkStats {
  stats : list StatusGroup;
  activeProjects : Z
}.

(** [GET /api/investments/stats] *)
Definition getInvestmentStats (userId : ObjectId) : M Stats :=
  fun s =>
    let stats :=
      group_by_status (List.filter (matches (mkFilter (Some userId) None None))
                         (Investment_collection s)) in
    (* Get active projects count *)
    let activeProjects :=
      nodup Nat.eq_dec
        (map Investment.projectId
           (List.filter (matches (mkFilter (Some userId) None (Some "completed")))
              (Investment_collection s))) in
    (inr (mkStats stats (Z.of_nat (length activeProjects))), s).

Record MyInvestments : Type := mkMyInvestments {
  my_investments : list Document;
  my_pagination : Pagination;
  totalInvested : Q;
  totalInvestments : Z
}.

Record ProjectInvestments : Type := mkProjectInvestments {
  project_investments : list Document;
  project_pagination : Pagination;
  stats_totalInvested : Q;
  stats_totalInvestors : Z
}.

Section Timestamps.

(** [timestamps: true]: the instant Mongoose recorded when the document
    with an id was created. *)
Variable createdAt : ObjectId -> Z.

(** [a] may come before [b] under [{ createdAt: -1 }]. *)
Definition before (a b : Document) : bool := (createdAt (fst b) <=? createdAt (fst a))%Z.

Fixpoint insert_sorted (x : Document) (l : list Document) : list Document :=
  match l with
  | [] => [x]
  | y :: l' => if before x y then x :: l else y :: insert_sorted x l'
  end.

(** [.sort({ createdAt: -1 })]: documents created at the same instant
    keep their stored order. *)
Definition sort (l : list Document) : list Document := fold_right insert_sorted [] l.

(** [.limit(n)]: zero means no limit, and a negative limit is sent as its
    absolute value. *)
Definition limit_to (n : Z) (l : list Document) : list Document :=
  if (n =? 0)%Z then l else take (Z.abs_nat n) l.

(** [Investment.find(query).sort({ createdAt: -1 }).skip(skip).limit(limit)];
    the database rejects a negative skip. *)
Definition Investment_find (f : Filter) (skip limit : Z) : M (list Document) :=
  fun s =>
    if (skip <? 0)%Z then (inl MongoServerError, s)
    else (inr (limit_to limit (drop (Z.to_nat skip)
                 (sort (List.filter (fun d => matches f (snd d))
                          (documents_from 0 (Investment_collection s)))))), s).

(** [GET /api/investments/my-investments] *)
Definition getMyInvestments (userId : ObjectId) (status : option string)
    (page limit : option Z) : M MyInvestments :=
  let page := default 1%Z page in
  let limit := default 20%Z limit in
  let query :=
    if Js.truthy_string status then mkFilter (Some userId) None status
    else mkFilter (Some userId) None None in
  let skip := ((page - 1) * limit)%Z in
  do investments <- Investment_find query skip limit ;;
  do total <- Investment_countDocuments query ;;
  (* Calculate totals *)
  do totalInvested <- InvestmentStatics.getTotalInvestedByUser userId ;;
  ret (mkMyInvestments investments
         (mkPagination page limit total (ceil_quotient total limit))
         totalInvested total).

(** [GET /api/investments/project/:projectId] *)
Definition getProjectInvestments (projectId : ObjectId) (page limit : option Z)
  : M ProjectInvestments :=
  let page := default 1%Z page in
  let limit := default 20%Z limit in
  do project <- Project_findById projectId ;;
  match project with
  | None => appError (Lit "Project not found") 404
  | Some _ =>
  let skip := ((page - 1) * limit)%Z in
  do investments <-
    Investment_find (mkFilter None (Some projectId) (Some "completed")) skip limit ;;
  do total <- Investment_countDocuments (mkFilter None (Some projectId) (Some "completed")) ;;
  do stats <- InvestmentStatics.getTotalInvestedInProject projectId ;;
  ret (mkProjectInvestments investments
         (mkPagination page limit total (ceil_quotient total limit))
         (InvestmentStatics.total stats) (InvestmentStatics.count stats))
  end.

End Timestamps.

End InvestmentQueries.

(** ** The statistics of the project service ([getProjectStats]) *)

Module ProjectStats.

Record t : Type := mk {
  totalProjects : Z;
  activeProjects : Z;
  completedProjects : Z;
  totalFunding : Q
}.

(** [Project.countDocuments({ status })] *)
Definition count_status (st : Project.Status) (l : list Project.t) : Z :=
  Z.of_nat (length (List.filter (fun p => Project.Status_eqb (Project.status p) st) l)).

(** [{ $group: { _id: null, total: { $sum: '$fundedAmount' } } }]: one
    group when the collection has a document, none otherwise. *)
Definition group (l : list Project.t) : list Q :=
  match l with
  | [] => []
  | _ :: _ => [Aggregate.sum Project.fundedAmount l]
  end.

Definition getProjectStats : M t :=
  fun s =>
    let totalProjects := Z.of_nat (length (Project_collection s)) in
    let activeProjects := count_status Project.active (Project_collection s) in
    let completedProjects := count_status Project.completed (Project_collection s) in
    let totalFunding := group (Project_collection s) in
    (inr (mk totalProjects activeProjects completedProjects
            (Aggregate.or_zero (head totalFunding))), s).

End ProjectStats.

(** ** Vocabulary for the properties of the readers *)

Module Reading.

Open Scope Q_scope.

(** The terms of a project, which the ledger operations leave alone. *)
Definition same_terms (p p' : Project.t) : Prop :=
  Project.title p' = Project.title p /\
  Project.description p' = Project.description p /\
  Project.category p' = Project.category p /\
  Project.minInvestment p' = Project.minInvestment p /\
  Project.roiPercent p' = Project.roiPercent p /\
  Project.targetAmount p' = Project.targetAmount p /\
  Project.durationMonths p' = Project.durationMonths p /\
  Project.isPremium p' = Project.isPremium p /\
  Project.createdBy p' = Project.createdBy p /\
  Project.createdAt p' = Project.createdAt p.

(** What an investment was placed for, which a cancellation leaves alone. *)
Definition same_stake (i i' : Investment.t) : Prop :=
  Investment.userId i' = Investment.userId i /\
  Investment.projectId i' = Investment.projectId i /\
  Investment.amount i' = Investment.amount i /\
  Investment.paymentMethod i' = Investment.paymentMethod i /\
  Investment.investmentDate i' = Investment.investmentDate i /\
  Investment.expectedReturn i' = Investment.expectedReturn i /\
  Investment.expectedReturnDate i' = Investment.expectedReturnDate i.

(** What no ledger operation undoes: the payments, the number of projects
    and the terms of each, the stored investments and what each was
    placed for. *)
Definition preserved (s s' : Store) : Prop :=
  payments s' = payments s /\
  length (projects s') = length (projects s) /\
  (forall pid p, projects s !! pid = Some p ->
     exists p', projects s' !! pid = Some p' /\ same_terms p p') /\
  (forall id i, investments s !! id = Some i ->
     exists i', investments s' !! id = Some i' /\ same_stake i i').

(** A handler body that leaves the store as it found it, returns a value
    for which [P] holds or throws one for which [E] holds. *)
Definition answers {A : Type} (m : M A) (s : Store) (P : A -> Prop) (E : Thrown -> Prop)
  : Prop :=
  match m s with
  | (inr a, s') => s' = s /\ P a
  | (inl err, s') => s' = s /\ E err
  end.

(** The listing query with another page number. *)
Definition with_page (page : Z) (q : ProjectQuery.t) : ProjectQuery.t :=
  ProjectQuery.mk page (ProjectQuery.limit q) (ProjectQuery.category q)
    (ProjectQuery.status q) (ProjectQuery.minROI q) (ProjectQuery.maxROI q)
    (ProjectQuery.search q).

(** The projects a service call returned, none when it threw. *)
Definition returned (result : (Thrown + ProjectService.Listing) * Store) : list Project.t :=
  match fst result with
  | inr listing => ProjectService.projects listing
  | inl _ => []
  end.

(** A search body with its single category removed. *)
Definition without_category (b : AdvancedSearchInput.raw) : AdvancedSearchInput.raw :=
  AdvancedSearchInput.mkRaw
    (AdvancedSearchInput.raw_page b) (AdvancedSearchInput.raw_limit b)
    None (AdvancedSearchInput.raw_status b)
    (AdvancedSearchInput.raw_search b) (AdvancedSearchInput.raw_categories b)
    (AdvancedSearchInput.raw_minROI b) (AdvancedSearchInput.raw_maxROI b)
    (AdvancedSearchInput.raw_minAmount b) (AdvancedSearchInput.raw_maxAmount b)
    (AdvancedSearchInput.raw_minDuration b) (AdvancedSearchInput.raw_maxDuration b)
    (AdvancedSearchInput.raw_sortBy b) (AdvancedSearchInput.raw_sortOrder b).

(** A search body with no field. *)
Definition empty_search : AdvancedSearchInput.raw :=
  AdvancedSearchInput.mkRaw None None None None None None None None None None
    None None None None.

End Reading.

(** * The investment ledger in double precision

    The investment controller once more, with every amount the binary64
    number JavaScript computes with ([PrimFloat.float]): the sum of line 454,
    the expected return of line 463, the funding of lines 487 and 803 and the
    comparisons of lines 440, 449, 454 and 491 round and compare as IEEE 754
    prescribes. [save()] and [create()] run the validators of every path of
    the document, as Mongoose does for a document it loaded or built.
    Counters, months and instants stay whole numbers ([Z]): they are far
    below 2^53, where binary64 arithmetic on them is exact. A decimal
    literal denotes the nearest binary64 number, as it does in JavaScript. *)

#[local] Set Warnings "-inexact-float".

Module Double.

Local Open Scope float_scope.

(** [!x] on a number: true for 0, -0 and NaN. *)
Definition falsy (x : float) : bool := (x =? 0) || is_nan x.

(** A number that is not NaN. *)
Definition number (x : float) : Prop := Prim2SF x <> S754_nan.

(** A number at or above zero: a zero, a positive finite number or
    +Infinity. *)
Definition nonnegative (x : float) : bool :=
  match Prim2SF x with
  | S754_zero _ | S754_infinity false | S754_finite false _ _ => true
  | _ => false
  end.

(** *** Errors ([middlewares/errorHandler.ts]) *)

Module Errors.

Inductive Message : Type :=
| Lit (s : string)
| MinimumInvestmentIs (minInvestment : float)
| MaximumYouCanInvest (remaining : float).

Record AppError : Type := mkAppError { message : Message; statusCode : Z }.

Inductive Thrown : Type :=
| AppErr (e : AppError)
| ValidationError (model : string) (paths : list string).

Record ErrorResponse : Type := mkErrorResponse { status : Z; body : Message }.

Definition errorHandler (err : Thrown) : ErrorResponse :=
  match err with
  | ValidationError _ _ => mkErrorResponse 400 (Lit "Validation error")
  | AppErr e => mkErrorResponse (Js.or_else (statusCode e) 500) (message e)
  end.

(** The kind of a thrown value, as for the search handlers. *)
Definition kind (err : Thrown) : Kind :=
  match err with
  | ValidationError _ _ => Validation
  | AppErr e =>
      if (statusCode e =? 404)%Z then NotFound
      else if (statusCode e =? 403)%Z then Authorization
      else if (statusCode e =? 400)%Z then
        match message e with
        | Lit s => if existsb (String.eqb s) state_messages then InvalidState else Validation
        | _ => Validation
        end
      else Internal
  end.

End Errors.
Import Errors.

(** The paths of a document that fail their validator. *)
Definition failing {A : Type} (validators : list (string * (A -> bool))) (doc : A)
  : list string :=
  map fst (List.filter (fun v => negb (snd v doc)) validators).

(** *** [models/Project] *)

Module Project.

Inductive Status : Type := active | completed | closed.

Definition Status_eqb (a b : Status) : bool :=
  match a, b with
  | active, active | completed, completed | closed, closed => true
  | _, _ => false
  end.

Record t : Type := mk {
  title : string;
  description : string;
  category : string;
  minInvestment : float;
  roiPercent : float;
  targetAmount : float;
  fundedAmount : float;
  totalInvestors : Z;
  durationMonths : Z;
  status : Status;
  isPremium : bool;
  createdBy : ObjectId;
  createdAt : Z
}.

Definition set_fundedAmount (v : float) (p : t) : t :=
  mk (title p) (description p) (category p) (minInvestment p) (roiPercent p)
     (targetAmount p) v (totalInvestors p) (durationMonths p) (status p)
     (isPremium p) (createdBy p) (createdAt p).

Definition set_totalInvestors (v : Z) (p : t) : t :=
  mk (title p) (description p) (category p) (minInvestment p) (roiPercent p)
     (targetAmount p) (fundedAmount p) v (durationMonths p) (status p)
     (isPremium p) (createdBy p) (createdAt p).

Definition set_status (v : Status) (p : t) : t :=
  mk (title p) (description p) (category p) (minInvestment p) (roiPercent p)
     (targetAmount p) (fundedAmount p) (totalInvestors p) (durationMonths p) v
     (isPremium p) (createdBy p) (createdAt p).

(** The validators of the schema, path by path: [required], [minlength]
    and [maxlength] on the strings, [min] and [max] on the numbers. The
    enum of [status] and the required [createdBy] hold of every value of
    their types. *)
Definition validators : list (string * (t -> bool)) :=
  [ ("title", fun p => (3 <=? String.length (title p))%nat &&
                       (String.length (title p) <=? 200)%nat);
    ("description", fun p => (10 <=? String.length (description p))%nat &&
                             (String.length (description p) <=? 2000)%nat);
    ("category", fun p => negb (category p =? EmptyString)%string);
    ("minInvestment", fun p => 0 <=? minInvestment p);
    ("roiPercent", fun p => (0 <=? roiPercent p) && (roiPercent p <=? 1000));
    ("targetAmount", fun p => 0 <=? targetAmount p);
    ("fundedAmount", fun p => 0 <=? fundedAmount p);
    ("totalInvestors", fun p => (0 <=? totalInvestors p)%Z);
    ("durationMonths", fun p => (1 <=? durationMonths p)%Z &&
                                (durationMonths p <=? 240)%Z) ].

Definition invalid (p : t) : list string := failing validators p.

(** A document the schema accepts. *)
Definition schema_valid (p : t) : Prop := invalid p = [].

End Project.

(** *** [models/Investment] *)

Module Investment.

Inductive Status : Type := pending | completed | failed | refunded.

Definition Status_eqb (a b : Status) : bool :=
  match a, b with
  | pending, pending | completed, completed | failed, failed | refunded, refunded => true
  | _, _ => false
  end.

Record t : Type := mk {
  userId : ObjectId;
  projectId : ObjectId;
  amount : float;
  status : Status;
  paymentMethod : string;
  investmentDate : Z;
  expectedReturn : float;
  (* [new Date()] moved forward by a number of months: the instant and the months *)
  expectedReturnDate : option (Z * Z);
  actualReturn : option float;
  notes : option string;
  refundReason : option string;
  refundDate : option Z
}.

Definition paymentMethods : list string := [ "stripe"; "paypal"; "bank_transfer"; "wallet" ].

Definition at_most (n : nat) (text : option string) : bool :=
  match text with
  | Some r => (String.length r <=? n)%nat
  | None => true
  end.

Definition validators : list (string * (t -> bool)) :=
  [ ("amount", fun i => 0 <=? amount i);
    ("paymentMethod", fun i => existsb (String.eqb (paymentMethod i)) paymentMethods);
    ("expectedReturn", fun i => 0 <=? expectedReturn i);
    ("actualReturn", fun i => match actualReturn i with
                              | Some r => 0 <=? r
                              | None => true
                              end);
    ("notes", fun i => at_most 1000 (notes i));
    ("refundReason", fun i => at_most 500 (refundReason i)) ].

Definition invalid (i : t) : list string := failing validators i.

(** The cancellation: [status], [refundReason] and [refundDate] assigned. *)
Definition refund (reason : string) (now : Z) (i : t) : t :=
  mk (userId i) (projectId i) (amount i) refunded (paymentMethod i)
     (investmentDate i) (expectedReturn i) (expectedReturnDate i)
     (actualReturn i) (notes i) (Some reason) (Some now).

End Investment.

(** *** [models/Payment] *)

Module Payment.

Record t : Type := mk {
  userId : ObjectId;
  subscriptionId : option ObjectId;
  (* [`INV-${investment._id}`] *)
  transactionId : ObjectId;
  amount : float;
  currency : string;
  status : string;
  method : string;
  description : string
}.

Definition statuses : list string := [ "pending"; "succeeded"; "failed"; "refunded" ].

Definition validators : list (string * (t -> bool)) :=
  [ ("subscriptionId", fun p => match subscriptionId p with
                                | Some _ => true
                                | None => false
                                end);
    ("amount", fun p => 0 <=? amount p);
    ("currency", fun p => negb (currency p =? EmptyString)%string);
    ("status", fun p => existsb (String.eqb (status p)) statuses);
    ("method", fun p => negb (method p =? EmptyString)%string) ].

Definition invalid (p : t) : list string := failing validators p.

End Payment.

(** *** The store and the handlers' monad *)

Record Store : Type := mkStore {
  projects : list Project.t;
  investments : list Investment.t;
  payments : list Payment.t
}.

Definition M (A : Type) : Type := Store -> (Thrown + A) * Store.

Definition ret {A : Type} (a : A) : M A := fun s => (inr a, s).

Definition throw {A : Type} (err : Thrown) : M A := fun s => (inl err, s).

Definition bind {A B : Type} (m : M A) (k : A -> M B) : M B :=
  fun s =>
    match m s with
    | (inl err, s') => (inl err, s')
    | (inr a, s') => k a s'
    end.

Declare Scope ledger_scope.
Delimit Scope ledger_scope with ledger.
Notation "'do' x <- m ;; k" := (bind m (fun x => k))
  (at level 10, x name, m at level 99, k at level 200) : ledger_scope.
Notation "'run' m ;; k" := (bind m (fun _ => k))
  (at level 10, m at level 99, k at level 200) : ledger_scope.

Definition appError {A : Type} (msg : Message) (code : Z) : M A :=
  throw (AppErr (mkAppError msg code)).

(** [Project.findById(id)] *)
Definition Project_findById (id : ObjectId) : M (option Project.t) :=
  fun s => (inr (projects s !! id), s).

(** [project.save()] on a document [findById] loaded: the validators of
    every path run, and the document is written when all pass. *)
Definition Project_save (id : ObjectId) (p : Project.t) : M unit :=
  fun s =>
    match Project.invalid p with
    | [] => (inr tt, mkStore (<[id := p]> (projects s)) (investments s) (payments s))
    | bad => (inl (ValidationError "Project" bad), s)
    end.

(** [Investment.findById(id)] *)
Definition Investment_findById (id : ObjectId) : M (option Investment.t) :=
  fun s => (inr (investments s !! id), s).

(** [Investment.create(doc)]: every validator runs; the new document gets
    the next id. *)
Definition Investment_create (i : Investment.t) : M (ObjectId * Investment.t) :=
  fun s =>
    match Investment.invalid i with
    | [] => (inr (length (investments s), i),
             mkStore (projects s) (investments s ++ [i]) (payments s))
    | bad => (inl (ValidationError "Investment" bad), s)
    end.

(** [investment.save()] on a loaded document. *)
Definition Investment_save (id : ObjectId) (i : Investment.t) : M unit :=
  fun s =>
    match Investment.invalid i with
    | [] => (inr tt, mkStore (projects s) (<[id := i]> (investments s)) (payments s))
    | bad => (inl (ValidationError "Investment" bad), s)
    end.

(** [Payment.create(doc)] *)
Definition Payment_create (p : Payment.t) : M unit :=
  fun s =>
    match Payment.invalid p with
    | [] => (inr tt, mkStore (projects s) (investments s) (payments s ++ [p]))
    | bad => (inl (ValidationError "Payment" bad), s)
    end.

Inductive Response (A : Type) : Type :=
| Json (code : Z) (text : string) (data : A)
| Failure (r : ErrorResponse).
Arguments Json {A} code text data.
Arguments Failure {A} r.

Definition respond {A : Type} (code : Z) (text : string) (m : M A) (s : Store)
  : Response A * Store :=
  match m s with
  | (inr a, s') => (Json code text a, s')
  | (inl err, s') => (Failure (errorHandler err), s')
  end.

(** *** The investment controller *)

Module InvestmentController.

Local Open Scope ledger_scope.

(** [req.body] of [POST /api/investments]: [amount] is the number the
    JSON body carries. *)
Record CreateBody : Type := mkCreateBody {
  body_projectId : option ObjectId;
  body_amount : option float;
  body_paymentMethod : option string
}.

(** The three fields when [!projectId || !amount || !paymentMethod] is
    false. *)
Definition required_fields (body : CreateBody) : option (ObjectId * float * string) :=
  match body_projectId body, body_amount body, body_paymentMethod body with
  | Some projectId, Some amount, Some paymentMethod =>
      if negb (falsy amount) && Js.truthy_string (Some paymentMethod)
      then Some (projectId, amount, paymentMethod)
      else None
  | _, _, _ => None
  end.

(** [createInvestment]: the body of the [try] block up to the response. *)
Definition createInvestment (now : Z) (userId : ObjectId) (body : CreateBody)
  : M (ObjectId * Investment.t) :=
  (* Validate required fields *)
  match required_fields body with
  | None => appError (Lit "Project ID, amount, and payment method are required") 400
  | Some (projectId, amount, paymentMethod) =>
  (* Get project *)
  do project <- Project_findById projectId ;;
  match project with
  | None => appError (Lit "Project not found") 404
  | Some project =>
  (* Check if project accepts investments *)
  if negb (Project.Status_eqb (Project.status project) Project.active) then
    appError (Lit "This project is not accepting investments at the moment") 400
  (* Validate investment amount *)
  else if amount <? Project.minInvestment project then
    appError (MinimumInvestmentIs (Project.minInvestment project)) 400
  (* Check if project is fully funded *)
  else if Project.targetAmount project <=? Project.fundedAmount project then
    appError (Lit "This project is fully funded") 400
  (* Check if investment would exceed target *)
  else if Project.targetAmount project <? Project.fundedAmount project + amount then
    let remaining := Project.targetAmount project - Project.fundedAmount project in
    appError (MaximumYouCanInvest remaining) 400
  else
  (* Calculate expected return based on project ROI *)
  let expectedReturn := amount + (amount * Project.roiPercent project) / 100 in
  (* Calculate expected return date (project duration) *)
  let expectedReturnDate :=
    if (Project.durationMonths project =? 0)%Z then None
    else Some (now, Project.durationMonths project) in
  (* Create investment *)
  do created <- Investment_create
    (Investment.mk userId projectId amount Investment.completed paymentMethod
       now expectedReturn expectedReturnDate None None None None) ;;
  (* Update project funding *)
  let project := Project.set_fundedAmount (Project.fundedAmount project + amount) project in
  let project :=
    Project.set_totalInvestors (Js.or_else (Project.totalInvestors project) 0 + 1)%Z project in
  (* Check if project reached target *)
  let project :=
    if Project.targetAmount project <=? Project.fundedAmount project
    then Project.set_status Project.completed project
    else project in
  run Project_save projectId project ;;
  (* Create payment record: the document has no subscriptionId *)
  run Payment_create
    (Payment.mk userId None (fst created) amount "USD" "completed" paymentMethod
       ("Investment in " ++ Project.title project)) ;;
  ret created
  end
  end.

(** [POST /api/investments] *)
Definition createInvestment_response (now : Z) (userId : ObjectId) (body : CreateBody)
  : Store -> Response (ObjectId * Investment.t) * Store :=
  respond 201 "Investment successful!" (createInvestment now userId body).

(** [cancelInvestment]: [id] is [req.params.id], [reason] is
    [req.body.reason], [isAdmin] is [req.user.role === 'admin']. The
    hours since the investment are a quotient of whole milliseconds:
    it is above 24 exactly when more than 86 400 000 ms have passed, in
    binary64 as in exact arithmetic. *)
Definition cancelInvestment (now : Z) (userId : ObjectId) (isAdmin : bool)
    (id : ObjectId) (reason : option string) : M Investment.t :=
  do investment <- Investment_findById id ;;
  match investment with
  | None => appError (Lit "Investment not found") 404
  | Some investment =>
  (* Check permissions *)
  if negb (Investment.userId investment =? userId)%nat && negb isAdmin then
    appError (Lit "You do not have permission to cancel this investment") 403
  (* Check if already cancelled *)
  else if Investment.Status_eqb (Investment.status investment) Investment.refunded then
    appError (Lit "Investment is already refunded") 400
  (* Check if investment can be cancelled (within 24 hours for non-admin) *)
  else if negb isAdmin &&
          (let hoursSinceInvestment :=
             (inject_Z (now - Investment.investmentDate investment) /
              inject_Z (1000 * 60 * 60))%Q in
           Js.Qlt_bool 24%Q hoursSinceInvestment) then
    appError (Lit "Investments can only be cancelled within 24 hours") 400
  else
  (* Update investment status *)
  let investment :=
    Investment.refund (Js.string_or_else reason "User requested refund") now investment in
  run Investment_save id investment ;;
  (* Update project funding *)
  do project <- Project_findById (Investment.projectId investment) ;;
  run match project with
      | Some project =>
          let project :=
            Project.set_fundedAmount
              (Project.fundedAmount project - Investment.amount investment) project in
          let project :=
            Project.set_totalInvestors
              (Z.max (Js.or_else (Project.totalInvestors project) 1 - 1) 0)%Z project in
          let project :=
            if Project.Status_eqb (Project.status project) Project.completed
            then Project.set_status Project.active project (* Reopen if was completed *)
            else project in
          Project_save (Investment.projectId investment) project
      | None => ret tt
      end ;;
  ret investment
  end.

(** [POST /api/investments/:id/cancel] *)
Definition cancelInvestment_response (now : Z) (userId : ObjectId) (isAdmin : bool)
    (id : ObjectId) (reason : option string) : Store -> Response Investment.t * Store :=
  respond 200 "Investment cancelled and refund initiated"
    (cancelInvestment now userId isAdmin id reason).

End InvestmentController.

(** *** The documents the two handlers write *)

Module Effects.

(** The investment of lines 475-484. *)
Definition invested (now : Z) (userId projectId : ObjectId) (amount : float)
    (paymentMethod : string) (project : Project.t) : Investment.t :=
  Investment.mk userId projectId amount Investment.completed paymentMethod now
    (amount + (amount * Project.roiPercent project) / 100)
    (if (Project.durationMonths project =? 0)%Z then None
     else Some (now, Project.durationMonths project))
    None None None None.

(** The project after lines 487-493. *)
Definition funded (amount : float) (project : Project.t) : Project.t :=
  let project := Project.set_fundedAmount (Project.fundedAmount project + amount) project in
  let project :=
    Project.set_totalInvestors (Js.or_else (Project.totalInvestors project) 0 + 1)%Z project in
  if Project.targetAmount project <=? Project.fundedAmount project
  then Project.set_status Project.completed project
  else project.

(** The project after lines 803-807. *)
Definition released (investment : Investment.t) (project : Project.t) : Project.t :=
  let project :=
    Project.set_fundedAmount
      (Project.fundedAmount project - Investment.amount investment) project in
  let project :=
    Project.set_totalInvestors
      (Z.max (Js.or_else (Project.totalInvestors project) 1 - 1) 0)%Z project in
  if Project.Status_eqb (Project.status project) Project.completed
  then Project.set_status Project.active project
  else project.

End Effects.

(** *** The preconditions of invest, in the words of the specification

    The comparisons and the sum are those of binary64 numbers. *)

Module InvestSpec.

Inductive Precondition : Type :=
| ProjectExists       (* 1. Project must exist -> NotFound *)
| ProjectActive       (* 2. Project.status must be active -> InvalidState *)
| MinimumMet          (* 3. amount >= Project.minInvestment -> Validation *)
| NotFullyFunded      (* 4. Project.fundedAmount < Project.targetAmount -> InvalidState *)
| WithinHeadroom.     (* 5. Project.fundedAmount + amount <= Project.targetAmount -> Validation *)

Definition listed : list Precondition :=
  [ ProjectExists; ProjectActive; MinimumMet; NotFullyFunded; WithinHeadroom ].

(** The failure the specification attaches to each precondition. *)
Definition failure_kind (c : Precondition) : Kind :=
  match c with
  | ProjectExists => NotFound
  | ProjectActive => InvalidState
  | MinimumMet => Validation
  | NotFullyFunded => InvalidState
  | WithinHeadroom => Validation
  end.

(** Whether a precondition holds of the project an id finds and an
    amount; a precondition about the project cannot hold when there is
    none. *)
Definition holds (project : option Project.t) (amount : float) (c : Precondition) : bool :=
  match project with
  | None => false
  | Some p =>
      match c with
      | ProjectExists => true
      | ProjectActive => Project.Status_eqb (Project.status p) Project.active
      | MinimumMet => Project.minInvestment p <=? amount
      | NotFullyFunded => Project.fundedAmount p <? Project.targetAmount p
      | WithinHeadroom => Project.fundedAmount p + amount <=? Project.targetAmount p
      end
  end.

(** The first precondition of the list that is violated. *)
Definition first_violated (project : option Project.t) (amount : float)
  : option Precondition :=
  List.find (fun c => negb (holds project amount c)) listed.

(** The funding headroom: targetAmount - fundedAmount. *)
Definition headroom (project : option Project.t) : float :=
  match project with
  | Some p => Project.targetAmount p - Project.fundedAmount p
  | None => 0
  end.

(** The error of the handler that reports each precondition. *)
Definition failure (project : option Project.t) (c : Precondition) : Thrown :=
  match c with
  | ProjectExists => AppErr (mkAppError (Lit "Project not found") 404)
  | ProjectActive =>
      AppErr (mkAppError (Lit "This project is not accepting investments at the moment") 400)
  | MinimumMet =>
      AppErr (mkAppError
                (MinimumInvestmentIs
                   (match project with Some p => Project.minInvestment p | None => 0 end))
                400)
  | NotFullyFunded => AppErr (mkAppError (Lit "This project is fully funded") 400)
  | WithinHeadroom => AppErr (mkAppError (MaximumYouCanInvest (headroom project)) 400)
  end.

End InvestSpec.

(** *** The ledger *)

Module Ledger.

Import InvestmentController.

(** The rational a finite binary64 number stands for: no rational for
    an infinity or NaN, 0 for both zeros, and (-1)^s * m * 2^e for the
    number of sign [s], mantissa [m] and exponent [e]. *)
Definition value (x : float) : option Q :=
  match Prim2SF x with
  | S754_zero _ => Some 0%Q
  | S754_finite s m e =>
      let n := cond_Zopp s (Zpos m) in
      Some (match e with
            | Z0 => n # 1
            | Zpos k => (n * Zpos (2 ^ k)) # 1
            | Zneg k => n # (2 ^ k)
            end)
  | S754_infinity _ | S754_nan => None
  end.

(** [a + b] is computed without rounding. *)
Definition exact_sum (a b : float) : bool :=
  match value a, value b, value (a + b) with
  | Some x, Some y, Some z => Qeq_bool z (x + y)
  | _, _, _ => false
  end.

(** [a - b] is computed without rounding. *)
Definition exact_difference (a b : float) : bool :=
  match value a, value b, value (a - b) with
  | Some x, Some y, Some z => Qeq_bool z (x - y)
  | _, _, _ => false
  end.

(** What one investment counts towards a project: its amount when it is
    the project's and its status is completed. *)
Definition counted (projectId : ObjectId) (i : Investment.t) : Q :=
  if Investment.Status_eqb (Investment.status i) Investment.completed &&
     (Investment.projectId i =? projectId)%nat
  then match value (Investment.amount i) with
       | Some q => q
       | None => 0%Q
       end
  else 0%Q.

(** The sum of the amounts of a project's completed investments. *)
Fixpoint completed_total (projectId : ObjectId) (l : list Investment.t) : Q :=
  match l with
  | [] => 0%Q
  | i :: l' => (counted projectId i + completed_total projectId l')%Q
  end.

(** An investment as the ledger stores it: a finite amount at or above
    zero, and completed or refunded. *)
Definition stored (i : Investment.t) : Prop :=
  (exists q, value (Investment.amount i) = Some q /\ (0 <= q)%Q) /\
  (Investment.status i = Investment.completed \/
   Investment.status i = Investment.refunded).

(** What the ledger keeps true of a store: every project is a document
    the schema accepts whose fundedAmount stands for the total of its
    completed investments, and every investment is as the ledger
    stores it. *)
Definition consistent (s : Store) : Prop :=
  (forall projectId p, projects s !! projectId = Some p ->
     Project.schema_valid p /\
     exists q, value (Project.fundedAmount p) = Some q /\
               (q == completed_total projectId (investments s))%Q) /\
  Forall stored (investments s).

(** A completed investment of a project. *)
Definition completed_in (projectId : ObjectId) (i : Investment.t) : bool :=
  Investment.Status_eqb (Investment.status i) Investment.completed &&
  (Investment.projectId i =? projectId)%nat.

(** Every project's investor count is the number of its completed
    investments. *)
Definition investors_counted (s : Store) : Prop :=
  forall projectId p, projects s !! projectId = Some p ->
    Project.totalInvestors p
    = Z.of_nat (length (List.filter (completed_in projectId) (investments s))).

(** A store of fresh projects: documents the schema accepts, with
    fundedAmount 0, and no investment. *)
Definition fresh (s : Store) : Prop :=
  investments s = [] /\
  forall id p, projects s !! id = Some p ->
    Project.schema_valid p /\ Project.fundedAmount p = 0.

(** An invest or a cancel request. *)
Inductive Call : Type :=
| Invest (now : Z) (userId : ObjectId) (body : CreateBody)
| Cancel (now : Z) (userId : ObjectId) (isAdmin : bool) (id : ObjectId)
         (reason : option string).

(** The store a call leaves. *)
Definition perform (s : Store) (c : Call) : Store :=
  match c with
  | Invest now userId body => snd (createInvestment now userId body s)
  | Cancel now userId isAdmin id reason =>
      snd (cancelInvestment now userId isAdmin id reason s)
  end.

Definition perform_all (calls : list Call) (s : Store) : Store :=
  fold_left perform calls s.

(** The funding arithmetic of a call is exact: the sum of line 487 for
    the project and the amount an invest names, the difference of line
    803 for the investment a cancel names and its project. *)
Definition exact_call (s : Store) (c : Call) : bool :=
  match c with
  | Invest _ _ body =>
      match required_fields body with
      | Some (projectId, amount, _) =>
          match projects s !! projectId with
          | Some p => exact_sum (Project.fundedAmount p) amount
          | None => true
          end
      | None => true
      end
  | Cancel _ _ _ id _ =>
      match investments s !! id with
      | Some i =>
          match projects s !! Investment.projectId i with
          | Some p => exact_difference (Project.fundedAmount p) (Investment.amount i)
          | None => true
          end
      | None => true
      end
  end.

(** Every call of a history computes exactly, each in the store the
    calls before it left. *)
Fixpoint exact (calls : list Call) (s : Store) : bool :=
  match calls with
  | [] => true
  | c :: rest => exact_call s c && exact rest (perform s c)
  end.

End Ledger.

(** *** Sample documents *)

Module Sample.

Definition project (minInvestment targetAmount fundedAmount : float)
    (totalInvestors : Z) (status : Project.Status) : Project.t :=
  Project.mk "Solar farm" "A solar farm of 40 hectares" "energy"
    minInvestment 20 targetAmount fundedAmount totalInvestors 12 status false 0%nat 0.

Definition store_of (p : Project.t) : Store := mkStore [p] [] [].

Definition invest (amount : float) : Ledger.Call :=
  Ledger.Invest 1000 7%nat
    (InvestmentController.mkCreateBody (Some 0%nat) (Some amount) (Some "stripe")).

Definition cancel (id : ObjectId) : Ledger.Call :=
  Ledger.Cancel 2000 7%nat false id None.

Definition investment (amount : float) (status : Investment.Status) : Investment.t :=
  Investment.mk 7%nat 0%nat amount status "stripe" 1000 (amount + amount * 20 / 100)
    (Some (1000, 12)%Z) None None None None.

Definition refunded (amount : float) : Investment.t :=
  Investment.refund "User requested refund" 2000 (investment amount Investment.completed).

(** A fresh project with a target of 1000 and a minimum of 0.1. *)
Definition fresh_project : Project.t := project 0.1 1000 0 0 Project.active.

(** Two investments of whole amounts and the cancellation of the first. *)
Definition whole_history : list Ledger.Call := [ invest 100; invest 250; cancel 0%nat ].

(** Two investments of 0.1 and 0.2 and the cancellation of the first. *)
Definition tenths_history : list Ledger.Call := [ invest 0.1; invest 0.2; cancel 0%nat ].

(** Two investments of 100.3 and 200.6 and the cancellation of the first. *)
Definition cents_history : list Ledger.Call := [ invest 100.3; invest 200.6; cancel 0%nat ].

End Sample.

End Double.

(** * Properties *)

(** ** The plan feature policy *)

Section PlanPolicy.

Import PlanFeatures.

Lemma own_property_plan_keys (k : string) :
  ~ In k plan_keys -> own_property PLAN_FEATURES k = None.
Proof.
  unfold plan_keys, PLAN_FEATURES. cbn -[String.eqb]. intros H.
  repeat match goal with
         | |- context [String.eqb ?a k] =>
             destruct (String.eqb_spec a k) as [E|_]; [exfalso; apply H; tauto|]
         end.
  reflexivity.
Qed.

(** A key that is neither a plan nor a member of [Object.prototype] falls
    back to the free tier. *)
Lemma resolve_unknown (k : string) :
  ~ In k plan_keys -> ~ In k Object_prototype_keys -> resolve k = Plan free.
Proof.
  intros Hplan Hproto. unfold resolve, get.
  rewrite own_property_plan_keys by assumption.
  destruct (existsb (String.eqb k) Object_prototype_keys) eqn:E; [|reflexivity].
  apply existsb_exists in E as (k' & Hin & Heq).
  apply String.eqb_eq in Heq. subst k'. contradiction.
Qed.

Lemma hasFeatureAccess_unknown (k : string) (x : Feature) :
  ~ In k plan_keys -> ~ In k Object_prototype_keys ->
  getPlanFeatures k = getPlanFeatures "free" /\
  hasFeatureAccess k x = hasFeatureAccess "free" x.
Proof.
  intros Hplan Hproto. unfold getPlanFeatures, hasFeatureAccess.
  rewrite (resolve_unknown k Hplan Hproto). split; reflexivity.
Qed.

(** A missing key reads the property "undefined", an empty one the
    empty property name: both fall back to the free tier. *)
Lemma hasFeatureAccess_missing (x : Feature) :
  hasFeatureAccess (Js.property_key None) x = hasFeatureAccess "free" x /\
  hasFeatureAccess EmptyString x = hasFeatureAccess "free" x.
Proof. split; reflexivity. Qed.

(** Every plan key resolves to an entry of the table or to a member of
    [Object.prototype]. *)
Lemma resolve_cases (k : string) :
  (exists p, In p [free; basic; plus; premium] /\ resolve k = Plan p) \/
  (exists k', resolve k = Inherited k').
Proof.
  unfold resolve, get, PLAN_FEATURES. cbn -[existsb free basic plus premium String.eqb].
  repeat match goal with
         | |- context [String.eqb ?a k] => destruct (String.eqb a k)
         end;
    try (left; eexists; split; [|reflexivity]; cbn; tauto).
  destruct (existsb _ _).
  - right. eexists. reflexivity.
  - left. exists free. split; [cbn; tauto | reflexivity].
Qed.

Lemma hasFeatureAccess_plan (k : string) (p : t) (x : Feature) :
  resolve k = Plan p -> hasFeatureAccess k x = inr (flag (searchFilters p) x).
Proof. intros H. unfold hasFeatureAccess. rewrite H. reflexivity. Qed.

Lemma hasFeatureAccess_inr (k : string) (x : Feature) (b : bool) :
  hasFeatureAccess k x = inr b ->
  exists p, In p [free; basic; plus; premium] /\ resolve k = Plan p /\
            flag (searchFilters p) x = b.
Proof.
  intros H. destruct (resolve_cases k) as [(p & Hin & Hp) | (k' & Hk)].
  - exists p. rewrite (hasFeatureAccess_plan k p x Hp) in H.
    repeat split; congruence.
  - unfold hasFeatureAccess in H. rewrite Hk in H. discriminate.
Qed.

(** C8, at the key "constructor": the key is not a plan, the property read
    finds [Object.prototype.constructor], so [getPlanFeatures] does not
    return the free tier and [hasFeatureAccess] throws for every capability
    where the free tier answers. *)
Theorem hasFeatureAccess_constructor :
  ~ In "constructor" plan_keys /\
  getPlanFeatures "constructor" = Inherited "constructor" /\
  getPlanFeatures "free" = Plan free /\
  forall x : Feature,
    hasFeatureAccess "constructor" x = inl TypeError /\
    hasFeatureAccess "free" x = inr (flag (searchFilters free) x).
Proof.
  split; [|split; [reflexivity|split; [reflexivity|]]].
  - cbn. intros H. repeat destruct H as [H|H]; try discriminate H; exact H.
  - intros x. split; reflexivity.
Qed.

End PlanPolicy.

(** ** The invest operation *)

Section Invest.

Import InvestmentController.
Open Scope Q_scope.

Lemma Qlt_bool_iff (a b : Q) : Js.Qlt_bool a b = true <-> a < b.
Proof.
  unfold Js.Qlt_bool. rewrite negb_true_iff.
  split; intros H.
  - apply Qnot_le_lt. intros Hle. apply Qle_bool_iff in Hle. congruence.
  - destruct (Qle_bool b a) eqn:E; [|reflexivity].
    apply Qle_bool_iff in E. exfalso. apply (Qlt_not_le _ _ H E).
Qed.

Lemma Qle_bool_false (a b : Q) : Qle_bool a b = false <-> b < a.
Proof. rewrite <- Qlt_bool_iff. unfold Js.Qlt_bool. symmetry. apply negb_true_iff. Qed.

Lemma or_else_zero (n : Z) : Js.or_else n 0 = n.
Proof. unfold Js.or_else. destruct (Z.eqb_spec n 0); congruence. Qed.

Lemma Investment_created_valid (i : Investment.t) :
  Investment.invalid ["amount"; "paymentMethod"; "expectedReturn"] i = [] <->
  0 <= Investment.amount i /\
  In (Investment.paymentMethod i) Investment.paymentMethods /\
  0 <= Investment.expectedReturn i.
Proof.
  unfold Investment.invalid. cbn -[Qle_bool existsb Investment.paymentMethods].
  rewrite <- !Qle_bool_iff.
  assert (Hpm : existsb (String.eqb (Investment.paymentMethod i)) Investment.paymentMethods = true
                <-> In (Investment.paymentMethod i) Investment.paymentMethods).
  { rewrite existsb_exists. split.
    - intros (x & Hin & Heq). apply String.eqb_eq in Heq. congruence.
    - intros Hin. exists (Investment.paymentMethod i).
      split; [assumption|apply String.eqb_refl]. }
  rewrite <- Hpm.
  destruct (Qle_bool 0 (Investment.amount i)),
    (existsb (String.eqb (Investment.paymentMethod i)) Investment.paymentMethods),
    (Qle_bool 0 (Investment.expectedReturn i)); cbn; intuition discriminate.
Qed.

Lemma Project_funding_valid (p : Project.t) :
  Project.invalid ["fundedAmount"; "totalInvestors"; "status"] p = [] <->
  0 <= Project.fundedAmount p /\ (0 <= Project.totalInvestors p)%Z.
Proof.
  unfold Project.invalid. cbn -[Qle_bool Z.leb].
  rewrite <- Qle_bool_iff, <- Z.leb_le.
  destruct (Qle_bool 0 (Project.fundedAmount p)), (0 <=? Project.totalInvestors p)%Z;
    cbn; intuition discriminate.
Qed.

Lemma schema_valid_bounds (p : Project.t) :
  Project.schema_valid p ->
  0 <= Project.minInvestment p /\ 0 <= Project.roiPercent p /\
  0 <= Project.fundedAmount p /\ (0 <= Project.totalInvestors p)%Z.
Proof.
  unfold Project.schema_valid, Project.invalid, Project.numeric_paths.
  cbn -[Qle_bool Z.leb].
  rewrite <- !Qle_bool_iff, <- Z.leb_le.
  destruct (Qle_bool 0 (Project.minInvestment p)); cbn -[Qle_bool Z.leb]; [|discriminate].
  destruct (Qle_bool 0 (Project.roiPercent p)); cbn -[Qle_bool Z.leb];
    [|destruct (Qle_bool 0 (Project.targetAmount p)); discriminate].
  destruct (Qle_bool (Project.roiPercent p) 1000); cbn -[Qle_bool Z.leb]; [|discriminate].
  destruct (Qle_bool 0 (Project.targetAmount p)); cbn -[Qle_bool Z.leb]; [|discriminate].
  destruct (Qle_bool 0 (Project.fundedAmount p)); cbn -[Qle_bool Z.leb]; [|discriminate].
  destruct (0 <=? Project.totalInvestors p)%Z; cbn -[Qle_bool Z.leb]; [|discriminate].
  intros _. repeat split; reflexivity.
Qed.

Lemma required_fields_present (pid : ObjectId) (amount : Q) (pm : string) :
  ~ amount == 0 -> pm <> EmptyString ->
  required_fields (mkCreateBody (Some pid) (Some amount) (Some pm)) = Some (pid, amount, pm).
Proof.
  intros Ha Hpm. unfold required_fields. cbn.
  destruct (Qeq_bool amount 0) eqn:E.
  - apply Qeq_bool_iff in E. contradiction.
  - destruct (String.eqb_spec pm EmptyString); [contradiction|reflexivity].
Qed.

(** The five preconditions, read off the result of [first_violated]. *)
Lemma first_violated_none (p : Project.t) (amount : Q) :
  InvestSpec.first_violated (Some p) amount = None <->
  Project.status p = Project.active /\
  Project.minInvestment p <= amount /\
  Project.fundedAmount p < Project.targetAmount p /\
  Project.fundedAmount p + amount <= Project.targetAmount p.
Proof.
  unfold InvestSpec.first_violated. cbn -[Qle_bool Js.Qlt_bool].
  rewrite <- !Qle_bool_iff, <- Qlt_bool_iff.
  destruct (Project.status p); cbn -[Qle_bool Js.Qlt_bool];
    try (split; [discriminate | intros [? _]; discriminate]).
  destruct (Qle_bool (Project.minInvestment p) amount); cbn -[Qle_bool Js.Qlt_bool];
    [|intuition discriminate].
  destruct (Js.Qlt_bool (Project.fundedAmount p) (Project.targetAmount p));
    cbn -[Qle_bool Js.Qlt_bool]; [|intuition discriminate].
  destruct (Qle_bool (Project.fundedAmount p + amount) (Project.targetAmount p));
    cbn -[Qle_bool Js.Qlt_bool]; intuition discriminate.
Qed.

(** What the handler does once the checks have passed: it creates the
    investment, saves the project and is stopped by the payment record,
    whose [subscriptionId] is required and absent. *)
Lemma createInvestment_commit now userId pid amount pm s p :
  ~ amount == 0 -> pm <> EmptyString ->
  projects s !! pid = Some p ->
  InvestSpec.first_violated (Some p) amount = None ->
  exists inv p',
    inv = Investment.mk userId pid amount Investment.completed pm now
            (amount + amount * Project.roiPercent p / 100)
            (if (Project.durationMonths p =? 0)%Z then None
             else Some (now, Project.durationMonths p))
            None None /\
    Project.fundedAmount p' = Project.fundedAmount p + amount /\
    Project.totalInvestors p' = (Project.totalInvestors p + 1)%Z /\
    Project.targetAmount p' = Project.targetAmount p /\
    Project.status p' =
      (if Qle_bool (Project.targetAmount p) (Project.fundedAmount p + amount)
       then Project.completed else Project.active) /\
    ((Investment.invalid ["amount"; "paymentMethod"; "expectedReturn"] inv <> [] /\
      exists bad, createInvestment now userId (mkCreateBody (Some pid) (Some amount) (Some pm)) s
        = (inl (ValidationError "Investment" bad), s)) \/
     (Investment.invalid ["amount"; "paymentMethod"; "expectedReturn"] inv = [] /\
      Project.invalid ["fundedAmount"; "totalInvestors"; "status"] p' <> [] /\
      exists bad, createInvestment now userId (mkCreateBody (Some pid) (Some amount) (Some pm)) s
        = (inl (ValidationError "Project" bad),
           mkStore (projects s) (investments s ++ [inv]) (payments s))) \/
     (Investment.invalid ["amount"; "paymentMethod"; "expectedReturn"] inv = [] /\
      Project.invalid ["fundedAmount"; "totalInvestors"; "status"] p' = [] /\
      exists bad, createInvestment now userId (mkCreateBody (Some pid) (Some amount) (Some pm)) s
        = (inl (ValidationError "Payment" bad),
           mkStore (<[pid := p']> (projects s)) (investments s ++ [inv]) (payments s)))).
Proof.
  intros Ha Hpm Hp Hfv.
  apply first_violated_none in Hfv as (Hst & Hmin & Hfull & Hroom).
  remember (createInvestment now userId (mkCreateBody (Some pid) (Some amount) (Some pm)) s)
    as result eqn:Hres.
  unfold createInvestment in Hres.
  rewrite (required_fields_present pid amount pm Ha Hpm) in Hres.
  unfold bind at 1 in Hres. unfold Project_findById in Hres. rewrite Hp in Hres.
  rewrite Hst in Hres. cbn [Project.Status_eqb negb] in Hres.
  apply Qle_bool_iff in Hmin. unfold Js.Qlt_bool at 1 in Hres.
  rewrite Hmin in Hres. cbn [negb] in Hres.
  apply Qlt_bool_iff in Hfull. unfold Js.Qlt_bool in Hfull.
  apply negb_true_iff in Hfull. rewrite Hfull in Hres.
  apply Qle_bool_iff in Hroom. unfold Js.Qlt_bool at 1 in Hres.
  rewrite Hroom in Hres. cbn [negb] in Hres.
  set (inv := Investment.mk userId pid amount Investment.completed pm now
                (amount + amount * Project.roiPercent p / 100)
                (if (Project.durationMonths p =? 0)%Z then None
                 else Some (now, Project.durationMonths p))
                None None) in *.
  set (p1 := Project.set_totalInvestors
               (Js.or_else (Project.totalInvestors
                              (Project.set_fundedAmount (Project.fundedAmount p + amount) p)) 0
                + 1)
               (Project.set_fundedAmount (Project.fundedAmount p + amount) p)) in *.
  cbn [Project.targetAmount Project.fundedAmount p1 Project.set_totalInvestors
         Project.set_fundedAmount] in Hres.
  set (p' := if Qle_bool (Project.targetAmount p) (Project.fundedAmount p + amount)
             then Project.set_status Project.completed p1 else p1) in *.
  exists inv, p'. split; [reflexivity|].
  assert (Hfields :
    Project.fundedAmount p' = Project.fundedAmount p + amount /\
    Project.totalInvestors p' = (Project.totalInvestors p + 1)%Z /\
    Project.targetAmount p' = Project.targetAmount p /\
    Project.status p' =
      (if Qle_bool (Project.targetAmount p) (Project.fundedAmount p + amount)
       then Project.completed else Project.active)).
  { subst p' p1.
    destruct (Qle_bool (Project.targetAmount p) (Project.fundedAmount p + amount));
      cbn; rewrite or_else_zero; auto. }
  destruct Hfields as (H1 & H2 & H3 & H4).
  repeat (split; [assumption|]).
  unfold bind, Investment_create in Hres.
  destruct (Investment.invalid _ inv) as [|bad1 bads1] eqn:Einv.
  - right. unfold Project_save in Hres.
    destruct (Project.invalid _ p') as [|bad2 bads2] eqn:Eproj.
    + right. repeat (split; [reflexivity|]).
      unfold Payment_create in Hres. cbn -[Qle_bool p' inv] in Hres.
      eexists. exact Hres.
    + left. split; [reflexivity|]. split; [discriminate|].
      eexists. exact Hres.
  - left. split; [discriminate|]. eexists. exact Hres.
Qed.

(** Every call of the handler ends in a thrown value: when nothing else
    stops it, the payment record does, after the investment and the
    project have been written. *)
Lemma createInvestment_throws now userId body s :
  exists err, fst (createInvestment now userId body s) = inl err.
Proof.
  unfold createInvestment.
  destruct (required_fields body) as [[[pid amount] pm]|]; [|eexists; reflexivity].
  unfold bind, Project_findById, Investment_create, Project_save, Payment_create.
  destruct (projects s !! pid) as [p|]; [|eexists; reflexivity].
  repeat match goal with
         | |- context [if ?b then _ else _] =>
             match b with
             | context [Project.durationMonths] => fail 1
             | _ => destruct b; try (eexists; reflexivity)
             end
         end;
    repeat match goal with
           | |- context [match ?l with [] => _ | _ :: _ => _ end] =>
               destruct l; cbn -[Qle_bool]; try (eexists; reflexivity)
           end.
Qed.

Lemma createInvestment_never_201 now userId body s :
  exists r, fst (createInvestment_response now userId body s) = Failure r.
Proof.
  unfold createInvestment_response, respond.
  destruct (createInvestment_throws now userId body s) as [err Herr].
  destruct (createInvestment now userId body s) as [[e|a] s']; cbn in *.
  - eexists. reflexivity.
  - discriminate.
Qed.

(** C10: a call whose projectId or paymentMethod is absent or empty, or
    whose amount is absent or 0, fails with the one Validation error that
    names the three required fields, whatever the store holds: the check
    precedes the project lookup, so the error is never NotFound and never
    one of the other precondition failures (the minimum investment is not
    looked at). *)
Theorem createInvestment_required_fields now userId body s :
  body_projectId body = None \/
  body_amount body = None \/ (exists a, body_amount body = Some a /\ a == 0) \/
  body_paymentMethod body = None \/ body_paymentMethod body = Some EmptyString ->
  let required :=
    AppErr (mkAppError (Lit "Project ID, amount, and payment method are required") 400) in
  createInvestment now userId body s = (inl required, s) /\
  kind required = Validation /\
  createInvestment_response now userId body s =
    (Failure (mkErrorResponse 400
                (Lit "Project ID, amount, and payment method are required")), s) /\
  forall project c, required <> InvestSpec.failure project c.
Proof.
  intros H required.
  assert (Hnone : required_fields body = None).
  { unfold required_fields.
    destruct (body_projectId body) as [pid|]; [|reflexivity].
    destruct (body_amount body) as [a|]; [|reflexivity].
    destruct (body_paymentMethod body) as [pm|]; [|reflexivity].
    destruct H as [H|[H|[(a' & H & Hz)|[H|H]]]]; try discriminate.
    - injection H as ->. cbn. apply Qeq_bool_iff in Hz. rewrite Hz. reflexivity.
    - injection H as ->. cbn. rewrite andb_false_r. reflexivity. }
  assert (Hrun : createInvestment now userId body s = (inl required, s)).
  { unfold createInvestment. rewrite Hnone. reflexivity. }
  split; [exact Hrun|]. split; [reflexivity|]. split.
  - unfold createInvestment_response, respond. rewrite Hrun. reflexivity.
  - intros project c. destruct c; discriminate.
Qed.

Lemma createInvestment_required_fields_witness :
  let body := mkCreateBody (Some 7%nat) (Some 0) (Some "stripe") in
  let s := mkStore [] [] [] in
  (exists a, body_amount body = Some a /\ a == 0) /\
  projects s !! 7%nat = None /\
  createInvestment 0 1%nat body s =
    (inl (AppErr (mkAppError (Lit "Project ID, amount, and payment method are required") 400)),
     s).
Proof.
  intros body s.
  assert (H : exists a, body_amount body = Some a /\ a == 0)
    by (exists 0; split; reflexivity).
  split; [exact H|]. split; [reflexivity|].
  apply (createInvestment_required_fields 0 1%nat body s).
  right. right. left. exact H.
Defined.

(** A call whose fields are present and whose first violated precondition
    is [c] is refused with the failure of [c], the store untouched. *)
Lemma createInvestment_refused now userId pid amount pm s c :
  ~ amount == 0 -> pm <> EmptyString ->
  InvestSpec.first_violated (projects s !! pid) amount = Some c ->
  createInvestment now userId (mkCreateBody (Some pid) (Some amount) (Some pm)) s
  = (inl (InvestSpec.failure (projects s !! pid) c), s).
Proof.
  intros Ha Hpm Hfv. unfold createInvestment.
  rewrite (required_fields_present pid amount pm Ha Hpm).
  unfold bind at 1. unfold Project_findById.
  unfold InvestSpec.first_violated in Hfv.
  destruct (projects s !! pid) as [p|].
  - cbn -[Qle_bool Js.Qlt_bool] in Hfv.
    unfold InvestSpec.failure, InvestSpec.headroom.
    destruct (Project.Status_eqb (Project.status p) Project.active);
      cbn [negb] in *; [|injection Hfv as <-; reflexivity].
    unfold Js.Qlt_bool at 1.
    destruct (Qle_bool (Project.minInvestment p) amount);
      cbn [negb] in *; [|injection Hfv as <-; reflexivity].
    unfold Js.Qlt_bool at 1 in Hfv.
    destruct (Qle_bool (Project.targetAmount p) (Project.fundedAmount p));
      cbn [negb] in *; [injection Hfv as <-; reflexivity|].
    unfold Js.Qlt_bool at 1.
    destruct (Qle_bool (Project.fundedAmount p + amount) (Project.targetAmount p));
      cbn [negb] in *; [discriminate|injection Hfv as <-; reflexivity].
  - cbn in Hfv. injection Hfv as <-. reflexivity.
Qed.

Lemma paymentMethod_nonempty (pm : string) : In pm Investment.paymentMethods -> pm <> EmptyString.
Proof.
  cbn. intros H E. subst pm.
  repeat destruct H as [H|H]; try discriminate H; exact H.
Qed.

End Invest.

(** ** The cancel operation *)

Section Cancel.

Import InvestmentController.
Open Scope Q_scope.

(** More than 24 hours, as the handler computes it, is more than
    86 400 000 milliseconds. *)
Lemma hours_since_window (elapsed : Z) :
  Js.Qlt_bool 24 (inject_Z elapsed / inject_Z (1000 * 60 * 60))
  = negb (elapsed <=? CancelSpec.window)%Z.
Proof.
  unfold Js.Qlt_bool. f_equal.
  replace (inject_Z (1000 * 60 * 60)) with (3600000 # 1) by reflexivity.
  assert (Hle : inject_Z elapsed / (3600000 # 1) <= 24 <-> (elapsed <= CancelSpec.window)%Z).
  { unfold Qle, Qdiv, Qmult, Qinv, inject_Z, CancelSpec.window.
    cbn [Qnum Qden]. lia. }
  destruct (Z.leb_spec elapsed CancelSpec.window) as [H|H].
  - apply Qle_bool_iff, Hle, H.
  - destruct (Qle_bool _ _) eqn:E; [|reflexivity].
    apply Qle_bool_iff, Hle in E. lia.
Qed.

Lemma or_else_one_floor (n : Z) : Z.max (Js.or_else n 1 - 1) 0 = Z.max (n - 1) 0.
Proof. unfold Js.or_else. destruct (Z.eqb_spec n 0); [subst; reflexivity|reflexivity]. Qed.

Lemma Investment_refund_valid (i : Investment.t) :
  Investment.invalid ["status"; "refundReason"; "refundDate"] i = [] <->
  match Investment.refundReason i with
  | Some r => (String.length r <= 500)%nat
  | None => True
  end.
Proof.
  unfold Investment.invalid. cbn -[Nat.leb].
  destruct (Investment.refundReason i) as [r|]; [|tauto].
  destruct (Nat.leb_spec (String.length r) 500); cbn; split; intros; try lia; try discriminate.
  reflexivity.
Qed.

Lemma cancel_first_violated_none (i : Investment.t) now userId isAdmin :
  CancelSpec.first_violated (Some i) now userId isAdmin = None <->
  ((Investment.userId i =? userId)%nat || isAdmin = true) /\
  Investment.Status_eqb (Investment.status i) Investment.refunded = false /\
  (isAdmin || (now - Investment.investmentDate i <=? CancelSpec.window)%Z = true).
Proof.
  unfold CancelSpec.first_violated. cbn -[Z.leb CancelSpec.window].
  destruct ((Investment.userId i =? userId)%nat || isAdmin); cbn -[Z.leb CancelSpec.window];
    [|intuition discriminate].
  destruct (Investment.Status_eqb (Investment.status i) Investment.refunded);
    cbn -[Z.leb CancelSpec.window]; [intuition discriminate|].
  destruct (isAdmin || (now - Investment.investmentDate i <=? CancelSpec.window)%Z);
    cbn; intuition discriminate.
Qed.

(** What the handler does once the checks have passed. *)
Lemma cancelInvestment_commit now userId isAdmin id reason s i :
  investments s !! id = Some i ->
  CancelSpec.first_violated (Some i) now userId isAdmin = None ->
  let i' := Investment.refund (Js.string_or_else reason "User requested refund") now i in
  let result := cancelInvestment now userId isAdmin id reason s in
  (Investment.invalid ["status"; "refundReason"; "refundDate"] i' <> [] /\
   exists bad, result = (inl (ValidationError "Investment" bad), s)) \/
  (Investment.invalid ["status"; "refundReason"; "refundDate"] i' = [] /\
   match projects s !! Investment.projectId i with
   | None => result = (inr i', mkStore (projects s) (<[id := i']> (investments s)) (payments s))
   | Some p =>
       exists p',
         Project.fundedAmount p' = Project.fundedAmount p - Investment.amount i /\
         Project.totalInvestors p' = Z.max (Project.totalInvestors p - 1) 0 /\
         Project.status p' =
           (if Project.Status_eqb (Project.status p) Project.completed
            then Project.active else Project.status p) /\
         ((Project.invalid ["fundedAmount"; "totalInvestors"; "status"] p' <> [] /\
           exists bad, result = (inl (ValidationError "Project" bad),
                                 mkStore (projects s) (<[id := i']> (investments s))
                                   (payments s))) \/
          (Project.invalid ["fundedAmount"; "totalInvestors"; "status"] p' = [] /\
           result = (inr i',
                     mkStore (<[Investment.projectId i := p']> (projects s))
                       (<[id := i']> (investments s)) (payments s))))
   end).
Proof.
  intros Hi Hfv i' result.
  apply cancel_first_violated_none in Hfv as (Hown & Hst & Hwin).
  assert (Hres : result = cancelInvestment now userId isAdmin id reason s) by reflexivity.
  clearbody result. unfold cancelInvestment in Hres.
  unfold bind at 1 in Hres. unfold Investment_findById in Hres. rewrite Hi in Hres.
  assert (E1 : negb (Investment.userId i =? userId)%nat && negb isAdmin = false).
  { rewrite <- negb_orb, Hown. reflexivity. }
  rewrite E1, Hst in Hres.
  assert (E2 : negb isAdmin &&
               Js.Qlt_bool 24 (inject_Z (now - Investment.investmentDate i)
                               / inject_Z (1000 * 60 * 60)) = false).
  { rewrite hours_since_window, <- negb_orb, Hwin. reflexivity. }
  cbv zeta in Hres. rewrite E2 in Hres.
  fold i' in Hres. unfold bind, Investment_save in Hres.
  destruct (Investment.invalid _ i') as [|bad1 bads1] eqn:Einv.
  - right. split; [reflexivity|].
    unfold Project_findById in Hres. cbn [projects investments payments] in Hres.
    replace (Investment.projectId i') with (Investment.projectId i) in Hres by reflexivity.
    destruct (projects s !! Investment.projectId i) as [p|]; [|exact Hres].
    set (p1 := Project.set_totalInvestors _ _) in Hres.
    cbn [Project.status p1 Project.set_totalInvestors Project.set_fundedAmount] in Hres.
    set (p' := if Project.Status_eqb (Project.status p) Project.completed
               then Project.set_status Project.active p1 else p1) in Hres.
    exists p'.
    assert (Hfields :
      Project.fundedAmount p' = Project.fundedAmount p - Investment.amount i /\
      Project.totalInvestors p' = Z.max (Project.totalInvestors p - 1) 0 /\
      Project.status p' =
        (if Project.Status_eqb (Project.status p) Project.completed
         then Project.active else Project.status p)).
    { subst p' p1.
      destruct (Project.Status_eqb (Project.status p) Project.completed);
        cbn; rewrite or_else_one_floor; auto. }
    destruct Hfields as (H1 & H2 & H3). repeat (split; [assumption|]).
    unfold Project_save in Hres.
    destruct (Project.invalid _ p') as [|bad2 bads2] eqn:Eproj.
    + right. split; [reflexivity|exact Hres].
    + left. split; [discriminate|]. eexists. exact Hres.
  - left. split; [discriminate|]. eexists. exact Hres.
Qed.

(** A cancellation of a refunded investment is refused and writes nothing. *)
Lemma cancelInvestment_refunded now userId isAdmin id reason s i :
  investments s !! id = Some i ->
  Investment.status i = Investment.refunded ->
  exists err,
    cancelInvestment now userId isAdmin id reason s = (inl err, s) /\
    (kind err = Authorization \/ kind err = InvalidState).
Proof.
  intros Hi Hst. unfold cancelInvestment.
  unfold bind at 1. unfold Investment_findById. rewrite Hi, Hst.
  destruct (negb (Investment.userId i =? userId)%nat && negb isAdmin).
  - eexists. split; [reflexivity|left; reflexivity].
  - eexists. split; [reflexivity|right; reflexivity].
Qed.

(** A call whose first violated precondition is [c] is refused with the
    failure of [c], the store untouched. *)
Lemma cancelInvestment_refused now userId isAdmin id reason s c :
  CancelSpec.first_violated (investments s !! id) now userId isAdmin = Some c ->
  cancelInvestment now userId isAdmin id reason s = (inl (CancelSpec.failure c), s).
Proof.
  intros Hfv. unfold cancelInvestment.
  unfold bind at 1. unfold Investment_findById.
  unfold CancelSpec.first_violated in Hfv.
  destruct (investments s !! id) as [i|].
  - cbn -[Z.leb CancelSpec.window] in Hfv.
    rewrite <- negb_orb.
    destruct ((Investment.userId i =? userId)%nat || isAdmin);
      cbn [negb] in *; [|injection Hfv as <-; reflexivity].
    destruct (Investment.Status_eqb (Investment.status i) Investment.refunded);
      cbn [negb] in *; [injection Hfv as <-; reflexivity|].
    cbv zeta. rewrite hours_since_window, <- negb_orb.
    destruct (isAdmin || (now - Investment.investmentDate i <=? CancelSpec.window)%Z);
      cbn [negb] in *; [discriminate|injection Hfv as <-; reflexivity].
  - cbn in Hfv. injection Hfv as <-. reflexivity.
Qed.

(** C5: the four preconditions of cancel are checked in order — the
    investment exists (else NotFound), the caller owns it or is an admin
    (else Authorization), it is not already refunded (else InvalidState),
    and for a caller who is not an admin no more than 24 hours have passed
    since investmentDate (else InvalidState); a failed check leaves the
    store as it was, and when none fails the outcome is none of these
    failures. A refunded investment is always refused, with the store
    untouched, and so is every cancellation that follows a successful one. *)
Theorem cancelInvestment_precondition_order now userId isAdmin id reason s :
  let investment := investments s !! id in
  match CancelSpec.first_violated investment now userId isAdmin with
  | Some c =>
      cancelInvestment now userId isAdmin id reason s = (inl (CancelSpec.failure c), s) /\
      kind (CancelSpec.failure c) = CancelSpec.failure_kind c
  | None =>
      forall c, fst (cancelInvestment now userId isAdmin id reason s)
                <> inl (CancelSpec.failure c)
  end /\
  (forall i, investment = Some i -> Investment.status i = Investment.refunded ->
     exists err, cancelInvestment now userId isAdmin id reason s = (inl err, s)) /\
  (forall refunded,
     fst (cancelInvestment now userId isAdmin id reason s) = inr refunded ->
     let s1 := snd (cancelInvestment now userId isAdmin id reason s) in
     forall now' userId' isAdmin' reason',
       exists err, cancelInvestment now' userId' isAdmin' id reason' s1 = (inl err, s1)).
Proof.
  intros investment. split; [|split].
  - destruct (CancelSpec.first_violated investment now userId isAdmin) as [c|] eqn:Hfv.
    + split; [|destruct c; reflexivity].
      apply cancelInvestment_refused. assumption.
    + intros c. subst investment.
      destruct (investments s !! id) as [i|] eqn:Hi; [|discriminate].
      pose proof (cancelInvestment_commit now userId isAdmin id reason s i Hi Hfv) as H.
      cbv zeta in H.
      destruct H as [(_ & bad & ->) | (_ & H)]; [destruct c; discriminate|].
      destruct (projects s !! Investment.projectId i) as [p|].
      * destruct H as (p' & _ & _ & _ & [(_ & bad & ->) | (_ & ->)]);
          destruct c; discriminate.
      * rewrite H. destruct c; discriminate.
  - intros i Hi Hst.
    destruct (cancelInvestment_refunded now userId isAdmin id reason s i Hi Hst)
      as (err & Hrun & _).
    exists err. exact Hrun.
  - intros refunded Hok s1 now' userId' isAdmin' reason'.
    assert (Hi1 : exists i1, investments s1 !! id = Some i1 /\
                             Investment.status i1 = Investment.refunded).
    { subst s1 investment.
      destruct (investments s !! id) as [i|] eqn:Hi.
      - destruct (CancelSpec.first_violated (Some i) now userId isAdmin) as [c|] eqn:Hfv.
        + exfalso. rewrite <- Hi in Hfv.
          rewrite (cancelInvestment_refused now userId isAdmin id reason s c Hfv) in Hok.
          discriminate.
        + pose proof (cancelInvestment_commit now userId isAdmin id reason s i Hi Hfv) as H.
          cbv zeta in H.
          assert (Hlt : (id < length (investments s))%nat)
            by (eapply lookup_lt_Some; eassumption).
          destruct H as [(_ & bad & Hrun) | (_ & H)].
          * rewrite Hrun in Hok. discriminate.
          * exists (Investment.refund (Js.string_or_else reason "User requested refund") now i).
            split; [|reflexivity].
            destruct (projects s !! Investment.projectId i) as [p|].
            -- destruct H as (p' & _ & _ & _ & [(_ & bad & Hrun) | (_ & Hrun)]);
                 rewrite Hrun in *; [discriminate|].
               cbn [snd investments]. apply list_lookup_insert_eq. exact Hlt.
            -- rewrite H. cbn [snd investments]. apply list_lookup_insert_eq. exact Hlt.
      - exfalso. revert Hok. unfold cancelInvestment.
        unfold bind at 1. unfold Investment_findById. rewrite Hi. discriminate. }
    destruct Hi1 as (i1 & Hi1 & Hst1).
    destruct (cancelInvestment_refunded now' userId' isAdmin' id reason' s1 i1 Hi1 Hst1)
      as (err & Hrun & _).
    exists err. exact Hrun.
Qed.

Lemma cancelInvestment_precondition_order_witness :
  let s := mkStore [Sample.solar_farm 1000 4 Project.completed] [Sample.stake] [] in
  let hours := (60 * 60 * 1000)%Z in
  CancelSpec.first_violated (investments s !! 0%nat) (25 * hours) 1%nat false
    = Some CancelSpec.WithinWindow /\
  cancelInvestment (25 * hours) 1%nat false 0%nat None s =
    (inl (AppErr (mkAppError (Lit "Investments can only be cancelled within 24 hours") 400)),
     s) /\
  CancelSpec.first_violated (investments s !! 0%nat) (24 * hours) 1%nat false = None /\
  CancelSpec.first_violated (investments s !! 0%nat) (25 * hours) 2%nat true = None.
Proof.
  intros s hours. split; [reflexivity|]. split; [|split; reflexivity].
  exact (proj1 (proj1 (cancelInvestment_precondition_order (25 * hours) 1%nat false 0%nat
                         None s))).
Defined.

End Cancel.

(** ** The required fields of an invest call *)

Section RequiredFields.

Import InvestmentController Ledger.
Open Scope Q_scope.

Lemma required_fields_some body pid amount pm :
  required_fields body = Some (pid, amount, pm) ->
  body = mkCreateBody (Some pid) (Some amount) (Some pm) /\ ~ amount == 0 /\ pm <> EmptyString.
Proof.
  unfold required_fields. destruct body as [[p|] [a|] [m|]]; cbn; try discriminate.
  destruct (Qeq_bool a 0) eqn:Ea; cbn; [discriminate|].
  destruct (String.eqb_spec m EmptyString); cbn; [discriminate|].
  intros H. injection H as -> -> ->. repeat split; [|assumption].
  intros Hz. apply Qeq_bool_iff in Hz. congruence.
Qed.

End RequiredFields.

(** ** Listings and the plan-gated search *)

Section Search.

Import ProjectService.

Variable regex_i : string -> string -> bool.

Lemma In_insert_sorted (o : Sort) (x y : Project.t) (l : list Project.t) :
  In x (insert_sorted o y l) <-> x = y \/ In x l.
Proof.
  induction l as [|z l IH]; cbn [insert_sorted].
  - cbn. intuition congruence.
  - destruct (before o y z); cbn [In]; [intuition congruence|].
    rewrite IH. intuition congruence.
Qed.

Lemma In_sort (o : Sort) (x : Project.t) (l : list Project.t) :
  In x (sort o l) <-> In x l.
Proof.
  unfold sort. induction l as [|y l IH]; cbn [fold_right In]; [tauto|].
  rewrite In_insert_sorted, IH. intuition congruence.
Qed.

Lemma before_total (o : Sort) (a b : Project.t) :
  before o a b = false -> before o b a = true.
Proof.
  unfold before. destruct (sort_direction o =? 1)%Z; intros H;
    apply Qle_bool_false in H; apply Qle_bool_iff, Qlt_le_weak; assumption.
Qed.

Lemma insert_sorted_Sorted (o : Sort) (x : Project.t) (l : list Project.t) :
  Sorted (fun a b => before o a b = true) l ->
  Sorted (fun a b => before o a b = true) (insert_sorted o x l).
Proof.
  induction 1 as [|y l Hl IH Hhd]; cbn [insert_sorted].
  - repeat constructor.
  - destruct (before o x y) eqn:E.
    + constructor; [constructor; assumption|constructor; assumption].
    + constructor; [assumption|].
      destruct l as [|z l]; cbn [insert_sorted].
      * constructor. apply before_total. assumption.
      * destruct (before o x z); constructor;
          [apply before_total; assumption|inversion Hhd; assumption].
Qed.

Lemma sort_Sorted (o : Sort) (l : list Project.t) :
  Sorted (fun a b => before o a b = true) (sort o l).
Proof.
  unfold sort. induction l as [|x l IH]; cbn [fold_right]; [constructor|].
  apply insert_sorted_Sorted. assumption.
Qed.

Lemma Sorted_take {A : Type} (R : A -> A -> Prop) (n : nat) (l : list A) :
  Sorted R l -> Sorted R (take n l).
Proof.
  intros H. revert n. induction H as [|x l Hl IH Hhd]; intros [|n]; cbn; try constructor.
  - apply IH.
  - destruct Hhd; destruct n; cbn; constructor; assumption.
Qed.

Lemma Sorted_drop {A : Type} (R : A -> A -> Prop) (n : nat) (l : list A) :
  Sorted R l -> Sorted R (drop n l).
Proof.
  revert l. induction n as [|n IH]; intros l H; [destruct l; exact H|].
  destruct l as [|x l]; cbn; [constructor|].
  apply IH. inversion H; assumption.
Qed.

Lemma In_take {A : Type} (x : A) (n : nat) (l : list A) : In x (take n l) -> In x l.
Proof.
  revert n. induction l as [|y l IH]; intros [|n]; cbn; try tauto.
  intros [H|H]; [tauto|right; eapply IH; eassumption].
Qed.

Lemma In_drop {A : Type} (x : A) (n : nat) (l : list A) : In x (drop n l) -> In x l.
Proof.
  revert l. induction n as [|n IH]; intros l; [destruct l; tauto|].
  destruct l as [|y l]; cbn; [tauto|]. intros H. right. apply IH. assumption.
Qed.

(** What a query returns matches the filter and is stored. *)
Lemma Project_find_sound (f : Filter) (o : Sort) (skip limit : Z) s found s' :
  Project_find regex_i f o skip limit s = (inr found, s') ->
  s' = s /\
  (0 <= skip)%Z /\
  found = limit_to limit (drop (Z.to_nat skip)
            (sort o (List.filter (matches regex_i f) (Project_collection s)))) /\
  Sorted (fun a b => before o a b = true) found /\
  forall p, In p found -> In p (Project_collection s) /\ matches regex_i f p = true.
Proof.
  unfold Project_find.
  destruct (Z.ltb_spec skip 0) as [|Hskip]; [discriminate|].
  intros H. injection H as <- <-.
  split; [reflexivity|]. split; [assumption|]. split; [reflexivity|]. split.
  - unfold limit_to. destruct (limit =? 0)%Z.
    + apply Sorted_drop, sort_Sorted.
    + apply Sorted_take, Sorted_drop, sort_Sorted.
  - intros p Hp.
    assert (Hin : In p (List.filter (matches regex_i f) (Project_collection s))).
    { apply (In_sort o), (In_drop _ (Z.to_nat skip)).
      unfold limit_to in Hp. destruct (limit =? 0)%Z; [assumption|].
      eapply In_take. eassumption. }
    apply filter_In in Hin. tauto.
Qed.

Lemma listing_filter_isPremium (premium : PremiumFilter) (query : ProjectQuery.t) :
  isPremium (listing_filter premium query) = Some premium.
Proof.
  unfold listing_filter.
  destruct (ProjectQuery.category query) as [c|]; [destruct (Js.truthy_string (Some c))|];
    (destruct (ProjectQuery.status query);
     destruct (some_bound (ProjectQuery.minROI query) (ProjectQuery.maxROI query));
     (destruct (ProjectQuery.search query) as [t|];
      [destruct (Js.truthy_string (Some t))|]); reflexivity).
Qed.

Lemma listing_sound (premium : PremiumFilter) (query : ProjectQuery.t) s r s' :
  listing regex_i premium query s = (inr r, s') ->
  s' = s /\
  forall p, In p (projects r) ->
    In p (Project_collection s) /\
    Project.isPremium p = match premium with premium_ne_true => false | premium_true => true end.
Proof.
  unfold listing, bind.
  destruct (Project_find _ _ _ _ _ s) as [[err|found] s1] eqn:Hfind; [discriminate|].
  apply Project_find_sound in Hfind as (-> & _ & _ & _ & Hin).
  unfold Project_countDocuments, ret. intros H. injection H as <- <-.
  split; [reflexivity|]. cbn [projects]. intros p Hp.
  destruct (Hin p Hp) as [Hstored Hmatch]. split; [assumption|].
  unfold matches in Hmatch. rewrite listing_filter_isPremium in Hmatch.
  repeat (apply andb_true_iff in Hmatch as [Hmatch _]).
  destruct premium; [apply negb_true_iff|]; assumption.
Qed.

(** C9: the default listing returns no project flagged isPremium; the
    premium listing returns only projects flagged isPremium, and its
    handler answers 403 to every caller whose plan is not exactly
    "premium" (a missing or empty plan counts as "free"). *)
Theorem listings_by_premium_flag :
  (forall query s r s',
      getAllProjects regex_i query s = (inr r, s') ->
      forall p, In p (projects r) ->
                In p (Project_collection s) /\ Project.isPremium p = false) /\
  (forall query s code text r s',
      ProjectController.getAllProjects regex_i query s = (Json code text r, s') ->
      forall p, In p (projects r) -> Project.isPremium p = false) /\
  (forall query s r s',
      getPremiumProjects regex_i query s = (inr r, s') ->
      forall p, In p (projects r) ->
                In p (Project_collection s) /\ Project.isPremium p = true) /\
  (forall planKey query s,
      planKey <> Some "premium" ->
      ProjectController.getPremiumProjects regex_i planKey query s =
        (Failure (mkErrorResponse 403
                    (Lit "Premium plan required to access premium projects")), s)) /\
  (forall planKey query s code text r s',
      ProjectController.getPremiumProjects regex_i planKey query s = (Json code text r, s') ->
      planKey = Some "premium" /\
      forall p, In p (projects r) -> Project.isPremium p = true).
Proof.
  assert (Hdenied : forall planKey query s,
             planKey <> Some "premium" ->
             ProjectController.getPremiumProjects regex_i planKey query s =
               (Failure (mkErrorResponse 403
                           (Lit "Premium plan required to access premium projects")), s)).
  { intros planKey query s Hplan. unfold ProjectController.getPremiumProjects.
    assert (E : (ProjectController.userPlan planKey =? "premium") = false).
    { apply String.eqb_neq. unfold ProjectController.userPlan, Js.string_or_else.
      destruct planKey as [k|]; [|discriminate].
      destruct (String.eqb_spec k EmptyString); [discriminate|].
      intros ->. apply Hplan. reflexivity. }
    rewrite E. reflexivity. }
  split; [|split; [|split; [|split]]].
  - intros query s r s' H p Hp.
    apply listing_sound in H as [_ H]. exact (H p Hp).
  - intros query s code text r s'. unfold ProjectController.getAllProjects, respond.
    destruct (ProjectQuery.parse query) as [err|validated]; [discriminate|].
    destruct (getAllProjects regex_i validated s) as [[err|r0] s0] eqn:Hrun; [discriminate|].
    intros H p Hp. injection H as _ _ <- _.
    apply listing_sound in Hrun as [_ Hrun]. exact (proj2 (Hrun p Hp)).
  - intros query s r s' H p Hp.
    apply listing_sound in H as [_ H]. exact (H p Hp).
  - exact Hdenied.
  - intros planKey query s code text r s' H.
    assert (Hplan : planKey = Some "premium").
    { destruct planKey as [k|].
      - destruct (String.eqb_spec k "premium") as [->|Hne]; [reflexivity|].
        rewrite Hdenied in H by congruence. discriminate.
      - rewrite Hdenied in H by discriminate. discriminate. }
    split; [assumption|]. subst planKey.
    unfold ProjectController.getPremiumProjects, respond in H. cbn [negb] in H.
    change (ProjectController.userPlan (Some "premium") =? "premium") with true in H.
    cbn [negb] in H.
    destruct (ProjectQuery.parse query) as [err|validated]; [discriminate|].
    destruct (getPremiumProjects regex_i validated s) as [[err|r0] s0] eqn:Hrun;
      [discriminate|].
    injection H as _ _ <- _. intros p Hp.
    apply listing_sound in Hrun as [_ Hrun]. exact (proj2 (Hrun p Hp)).
Qed.

Lemma and_access_plan (supplied : bool) (userPlan : string) (p : PlanFeatures.t) feature :
  PlanFeatures.resolve userPlan = PlanFeatures.Plan p ->
  and_access supplied userPlan feature
  = ret (supplied && PlanFeatures.flag (PlanFeatures.searchFilters p) feature).
Proof.
  intros H. unfold and_access.
  rewrite (hasFeatureAccess_plan userPlan p feature H).
  destruct supplied; reflexivity.
Qed.

Lemma require_access_plan (userPlan : string) (p : PlanFeatures.t) feature text :
  PlanFeatures.resolve userPlan = PlanFeatures.Plan p ->
  require_access userPlan feature text
  = if PlanFeatures.flag (PlanFeatures.searchFilters p) feature
    then ret tt else appError (Lit text) 403.
Proof.
  intros H. unfold require_access.
  rewrite (hasFeatureAccess_plan userPlan p feature H). reflexivity.
Qed.

(** C4, for requests the schema accepts: when a request supplies a gated
    filter dimension (a non-empty list of categories, or a bound on ROI,
    amount or duration) that the caller's plan lacks, the search fails
    with a 403 Authorization error - that of the first dimension, in the
    order categories, ROI, amount, duration, that is supplied and that the
    plan lacks, with the message the search has for that dimension, which
    names the cheapest plan granting it - and returns no result set; the
    store is untouched. *)
Theorem advancedSearch_gated_filters raw v userPlan s dimension :
  AdvancedSearchInput.parse raw = inr v ->
  In dimension Gating.gated ->
  Gating.supplied v dimension = true ->
  Gating.lacks userPlan dimension ->
  exists denied text,
    Gating.first_denied v userPlan = Some denied /\
    Gating.refusal denied = Some text /\
    In denied Gating.gated /\
    Gating.supplied v denied = true /\
    Gating.lacks userPlan denied /\
    advancedSearch regex_i raw userPlan s = (inl (AppErr (mkAppError (Lit text) 403)), s) /\
    kind (AppErr (mkAppError (Lit text) 403)) = Authorization /\
    Js.includes text (Gating.minimum_plan_name denied) = true.
Proof.
  intros Hparse Hin Hsupplied Hlacks.
  destruct (hasFeatureAccess_inr userPlan dimension false Hlacks) as (p & Hp & Hres & Hflag).
  assert (Hlacks_p : forall d, PlanFeatures.flag (PlanFeatures.searchFilters p) d = false ->
                               Gating.lacks userPlan d).
  { intros d Hd. unfold Gating.lacks.
    rewrite (hasFeatureAccess_plan userPlan p d Hres), Hd. reflexivity. }
  unfold advancedSearch. rewrite Hparse. cbv zeta.
  rewrite !(and_access_plan _ userPlan p _ Hres).
  rewrite !(require_access_plan userPlan p _ _ Hres).
  unfold Gating.first_denied, Gating.lacking. cbn [find Gating.gated].
  rewrite !(hasFeatureAccess_plan userPlan p _ Hres).
  unfold Gating.supplied in *.
  set (byCategories := nonempty (AdvancedSearchInput.categories v)) in *.
  set (byROI := some_bound (AdvancedSearchInput.minROI v) (AdvancedSearchInput.maxROI v)) in *.
  set (byAmount := some_bound (AdvancedSearchInput.minAmount v)
                     (AdvancedSearchInput.maxAmount v)) in *.
  set (byDuration := some_bound (AdvancedSearchInput.minDuration v)
                       (AdvancedSearchInput.maxDuration v)) in *.
  clearbody byCategories byROI byAmount byDuration.
  clear Hlacks Hparse.
  assert (Hdim : dimension = PlanFeatures.multipleCategories \/
                 dimension = PlanFeatures.roiRange \/
                 dimension = PlanFeatures.amountRange \/
                 dimension = PlanFeatures.durationFilter)
    by (cbn in Hin; intuition congruence).
  clear Hin.
  assert (Hplan : p = PlanFeatures.free \/ p = PlanFeatures.basic \/
                  p = PlanFeatures.plus \/ p = PlanFeatures.premium)
    by (cbn in Hp; intuition congruence).
  clear Hp Hres.
  destruct Hdim as [-> | [-> | [-> | ->]]]; subst;
    destruct Hplan as [-> | [-> | [-> | ->]]]; try discriminate Hflag; clear Hflag;
    repeat match goal with b : bool |- _ => destruct b end;
    eexists _, _;
    (split; [reflexivity|]); (split; [reflexivity|]);
    (split; [cbn; tauto|]); (split; [reflexivity|]);
    (split; [apply Hlacks_p; reflexivity|]);
    (split; [reflexivity|]); split; reflexivity.
Qed.

Lemma int_min_bound (lo : Z) (q : Q) (n : Z) :
  AdvancedSearchInput.int_min lo q = Some n -> (lo <= n)%Z.
Proof.
  unfold AdvancedSearchInput.int_min, Zod.check.
  destruct (Zod.int q) as [m|]; [|discriminate].
  destruct (Z.leb_spec lo m); [|discriminate]. congruence.
Qed.

Lemma int_between_bound (lo hi : Z) (q : Q) (n : Z) :
  AdvancedSearchInput.int_between lo hi q = Some n -> (lo <= n <= hi)%Z.
Proof.
  unfold AdvancedSearchInput.int_between, Zod.check.
  destruct (Zod.int q) as [m|]; [|discriminate].
  destruct (Z.leb_spec lo m), (Z.leb_spec m hi); cbn; try discriminate.
  intros Heq. injection Heq as <-. lia.
Qed.

Ltac parsed H :=
  unfold AdvancedSearchInput.parse in H; cbv zeta in H;
  repeat match type of H with
         | context [match ?x with Some _ => _ | None => _ end] =>
             let E := fresh "E" in destruct x eqn:E; try discriminate H
         end.

(** A request the schema accepts has a page of at least 1 and a limit
    between 1 and 100. *)
Lemma parse_bounds raw v :
  AdvancedSearchInput.parse raw = inr v ->
  (1 <= AdvancedSearchInput.page v)%Z /\
  (1 <= AdvancedSearchInput.limit v <= 100)%Z.
Proof.
  intros H. parsed H. injection H as <-. cbn.
  split.
  - destruct (AdvancedSearchInput.raw_page raw); cbn in *.
    + eapply int_min_bound. eassumption.
    + injection E as <-. lia.
  - destruct (AdvancedSearchInput.raw_limit raw); cbn in *.
    + eapply int_between_bound. eassumption.
    + injection E0 as <-. lia.
Qed.






End Search.

Lemma listings_by_premium_flag_witness :
  Some "plus" <> Some "premium" /\
  ProjectController.getPremiumProjects Sample.matches_everything (Some "plus")
    Sample.first_page Sample.catalogue
  = (Failure (mkErrorResponse 403 (Lit "Premium plan required to access premium projects")),
     Sample.catalogue) /\
  (exists r,
      ProjectController.getAllProjects Sample.matches_everything Sample.first_page
        Sample.catalogue
      = (Json 200 EmptyString r, Sample.catalogue) /\
      ProjectService.projects r = [Sample.solar_farm 900 3 Project.active] /\
      forall p, In p (ProjectService.projects r) -> Project.isPremium p = false) /\
  (exists r,
      ProjectController.getPremiumProjects Sample.matches_everything (Some "premium")
        Sample.first_page Sample.catalogue
      = (Json 200 EmptyString r, Sample.catalogue) /\
      ProjectService.projects r = [Sample.wind_park]).
Proof.
  assert (H : Some "plus" <> Some "premium") by discriminate.
  pose proof (listings_by_premium_flag Sample.matches_everything)
    as (_ & Hdefault & _ & Hdenied & _).
  split; [exact H|]. split; [exact (Hdenied (Some "plus") _ _ H)|]. split.
  - exists (ProjectService.mkListing [Sample.solar_farm 900 3 Project.active]
              (ProjectService.mkPagination 1 10 1 (Some 1%Z))).
    split; [reflexivity|]. split; [reflexivity|].
    exact (Hdefault Sample.first_page Sample.catalogue _ _ _ _ eq_refl).
  - exists (ProjectService.mkListing [Sample.wind_park]
              (ProjectService.mkPagination 1 10 1 (Some 1%Z))).
    split; reflexivity.
Defined.

Lemma advancedSearch_gated_filters_witness :
  let raw := Sample.request None (Some 10%Q) None None in
  let v := Sample.validated None (Some 10%Q) AdvancedSearchInput.createdAt
             AdvancedSearchInput.desc in
  (AdvancedSearchInput.parse raw = inr v /\
   In PlanFeatures.roiRange Gating.gated /\
   Gating.supplied v PlanFeatures.roiRange = true /\
   Gating.lacks "free" PlanFeatures.roiRange) /\
  Gating.minimum_plan_name PlanFeatures.roiRange = "Basic" /\
  exists denied text,
    Gating.first_denied v "free" = Some denied /\
    Gating.refusal denied = Some text /\
    In denied Gating.gated /\
    Gating.supplied v denied = true /\
    Gating.lacks "free" denied /\
    ProjectService.advancedSearch Sample.matches_everything raw "free" Sample.catalogue
    = (inl (AppErr (mkAppError (Lit text) 403)), Sample.catalogue) /\
    kind (AppErr (mkAppError (Lit text) 403)) = Authorization /\
    Js.includes text (Gating.minimum_plan_name denied) = true.
Proof.
  intros raw v.
  assert (H1 : AdvancedSearchInput.parse raw = inr v) by reflexivity.
  assert (H2 : In PlanFeatures.roiRange Gating.gated) by (cbn; tauto).
  assert (H3 : Gating.supplied v PlanFeatures.roiRange = true) by reflexivity.
  assert (H4 : Gating.lacks "free" PlanFeatures.roiRange) by reflexivity.
  split; [repeat split; assumption|]. split; [reflexivity|].
  exact (advancedSearch_gated_filters Sample.matches_everything raw v "free"
           Sample.catalogue PlanFeatures.roiRange H1 H2 H3 H4).
Defined.

(** C4 as stated fails on two requests of a caller on the free plan. A
    minimum ROI of 2000 is a value for the gated ROI dimension, and the
    search fails with the schema's Validation error, not with an
    Authorization error. An empty list of categories is a value for the
    gated categories dimension, and the search returns the result set of
    the request without it. *)
Lemma advancedSearch_free_plan_not_refused :
  let out_of_range := Sample.request None (Some 2000%Q) None None in
  let no_category := Sample.request (Some []) None None None in
  (AdvancedSearchInput.raw_minROI out_of_range = Some 2000%Q /\
   Gating.lacks "free" PlanFeatures.roiRange /\
   ProjectService.advancedSearch Sample.matches_everything out_of_range "free" Sample.catalogue
   = (inl (ZodError ["minROI"]), Sample.catalogue) /\
   kind (ZodError ["minROI"]) = Validation) /\
  (AdvancedSearchInput.raw_categories no_category = Some [] /\
   Gating.lacks "free" PlanFeatures.multipleCategories /\
   exists r,
     ProjectService.advancedSearch Sample.matches_everything no_category "free" Sample.catalogue
     = (inr r, Sample.catalogue) /\
     ProjectService.advancedSearch Sample.matches_everything
       (Sample.request None None None None) "free" Sample.catalogue
     = (inr r, Sample.catalogue) /\
     ProjectService.projects (ProjectService.found r)
     = [Sample.wind_park; Sample.solar_farm 900 3 Project.active]).
Proof.
  cbn zeta. split.
  - repeat split; reflexivity.
  - split; [reflexivity|]. split; [reflexivity|].
    exists (ProjectService.mkSearchResult
              (ProjectService.mkListing
                 [Sample.wind_park; Sample.solar_farm 900 3 Project.active]
                 (ProjectService.mkPagination 1 20 2 (Some 1%Z)))
              (PlanFeatures.Plan PlanFeatures.free)).
    split; [reflexivity|]. split; reflexivity.
Qed.



(** ** Binary64 numbers *)

Section Binary64.

Import Double.
Local Open Scope float_scope.

Lemma Prim2SF_zero : Prim2SF 0 = S754_zero false.
Proof. reflexivity. Qed.

(** [0 <= x] as IEEE 754 decides it. *)
Lemma leb_zero_nonnegative (x : float) : (0 <=? x) = nonnegative x.
Proof.
  rewrite FloatAxioms.leb_spec, Prim2SF_zero. unfold nonnegative.
  destruct (Prim2SF x) as [[]|[]| |[] m e]; reflexivity.
Qed.

Lemma nonnegative_number (x : float) : nonnegative x = true -> number x.
Proof.
  unfold nonnegative, number. intros H Hnan. rewrite Hnan in H. discriminate.
Qed.

Lemma SFcompare_antisym (a b : spec_float) :
  SFcompare b a = option_map CompOpp (SFcompare a b).
Proof.
  destruct a as [[]|[]| |[] m1 e1], b as [[]|[]| |[] m2 e2]; try reflexivity;
    cbn [SFcompare option_map]; rewrite (Z.compare_antisym e1 e2);
    destruct (e1 ?= e2)%Z; cbn [CompOpp]; try reflexivity;
    rewrite (ZC4 m2 m1); destruct (Pos.compare_cont Eq m1 m2); reflexivity.
Qed.

Lemma SFcompare_number (a b : spec_float) :
  a <> S754_nan -> b <> S754_nan -> exists c, SFcompare a b = Some c.
Proof.
  intros Ha Hb.
  destruct a as [[]|[]| |[] m1 e1], b as [[]|[]| |[] m2 e2];
    try congruence; cbn [SFcompare]; eexists; reflexivity.
Qed.

(** On numbers [x < y] is the negation of [y <= x]. *)
Lemma ltb_negb_leb (x y : float) : number x -> number y -> (x <? y) = negb (y <=? x).
Proof.
  unfold number. intros Hx Hy. rewrite FloatAxioms.ltb_spec, FloatAxioms.leb_spec.
  unfold SFltb, SFleb. rewrite (SFcompare_antisym (Prim2SF x) (Prim2SF y)).
  destruct (SFcompare_number _ _ Hx Hy) as (c & ->).
  destruct c; reflexivity.
Qed.

Lemma leb_negb_ltb (x y : float) : number x -> number y -> (x <=? y) = negb (y <? x).
Proof.
  intros Hx Hy. rewrite (ltb_negb_leb y x Hy Hx), negb_involutive. reflexivity.
Qed.

(** What is at or above a number that is at or above zero is so too. *)
Lemma leb_nonnegative (a b : float) :
  nonnegative a = true -> (a <=? b) = true -> nonnegative b = true.
Proof.
  unfold nonnegative. rewrite FloatAxioms.leb_spec. unfold SFleb.
  destruct (Prim2SF a) as [[]|[]| |[] m1 e1]; try discriminate;
    destruct (Prim2SF b) as [[]|[]| |[] m2 e2]; cbn [SFcompare];
    intros _ H; try reflexivity; discriminate.
Qed.

(** A truthy amount is a number. *)
Lemma truthy_number (x : float) : falsy x = false -> number x.
Proof.
  unfold falsy, is_nan, number. intros H Hnan.
  apply orb_false_elim in H as (_ & H).
  rewrite FloatAxioms.eqb_spec, Hnan in H. discriminate.
Qed.

(** *** Rounding keeps the sign *)

Lemma shr_1_nonneg (mrs : shr_record) : (0 <= shr_m mrs)%Z -> (0 <= shr_m (shr_1 mrs))%Z.
Proof.
  destruct mrs as [m r s]. cbn [shr_m]. intros H.
  destruct m as [|[p|p|]|p]; cbn; lia.
Qed.

Lemma iter_shr_1_nonneg (p : positive) (mrs : shr_record) :
  (0 <= shr_m mrs)%Z -> (0 <= shr_m (SpecFloat.iter_pos shr_1 p mrs))%Z.
Proof.
  revert mrs. induction p as [p IH|p IH|]; intros mrs H; cbn [SpecFloat.iter_pos].
  - apply IH, IH, shr_1_nonneg, H.
  - apply IH, IH, H.
  - apply shr_1_nonneg, H.
Qed.

Lemma shr_fexp_nonneg (m e : Z) (l : location) :
  (0 <= m)%Z -> (0 <= shr_m (fst (shr_fexp prec emax m e l)))%Z.
Proof.
  intros H. unfold shr_fexp, shr.
  assert (H0 : (0 <= shr_m (shr_record_of_loc m l))%Z)
    by (destruct l as [|[]]; exact H).
  destruct (fexp prec emax (Zdigits2 m + e) - e)%Z; cbn [fst]; try exact H0.
  apply iter_shr_1_nonneg, H0.
Qed.

Lemma round_nearest_even_nonneg (m : Z) (l : location) :
  (0 <= m)%Z -> (0 <= round_nearest_even m l)%Z.
Proof.
  intros H. unfold round_nearest_even.
  destruct l as [|[]]; try destruct (Z.even m); lia.
Qed.

(** Rounding a positive mantissa gives a zero, a finite number or an
    infinity of the same sign. *)
Lemma binary_round_sign (sx : bool) (mx : positive) (ex : Z) :
  match binary_round prec emax sx mx ex with
  | S754_zero s | S754_infinity s | S754_finite s _ _ => s = sx
  | S754_nan => False
  end.
Proof.
  unfold binary_round.
  destruct (shl_align mx ex (fexp prec emax (Z.pos (digits2_pos mx) + ex))) as [mz ez].
  unfold binary_round_aux.
  pose proof (shr_fexp_nonneg (Z.pos mz) ez loc_Exact ltac:(lia)) as H1.
  destruct (shr_fexp prec emax (Z.pos mz) ez loc_Exact) as [mrs' e'].
  cbn [fst] in H1.
  pose proof (shr_fexp_nonneg
                (round_nearest_even (shr_m mrs') (loc_of_shr_record mrs')) e' loc_Exact
                (round_nearest_even_nonneg _ _ H1)) as H2.
  destruct (shr_fexp prec emax
              (round_nearest_even (shr_m mrs') (loc_of_shr_record mrs')) e' loc_Exact)
    as [mrs'' e''].
  cbn [fst] in H2.
  destruct (shr_m mrs'') as [|m|m]; [reflexivity| |lia].
  destruct (e'' <=? emax - prec)%Z; reflexivity.
Qed.

(** The sum of two numbers at or above zero is one: it is not NaN. *)
Lemma add_nonnegative (x y : float) :
  nonnegative x = true -> nonnegative y = true -> nonnegative (x + y) = true.
Proof.
  unfold nonnegative. rewrite FloatAxioms.add_spec. unfold SF64add, SFadd.
  destruct (Prim2SF x) as [[]|[]| |[] mx ex]; try discriminate;
    destruct (Prim2SF y) as [[]|[]| |[] my ey]; try discriminate; intros _ _;
    try reflexivity.
  cbn [cond_Zopp]. unfold binary_normalize.
  destruct (Z.pos (fst (shl_align mx ex (Z.min ex ey))) +
            Z.pos (fst (shl_align my ey (Z.min ex ey))))%Z as [|m|m] eqn:Hm;
    [reflexivity| |lia].
  pose proof (binary_round_sign false m (Z.min ex ey)) as H.
  destruct (binary_round prec emax false m (Z.min ex ey)) as [s|s| |s m' e'];
    [reflexivity|rewrite H; reflexivity|destruct H|rewrite H; reflexivity].
Qed.

(** *** The value of a number *)

Import Ledger.

Lemma value_nonnegative (x : float) (q : Q) :
  value x = Some q -> (nonnegative x = true <-> (0 <= q)%Q).
Proof.
  unfold value, nonnegative.
  destruct (Prim2SF x) as [s|s| |s m e]; try discriminate.
  - intros [= <-]. destruct s; split; intros _; [apply Qle_refl|reflexivity
                                                |apply Qle_refl|reflexivity].
  - intros [= <-]. unfold Qle. destruct s, e as [|k|k]; cbn; split; intros H;
      try reflexivity; try discriminate; lia.
Qed.

Lemma exact_sum_value (a b : float) :
  exact_sum a b = true ->
  exists x y z, value a = Some x /\ value b = Some y /\ value (a + b) = Some z /\
                (z == x + y)%Q.
Proof.
  unfold exact_sum.
  destruct (value a) as [x|], (value b) as [y|], (value (a + b)) as [z|];
    try discriminate.
  intros H. exists x, y, z. repeat split. apply Qeq_bool_eq, H.
Qed.

Lemma exact_difference_value (a b : float) :
  exact_difference a b = true ->
  exists x y z, value a = Some x /\ value b = Some y /\ value (a - b) = Some z /\
                (z == x - y)%Q.
Proof.
  unfold exact_difference.
  destruct (value a) as [x|], (value b) as [y|], (value (a - b)) as [z|];
    try discriminate.
  intros H. exists x, y, z. repeat split. apply Qeq_bool_eq, H.
Qed.

End Binary64.

(** ** The handlers in double precision *)

Section DoubleHandlers.

Import Double Double.Errors Double.InvestmentController.
Local Open Scope float_scope.

Lemma failing_nil {A : Type} (validators : list (string * (A -> bool))) (doc : A) :
  failing validators doc = [] <-> forallb (fun v => snd v doc) validators = true.
Proof.
  unfold failing. induction validators as [|v validators IH]; cbn; [tauto|].
  destruct (snd v doc); cbn; [exact IH|split; discriminate].
Qed.

(** What the schema's validators say of a project's amounts. *)
Lemma schema_valid_amounts (p : Project.t) :
  Project.schema_valid p ->
  nonnegative (Project.minInvestment p) = true /\
  nonnegative (Project.targetAmount p) = true /\
  nonnegative (Project.fundedAmount p) = true /\
  (0 <= Project.totalInvestors p)%Z.
Proof.
  unfold Project.schema_valid, Project.invalid. rewrite failing_nil.
  cbn [forallb Project.validators snd]. rewrite !andb_true_iff, !leb_zero_nonnegative.
  intros (_ & _ & _ & Hmin & _ & Htarget & Hfunded & Hcount & _).
  repeat split; try assumption. apply Z.leb_le, Hcount.
Qed.

(** Assigning fundedAmount, totalInvestors and status keeps a document
    valid when the two numbers are at or above zero. *)
Lemma schema_valid_funding (p : Project.t) (funded : float) (investors : Z)
    (status : Project.Status) :
  Project.schema_valid p -> nonnegative funded = true -> (0 <= investors)%Z ->
  Project.schema_valid
    (Project.set_status status
       (Project.set_totalInvestors investors (Project.set_fundedAmount funded p))).
Proof.
  unfold Project.schema_valid, Project.invalid. rewrite !failing_nil.
  cbn [forallb Project.validators snd Project.set_status Project.set_totalInvestors
         Project.set_fundedAmount Project.title Project.description Project.category
         Project.minInvestment Project.roiPercent Project.targetAmount
         Project.fundedAmount Project.totalInvestors Project.durationMonths].
  rewrite !andb_true_iff, !leb_zero_nonnegative.
  intros (H1 & H2 & H3 & H4 & H5 & H6 & _ & _ & H9) Hf Hn.
  apply Z.leb_le in Hn. tauto.
Qed.

Lemma funded_valid (amount : float) (p : Project.t) :
  Project.schema_valid p ->
  nonnegative (Project.fundedAmount p + amount) = true ->
  Project.schema_valid (Effects.funded amount p).
Proof.
  intros Hp Hf. pose proof (schema_valid_amounts p Hp) as (_ & _ & _ & Hn).
  assert (Hn' : (0 <= Js.or_else (Project.totalInvestors p) 0 + 1)%Z).
  { unfold Js.or_else. destruct (Project.totalInvestors p =? 0)%Z; lia. }
  unfold Effects.funded. cbv zeta.
  destruct (_ <=? _).
  - exact (schema_valid_funding p _ _ Project.completed Hp Hf Hn').
  - exact (schema_valid_funding p _ _ (Project.status p) Hp Hf Hn').
Qed.

Lemma released_valid (i : Investment.t) (p : Project.t) :
  Project.schema_valid p ->
  nonnegative (Project.fundedAmount p - Investment.amount i) = true ->
  Project.schema_valid (Effects.released i p).
Proof.
  intros Hp Hf.
  assert (Hn' : (0 <= Z.max (Js.or_else (Project.totalInvestors p) 1 - 1) 0)%Z) by lia.
  unfold Effects.released. cbv zeta.
  destruct (Project.Status_eqb _ _).
  - exact (schema_valid_funding p _ _ Project.active Hp Hf Hn').
  - exact (schema_valid_funding p _ _ (Project.status p) Hp Hf Hn').
Qed.

Lemma funded_fundedAmount (amount : float) (p : Project.t) :
  Project.fundedAmount (Effects.funded amount p) = Project.fundedAmount p + amount.
Proof. unfold Effects.funded. cbv zeta. destruct (_ <=? _); reflexivity. Qed.

Lemma released_fundedAmount (i : Investment.t) (p : Project.t) :
  Project.fundedAmount (Effects.released i p)
  = Project.fundedAmount p - Investment.amount i.
Proof. unfold Effects.released. cbv zeta. destruct (Project.Status_eqb _ _); reflexivity. Qed.

(** The payment record the handler builds is never accepted: it has no
    subscriptionId. *)
Lemma Payment_without_subscription (p : Payment.t) :
  Payment.subscriptionId p = None ->
  exists rest, Payment.invalid p = "subscriptionId" :: rest.
Proof.
  intros H. unfold Payment.invalid, failing.
  cbn [Payment.validators List.filter snd]. rewrite H. cbn [negb map fst].
  eexists. reflexivity.
Qed.

(** Every way an invest call ends: refused with the store untouched, or
    stopped after the investment is stored - by the project's validators,
    or by those of the payment record once the project is saved. *)
Lemma createInvestment_outcome now userId body s :
  (exists err, createInvestment now userId body s = (inl err, s)) \/
  exists projectId amount paymentMethod p,
    required_fields body = Some (projectId, amount, paymentMethod) /\
    projects s !! projectId = Some p /\
    Investment.invalid (Effects.invested now userId projectId amount paymentMethod p) = [] /\
    let inv := Effects.invested now userId projectId amount paymentMethod p in
    match Project.invalid (Effects.funded amount p) with
    | [] =>
        exists bad,
          createInvestment now userId body s =
          (inl (ValidationError "Payment" ("subscriptionId" :: bad)),
           mkStore (<[projectId := Effects.funded amount p]> (projects s))
             (investments s ++ [inv]) (payments s))
    | bad =>
        createInvestment now userId body s =
        (inl (ValidationError "Project" bad),
         mkStore (projects s) (investments s ++ [inv]) (payments s))
    end.
Proof.
  remember (createInvestment now userId body s) as result eqn:Hres.
  unfold createInvestment in Hres.
  destruct (required_fields body) as [[[projectId amount] paymentMethod]|] eqn:Hreq;
    [|left; eexists; exact Hres].
  unfold bind at 1 in Hres. unfold Project_findById in Hres.
  destruct (projects s !! projectId) as [p|] eqn:Hp; [|left; eexists; exact Hres].
  destruct (negb (Project.Status_eqb (Project.status p) Project.active));
    [left; eexists; exact Hres|].
  destruct (amount <? Project.minInvestment p); [left; eexists; exact Hres|].
  destruct (Project.targetAmount p <=? Project.fundedAmount p);
    [left; eexists; exact Hres|].
  destruct (Project.targetAmount p <? Project.fundedAmount p + amount);
    [left; eexists; exact Hres|].
  cbv zeta in Hres.
  change (Investment.mk userId projectId amount Investment.completed paymentMethod now
            (amount + amount * Project.roiPercent p / 100)
            (if (Project.durationMonths p =? 0)%Z then None
             else Some (now, Project.durationMonths p)) None None None None)
    with (Effects.invested now userId projectId amount paymentMethod p) in Hres.
  set (inv := Effects.invested now userId projectId amount paymentMethod p) in *.
  unfold bind at 1 in Hres. unfold Investment_create in Hres.
  destruct (Investment.invalid inv) as [|bad1 bads1] eqn:Hinv;
    [|left; eexists; exact Hres].
  right. exists projectId, amount, paymentMethod, p.
  split; [reflexivity|]. split; [exact Hp|]. split; [exact Hinv|].
  cbv zeta. fold inv.
  match type of Hres with
  | context [Project_save projectId ?q] =>
      change q with (Effects.funded amount p) in Hres
  end.
  set (p' := Effects.funded amount p) in *.
  unfold bind at 1 in Hres. unfold Project_save in Hres.
  destruct (Project.invalid p') as [|bad2 bads2] eqn:Hproj.
  - cbn [projects investments payments] in Hres.
    unfold bind at 1 in Hres. unfold Payment_create in Hres.
    match type of Hres with
    | context [Payment.invalid ?pay] =>
        destruct (Payment_without_subscription pay eq_refl) as (rest & Hpay);
        rewrite Hpay in Hres
    end.
    exists rest. exact Hres.
  - exact Hres.
Qed.

Lemma required_fields_truthy (pid : ObjectId) (amount : float) (pm : string) :
  falsy amount = false -> pm <> EmptyString ->
  required_fields (mkCreateBody (Some pid) (Some amount) (Some pm)) = Some (pid, amount, pm).
Proof.
  intros Ha Hpm. unfold required_fields. cbn [body_projectId body_amount body_paymentMethod].
  rewrite Ha. cbn [negb andb Js.truthy_string].
  destruct (String.eqb_spec pm EmptyString); [contradiction|reflexivity].
Qed.

(** The guards of lines 440, 449 and 454 against the preconditions 3, 4
    and 5 of the specification, for a truthy amount and a project the
    schema accepts. *)
Lemma guards_preconditions (p : Project.t) (amount : float) :
  falsy amount = false -> Project.schema_valid p ->
  (amount <? Project.minInvestment p)
  = negb (InvestSpec.holds (Some p) amount InvestSpec.MinimumMet) /\
  (Project.targetAmount p <=? Project.fundedAmount p)
  = negb (InvestSpec.holds (Some p) amount InvestSpec.NotFullyFunded) /\
  (InvestSpec.holds (Some p) amount InvestSpec.MinimumMet = true ->
   (Project.targetAmount p <? Project.fundedAmount p + amount)
   = negb (InvestSpec.holds (Some p) amount InvestSpec.WithinHeadroom)).
Proof.
  intros Ha Hp. pose proof (truthy_number amount Ha) as Hnum.
  destruct (schema_valid_amounts p Hp) as (Hmin & Htarget & Hfunded & _).
  cbn [InvestSpec.holds]. split; [|split].
  - apply ltb_negb_leb; [exact Hnum|apply nonnegative_number, Hmin].
  - apply leb_negb_ltb; apply nonnegative_number; assumption.
  - intros Hle. apply ltb_negb_leb; apply nonnegative_number; [assumption|].
    apply add_nonnegative; [assumption|]. exact (leb_nonnegative _ _ Hmin Hle).
Qed.

Lemma first_violated_holds (p : Project.t) (amount : float) :
  InvestSpec.first_violated (Some p) amount = None ->
  Project.status p = Project.active /\
  InvestSpec.holds (Some p) amount InvestSpec.MinimumMet = true /\
  InvestSpec.holds (Some p) amount InvestSpec.NotFullyFunded = true /\
  InvestSpec.holds (Some p) amount InvestSpec.WithinHeadroom = true.
Proof.
  unfold InvestSpec.first_violated. cbn [find InvestSpec.listed].
  change (InvestSpec.holds (Some p) amount InvestSpec.ProjectExists) with true.
  change (InvestSpec.holds (Some p) amount InvestSpec.ProjectActive)
    with (Project.Status_eqb (Project.status p) Project.active).
  cbn [negb].
  destruct (Project.status p); cbn [Project.Status_eqb negb]; try discriminate.
  destruct (InvestSpec.holds (Some p) amount InvestSpec.MinimumMet);
    cbn [negb]; [|discriminate].
  destruct (InvestSpec.holds (Some p) amount InvestSpec.NotFullyFunded);
    cbn [negb]; [|discriminate].
  destruct (InvestSpec.holds (Some p) amount InvestSpec.WithinHeadroom);
    cbn [negb]; [|discriminate].
  intros _. repeat split.
Qed.

(** What the handler does once the five checks have passed, on a project
    the schema accepts: the investment is validated and stored, the
    project - whose new fundedAmount is at or above zero - is saved, and
    the payment record is rejected. *)
Lemma createInvestment_accepted now userId pid amount pm s p :
  falsy amount = false -> pm <> EmptyString ->
  projects s !! pid = Some p -> Project.schema_valid p ->
  InvestSpec.first_violated (Some p) amount = None ->
  let inv := Effects.invested now userId pid amount pm p in
  let body := mkCreateBody (Some pid) (Some amount) (Some pm) in
  Project.schema_valid (Effects.funded amount p) /\
  match Investment.invalid inv with
  | [] =>
      exists bad,
        createInvestment now userId body s =
        (inl (ValidationError "Payment" ("subscriptionId" :: bad)),
         mkStore (<[pid := Effects.funded amount p]> (projects s))
           (investments s ++ [inv]) (payments s))
  | bad => createInvestment now userId body s = (inl (ValidationError "Investment" bad), s)
  end.
Proof.
  intros Ha Hpm Hp Hvalid Hfv inv body.
  destruct (first_violated_holds p amount Hfv) as (Hst & H3 & H4 & H5).
  destruct (guards_preconditions p amount Ha Hvalid) as (G3 & G4 & G5).
  specialize (G5 H3). rewrite H3 in G3. rewrite H4 in G4. rewrite H5 in G5.
  cbn [negb] in G3, G4, G5.
  assert (Hvalid' : Project.schema_valid (Effects.funded amount p)).
  { destruct (schema_valid_amounts p Hvalid) as (Hmin & _ & Hfunded & _).
    apply funded_valid; [exact Hvalid|].
    apply add_nonnegative; [exact Hfunded|]. exact (leb_nonnegative _ _ Hmin H3). }
  split; [exact Hvalid'|].
  remember (createInvestment now userId body s) as result eqn:Hres.
  unfold createInvestment in Hres. subst body.
  rewrite (required_fields_truthy pid amount pm Ha Hpm) in Hres.
  unfold bind at 1 in Hres. unfold Project_findById in Hres. rewrite Hp in Hres.
  rewrite Hst, G3, G4, G5 in Hres. cbn [Project.Status_eqb negb] in Hres.
  cbv zeta in Hres.
  change (Investment.mk userId pid amount Investment.completed pm now
            (amount + amount * Project.roiPercent p / 100)
            (if (Project.durationMonths p =? 0)%Z then None
             else Some (now, Project.durationMonths p)) None None None None)
    with inv in Hres.
  unfold bind at 1 in Hres. unfold Investment_create in Hres.
  destruct (Investment.invalid inv) as [|bad1 bads1]; [|exact Hres].
  match type of Hres with
  | context [Project_save pid ?q] => change q with (Effects.funded amount p) in Hres
  end.
  unfold bind at 1 in Hres. unfold Project_save in Hres.
  unfold Project.schema_valid in Hvalid'. rewrite Hvalid' in Hres.
  cbn [projects investments payments] in Hres.
  unfold bind at 1 in Hres. unfold Payment_create in Hres.
  match type of Hres with
  | context [Payment.invalid ?pay] =>
      destruct (Payment_without_subscription pay eq_refl) as (rest & Hpay);
      rewrite Hpay in Hres
  end.
  exists rest. exact Hres.
Qed.

(** What the handler does once the four checks of cancel have passed. *)
Lemma cancelInvestment_accepted now userId isAdmin id reason s i :
  investments s !! id = Some i ->
  (Investment.userId i =? userId)%nat || isAdmin = true ->
  Investment.status i <> Investment.refunded ->
  isAdmin || (now - Investment.investmentDate i <=? CancelSpec.window)%Z = true ->
  let i' := Investment.refund (Js.string_or_else reason "User requested refund") now i in
  match Investment.invalid i' with
  | [] =>
      match projects s !! Investment.projectId i with
      | None =>
          cancelInvestment now userId isAdmin id reason s =
          (inr i', mkStore (projects s) (<[id := i']> (investments s)) (payments s))
      | Some p =>
          match Project.invalid (Effects.released i p) with
          | [] =>
              cancelInvestment now userId isAdmin id reason s =
              (inr i',
               mkStore (<[Investment.projectId i := Effects.released i p]> (projects s))
                 (<[id := i']> (investments s)) (payments s))
          | bad =>
              cancelInvestment now userId isAdmin id reason s =
              (inl (ValidationError "Project" bad),
               mkStore (projects s) (<[id := i']> (investments s)) (payments s))
          end
      end
  | bad =>
      cancelInvestment now userId isAdmin id reason s
      = (inl (ValidationError "Investment" bad), s)
  end.
Proof.
  intros Hi Hown Hnot Hwin i'.
  remember (cancelInvestment now userId isAdmin id reason s) as result eqn:Hres.
  unfold cancelInvestment in Hres.
  unfold bind at 1 in Hres. unfold Investment_findById in Hres. rewrite Hi in Hres.
  assert (E1 : negb (Investment.userId i =? userId)%nat && negb isAdmin = false)
    by (rewrite <- negb_orb, Hown; reflexivity).
  assert (E2 : Investment.Status_eqb (Investment.status i) Investment.refunded = false)
    by (destruct (Investment.status i); try reflexivity; contradiction Hnot; reflexivity).
  assert (E3 : negb isAdmin &&
               Js.Qlt_bool 24%Q (inject_Z (now - Investment.investmentDate i)
                                 / inject_Z (1000 * 60 * 60))%Q = false)
    by (rewrite hours_since_window, <- negb_orb, Hwin; reflexivity).
  rewrite E1, E2 in Hres. cbv zeta in Hres. rewrite E3 in Hres.
  fold i' in Hres.
  unfold bind at 1 in Hres. unfold Investment_save in Hres.
  destruct (Investment.invalid i') as [|bad1 bads1]; [|exact Hres].
  unfold bind at 1 in Hres. unfold Project_findById in Hres.
  cbn [projects investments payments] in Hres.
  change (Investment.projectId i') with (Investment.projectId i) in Hres.
  change (Investment.amount i') with (Investment.amount i) in Hres.
  destruct (projects s !! Investment.projectId i) as [p|]; [|exact Hres].
  match type of Hres with
  | context [Project_save _ ?q] => change q with (Effects.released i p) in Hres
  end.
  unfold bind at 1 in Hres. unfold Project_save in Hres.
  destruct (Project.invalid (Effects.released i p)) as [|bad2 bads2]; exact Hres.
Qed.

(** No invest call reaches the 201 response. *)
Lemma createInvestment_never_returns now userId body s :
  exists err, fst (createInvestment now userId body s) = inl err.
Proof.
  destruct (createInvestment_outcome now userId body s)
    as [(err & ->) | (pid & amount & pm & p & _ & _ & _ & H)];
    [eexists; reflexivity|].
  cbv zeta in H.
  destruct (Project.invalid (Effects.funded amount p)); [destruct H as (bad & ->)|rewrite H];
    eexists; reflexivity.
Qed.

(** Every way a cancel call ends: refused or rejected by the investment's
    validators with the store untouched, or with the refund stored - and
    then the project saved, or rejected by its validators, or absent. *)
Lemma cancelInvestment_outcome now userId isAdmin id reason s :
  (exists err, cancelInvestment now userId isAdmin id reason s = (inl err, s)) \/
  exists i,
    investments s !! id = Some i /\
    Investment.status i <> Investment.refunded /\
    let i' := Investment.refund (Js.string_or_else reason "User requested refund") now i in
    match projects s !! Investment.projectId i with
    | None =>
        cancelInvestment now userId isAdmin id reason s =
        (inr i', mkStore (projects s) (<[id := i']> (investments s)) (payments s))
    | Some p =>
        match Project.invalid (Effects.released i p) with
        | [] =>
            cancelInvestment now userId isAdmin id reason s =
            (inr i', mkStore (<[Investment.projectId i := Effects.released i p]> (projects s))
                       (<[id := i']> (investments s)) (payments s))
        | bad =>
            cancelInvestment now userId isAdmin id reason s =
            (inl (ValidationError "Project" bad),
             mkStore (projects s) (<[id := i']> (investments s)) (payments s))
        end
    end.
Proof.
  remember (cancelInvestment now userId isAdmin id reason s) as result eqn:Hres.
  unfold cancelInvestment in Hres.
  unfold bind at 1 in Hres. unfold Investment_findById in Hres.
  destruct (investments s !! id) as [i|] eqn:Hi; [|left; eexists; exact Hres].
  destruct (negb (Investment.userId i =? userId)%nat && negb isAdmin);
    [left; eexists; exact Hres|].
  destruct (Investment.Status_eqb (Investment.status i) Investment.refunded) eqn:Hst;
    [left; eexists; exact Hres|].
  destruct (negb isAdmin && _); [left; eexists; exact Hres|].
  cbv zeta in Hres.
  set (i' := Investment.refund (Js.string_or_else reason "User requested refund") now i) in *.
  unfold bind at 1 in Hres. unfold Investment_save in Hres.
  destruct (Investment.invalid i') as [|bad1 bads1]; [|left; eexists; exact Hres].
  right. exists i. split; [reflexivity|].
  split; [intros E; rewrite E in Hst; discriminate|].
  cbv zeta. fold i'.
  unfold bind at 1 in Hres. unfold Project_findById in Hres.
  cbn [projects investments payments] in Hres.
  change (Investment.projectId i') with (Investment.projectId i) in Hres.
  change (Investment.amount i') with (Investment.amount i) in Hres.
  destruct (projects s !! Investment.projectId i) as [p|]; [|exact Hres].
  match type of Hres with
  | context [Project_save _ ?q] => change q with (Effects.released i p) in Hres
  end.
  unfold bind at 1 in Hres. unfold Project_save in Hres.
  destruct (Project.invalid (Effects.released i p)) as [|bad2 bads2]; exact Hres.
Qed.

End DoubleHandlers.

(** ** The invest operation in double precision *)

Section DoubleInvest.

Import Double Double.Errors Double.InvestmentController.
Local Open Scope float_scope.

(** A call whose fields are present and whose first violated precondition
    is [c] is refused with the failure of [c], the store untouched. *)
Lemma createInvestment_first_violated now userId pid amount pm s c :
  falsy amount = false -> pm <> EmptyString ->
  (forall p, projects s !! pid = Some p -> Project.schema_valid p) ->
  InvestSpec.first_violated (projects s !! pid) amount = Some c ->
  createInvestment now userId (mkCreateBody (Some pid) (Some amount) (Some pm)) s
  = (inl (InvestSpec.failure (projects s !! pid) c), s).
Proof.
  intros Ha Hpm Hvalid Hfv. unfold createInvestment.
  rewrite (required_fields_truthy pid amount pm Ha Hpm).
  unfold bind at 1. unfold Project_findById.
  unfold InvestSpec.first_violated in Hfv.
  destruct (projects s !! pid) as [p|] eqn:Hp.
  - destruct (guards_preconditions p amount Ha (Hvalid p eq_refl)) as (G3 & G4 & G5).
    rewrite G3, G4.
    cbn [find InvestSpec.listed] in Hfv.
    unfold InvestSpec.failure, InvestSpec.headroom.
    change (InvestSpec.holds (Some p) amount InvestSpec.ProjectExists) with true in Hfv.
    change (InvestSpec.holds (Some p) amount InvestSpec.ProjectActive)
      with (Project.Status_eqb (Project.status p) Project.active) in Hfv.
    cbn [negb] in Hfv.
    destruct (Project.Status_eqb (Project.status p) Project.active);
      cbn [negb] in *; [|injection Hfv as <-; reflexivity].
    destruct (InvestSpec.holds (Some p) amount InvestSpec.MinimumMet);
      cbn [negb] in *; [|injection Hfv as <-; reflexivity].
    destruct (InvestSpec.holds (Some p) amount InvestSpec.NotFullyFunded);
      cbn [negb] in *; [|injection Hfv as <-; reflexivity].
    rewrite (G5 eq_refl).
    destruct (InvestSpec.holds (Some p) amount InvestSpec.WithinHeadroom);
      cbn [negb] in *; [discriminate|injection Hfv as <-; reflexivity].
  - cbn in Hfv. injection Hfv as <-. reflexivity.
Qed.

(** A call whose fields are present and that violates no precondition is
    stopped by a validator only: that of the investment, of the project
    or of the payment record. *)
Lemma createInvestment_none_violated now userId pid amount pm s :
  falsy amount = false -> pm <> EmptyString ->
  (forall p, projects s !! pid = Some p -> Project.schema_valid p) ->
  InvestSpec.first_violated (projects s !! pid) amount = None ->
  exists model bad,
    fst (createInvestment now userId (mkCreateBody (Some pid) (Some amount) (Some pm)) s)
    = inl (ValidationError model bad).
Proof.
  intros Ha Hpm Hvalid Hfv.
  destruct (projects s !! pid) as [p|] eqn:Hp; [|discriminate Hfv].
  destruct (createInvestment_accepted now userId pid amount pm s p Ha Hpm Hp
              (Hvalid p eq_refl) Hfv) as [_ H].
  cbv zeta in H.
  destruct (Investment.invalid _); [destruct H as (bad & ->)|rewrite H];
    eexists _, _; reflexivity.
Qed.

(** C2, for calls whose three required fields are present, on a project
    document the schema accepts: the five preconditions are checked in the
    listed order and the first violated one decides the outcome, with the
    failure the specification attaches to it (NotFound, InvalidState,
    Validation, InvalidState, Validation naming the headroom
    targetAmount - fundedAmount); the store is left as it was. When none
    is violated the outcome is none of these failures. The sum of
    precondition 5 and the headroom are the binary64 numbers the handler
    computes. *)
Theorem createInvestment_precondition_order now userId pid amount pm s :
  falsy amount = false -> pm <> EmptyString ->
  (forall p, projects s !! pid = Some p -> Project.schema_valid p) ->
  let body := mkCreateBody (Some pid) (Some amount) (Some pm) in
  let project := projects s !! pid in
  match InvestSpec.first_violated project amount with
  | Some c =>
      createInvestment now userId body s = (inl (InvestSpec.failure project c), s) /\
      kind (InvestSpec.failure project c) = InvestSpec.failure_kind c
  | None =>
      forall c, fst (createInvestment now userId body s) <> inl (InvestSpec.failure project c)
  end.
Proof.
  intros Ha Hpm Hvalid body project.
  destruct (InvestSpec.first_violated project amount) as [c|] eqn:Hfv.
  - split; [|destruct c; reflexivity].
    apply createInvestment_first_violated; assumption.
  - intros c. subst body project.
    destruct (createInvestment_none_violated now userId pid amount pm s Ha Hpm Hvalid Hfv)
      as (model & bad & ->).
    destruct c; discriminate.
Qed.

Lemma createInvestment_precondition_order_witness :
  let s := Sample.store_of (Sample.project 100 1000 900 3 Project.active) in
  falsy 150 = false /\ "stripe" <> EmptyString /\
  (forall p, projects s !! 0%nat = Some p -> Project.schema_valid p) /\
  createInvestment 0 1%nat (mkCreateBody (Some 0%nat) (Some 150) (Some "stripe")) s =
    (inl (AppErr (mkAppError (MaximumYouCanInvest (1000 - 900)) 400)), s).
Proof.
  intros s.
  assert (Ha : falsy 150 = false) by reflexivity.
  assert (Hpm : "stripe" <> EmptyString) by discriminate.
  assert (Hvalid : forall p, projects s !! 0%nat = Some p -> Project.schema_valid p).
  { intros p Hp. injection Hp as <-. reflexivity. }
  split; [exact Ha|]. split; [exact Hpm|]. split; [exact Hvalid|].
  exact (proj1 (createInvestment_precondition_order 0 1%nat 0%nat 150 "stripe" s
                  Ha Hpm Hvalid)).
Defined.

(** C2 as stated fails on a call with amount 0 for a project that does
    not exist: the first violated precondition of the list is the
    existence of the project, whose failure is NotFound, and the handler
    answers with the Validation error of the required fields. And
    precondition 5 is decided on the rounded sum: with 0.38 funded of a
    target of 1000, an amount of 999.62 exceeds the headroom as a sum of
    rationals, yet the binary64 sum is 1000 and the investment is stored. *)
Lemma createInvestment_zero_amount_unknown_project :
  (let s := mkStore [] [] [] in
   let body := mkCreateBody (Some 0%nat) (Some 0) (Some "stripe") in
   InvestSpec.first_violated (projects s !! 0%nat) 0 = Some InvestSpec.ProjectExists /\
   InvestSpec.failure_kind InvestSpec.ProjectExists = NotFound /\
   exists err,
     createInvestment 0 1%nat body s = (inl err, s) /\
     kind err = Validation /\
     err <> InvestSpec.failure (projects s !! 0%nat) InvestSpec.ProjectExists) /\
  (let p := Sample.project 100 1000 0.38 1 Project.active in
   let body := mkCreateBody (Some 0%nat) (Some 999.62) (Some "stripe") in
   (exists funded amount target,
      Ledger.value 0.38 = Some funded /\ Ledger.value 999.62 = Some amount /\
      Ledger.value 1000 = Some target /\ (target < funded + amount)%Q) /\
   0.38 + 999.62 = 1000 /\
   snd (createInvestment 1000 7%nat body (Sample.store_of p)) =
     mkStore [Sample.project 100 1000 1000 2 Project.completed]
             [Effects.invested 1000 7%nat 0%nat 999.62 "stripe" p] []).
Proof.
  split.
  - cbn zeta. split; [reflexivity|]. split; [reflexivity|].
    eexists. split; [reflexivity|]. split; [reflexivity|discriminate].
  - cbn zeta. split; [|split; reflexivity].
    eexists _, _, _. split; [reflexivity|]. split; [reflexivity|]. split; [reflexivity|].
    reflexivity.
Qed.

(** Two parts of C3 that differ by design. The payment method is
    validated against the enum of the Investment schema: the call of the
    theorem below with "cash" writes nothing. And the new fundedAmount and
    its comparison with the target are binary64: 998.88 on top of 1.12 is
    stored as 1000 and completes the funding. *)
Lemma createInvestment_by_design :
  (let s := Sample.store_of (Sample.project 100 1000 900 3 Project.active) in
   createInvestment 1000 7%nat (mkCreateBody (Some 0%nat) (Some 100) (Some "cash")) s
   = (inl (ValidationError "Investment" ["paymentMethod"]), s)) /\
  (let s := Sample.store_of (Sample.project 100 1000 1.12 1 Project.active) in
   projects (snd (createInvestment 1000 7%nat
                    (mkCreateBody (Some 0%nat) (Some 998.88) (Some "stripe")) s))
   = [Sample.project 100 1000 1000 2 Project.completed]).
Proof. split; reflexivity. Qed.

(** C3 at a call that meets every precondition - 100 by "stripe" into a
    project with 900 of 1000 funded and a minimum of 100: the investment
    is stored and the project saved with fundedAmount 1000, one investor
    more and status completed, and then [Payment.create] rejects the
    payment record (no subscriptionId, and a status "completed" its enum
    does not list), so the call is answered 400 "Validation error", not
    201: the operation does not succeed. No invest call does. *)
Theorem createInvestment_payment_rejected :
  let p := Sample.project 100 1000 900 3 Project.active in
  let s := Sample.store_of p in
  let body := mkCreateBody (Some 0%nat) (Some 100) (Some "stripe") in
  InvestSpec.first_violated (projects s !! 0%nat) 100 = None /\
  createInvestment 1000 7%nat body s =
    (inl (ValidationError "Payment" ["subscriptionId"; "status"]),
     mkStore [Sample.project 100 1000 1000 4 Project.completed]
             [Sample.investment 100 Investment.completed] []) /\
  fst (createInvestment_response 1000 7%nat body s) =
    Failure (mkErrorResponse 400 (Lit "Validation error")) /\
  (forall now userId body s,
     exists r, fst (createInvestment_response now userId body s) = Failure r).
Proof.
  cbn zeta. split; [reflexivity|]. split; [reflexivity|]. split; [reflexivity|].
  intros now userId body s. unfold createInvestment_response, respond.
  destruct (createInvestment_never_returns now userId body s) as [err Herr].
  destruct (createInvestment now userId body s) as [[e|a] s']; cbn in *.
  - eexists. reflexivity.
  - discriminate.
Qed.

(** Whenever the difference of line 803 is negative, a cancel call that
    passes the four checks and the investment's validators stores the
    refund and is then rejected by the project's validators: the project
    is left as it was. *)
Lemma cancelInvestment_negative_funding now userId isAdmin id reason s i p :
  investments s !! id = Some i ->
  (Investment.userId i =? userId)%nat || isAdmin = true ->
  Investment.status i <> Investment.refunded ->
  isAdmin || (now - Investment.investmentDate i <=? CancelSpec.window)%Z = true ->
  let i' := Investment.refund (Js.string_or_else reason "User requested refund") now i in
  Investment.invalid i' = [] ->
  projects s !! Investment.projectId i = Some p ->
  nonnegative (Project.fundedAmount p - Investment.amount i) = false ->
  exists bad,
    cancelInvestment now userId isAdmin id reason s
    = (inl (ValidationError "Project" bad),
       mkStore (projects s) (<[id := i']> (investments s)) (payments s)).
Proof.
  intros Hi Hown Hnot Hwin i' Hvalid Hp Hnegative.
  pose proof (cancelInvestment_accepted now userId isAdmin id reason s i Hi Hown Hnot Hwin)
    as H.
  cbv zeta in H. fold i' in H. rewrite Hvalid, Hp in H.
  destruct (Project.invalid (Effects.released i p)) as [|bad bads] eqn:Hbad.
  - exfalso. apply failing_nil in Hbad.
    cbn [forallb Project.validators snd] in Hbad.
    rewrite !andb_true_iff in Hbad.
    destruct Hbad as (_ & _ & _ & _ & _ & _ & Hfunded & _).
    rewrite released_fundedAmount, leb_zero_nonnegative, Hnegative in Hfunded.
    discriminate Hfunded.
  - eexists. exact H.
Qed.

Lemma cancelInvestment_negative_funding_example :
  let s := mkStore [Sample.project 100 1000 50 1 Project.active]
             [Sample.investment 100 Investment.completed] [] in
  cancelInvestment 2000 7%nat false 0%nat None s
  = (inl (ValidationError "Project" ["fundedAmount"]),
     mkStore (projects s) [Sample.refunded 100] []).
Proof. reflexivity. Qed.

(** C6 at the cancellation of the second of two investments of 100.3 and
    200.6 in a fresh project, after that of the first: the project's
    fundedAmount is 200.59999999999997, line 803 takes 200.6 from it with
    no floor (unlike the investor count of line 804), the negative result
    fails the schema's [min: 0] in [project.save()], and the call is
    answered 400 with the refund already stored: the project keeps its
    fundedAmount and one investor where a floor would leave 0 and 0. *)
Theorem cancelInvestment_no_floor :
  let s0 := Sample.store_of Sample.fresh_project in
  let s := Ledger.perform_all Sample.cents_history s0 in
  projects s = [Sample.project 0.1 1000 200.59999999999997 1 Project.active] /\
  map Investment.status (investments s) = [Investment.refunded; Investment.completed] /\
  investments s !! 1%nat = Some (Sample.investment 200.6 Investment.completed) /\
  (200.59999999999997 - 200.6 <? 0) = true /\
  cancelInvestment 2000 7%nat false 1%nat None s =
    (inl (ValidationError "Project" ["fundedAmount"]),
     mkStore (projects s) [Sample.refunded 100.3; Sample.refunded 200.6] []) /\
  fst (cancelInvestment_response 2000 7%nat false 1%nat None s) =
    Failure (mkErrorResponse 400 (Lit "Validation error")).
Proof.
  cbn zeta. repeat split; reflexivity.
Qed.

End DoubleInvest.

(** ** The ledger in double precision *)

Section DoubleLedger.

Import Double Double.Errors Double.InvestmentController Double.Ledger.
Local Open Scope Q_scope.

Lemma total_app projectId (l1 l2 : list Investment.t) :
  completed_total projectId (l1 ++ l2)%list
  == completed_total projectId l1 + completed_total projectId l2.
Proof.
  induction l1 as [|i l1 IH]; cbn [completed_total app].
  - ring.
  - rewrite IH. ring.
Qed.

Lemma total_insert projectId (l : list Investment.t) id old new :
  l !! id = Some old ->
  completed_total projectId (<[id := new]> l)
  == completed_total projectId l - counted projectId old + counted projectId new.
Proof.
  revert id. induction l as [|i l IH]; intros [|id] H; try discriminate.
  - cbn in H. injection H as ->. cbn [completed_total list_insert]. cbn. ring.
  - cbn in H. cbn. rewrite (IH id H). ring.
Qed.

Lemma counted_amount projectId (i : Investment.t) :
  stored i -> 0 <= counted projectId i.
Proof.
  intros [(q & Hq & Hq0) _]. unfold counted.
  destruct (_ && _); [|apply Qle_refl]. rewrite Hq. exact Hq0.
Qed.

Lemma total_nonneg projectId (l : list Investment.t) :
  Forall stored l -> 0 <= completed_total projectId l.
Proof.
  induction 1 as [|i l Hi _ IH]; cbn [completed_total].
  - apply Qle_refl.
  - rewrite <- (Qplus_0_r 0). apply Qplus_le_compat; [|assumption].
    apply counted_amount. assumption.
Qed.

Lemma counted_within_total projectId (l : list Investment.t) id i :
  Forall stored l -> l !! id = Some i ->
  counted projectId i <= completed_total projectId l.
Proof.
  intros Hall. revert id. induction Hall as [|j l Hj Hall IH]; intros [|id] H;
    try discriminate; cbn in H; cbn [completed_total].
  - injection H as ->. rewrite <- (Qplus_0_r (counted projectId i)) at 1.
    apply Qplus_le_compat; [apply Qle_refl|].
    apply total_nonneg. assumption.
  - rewrite <- (Qplus_0_l (counted projectId i)).
    apply Qplus_le_compat; [apply counted_amount; assumption|].
    apply (IH id H).
Qed.

Lemma total_invested projectId (l : list Investment.t) now userId pid amount pm p y :
  value amount = Some y ->
  completed_total projectId (l ++ [Effects.invested now userId pid amount pm p])%list
  == completed_total projectId l + (if (pid =? projectId)%nat then y else 0).
Proof.
  intros Hy. rewrite total_app. cbn [completed_total]. unfold counted.
  cbn [Effects.invested Investment.status Investment.projectId Investment.amount
         Investment.Status_eqb andb].
  rewrite Hy. destruct (pid =? projectId)%nat; ring.
Qed.

Lemma total_refunded projectId (l : list Investment.t) id i reason now y :
  l !! id = Some i -> Investment.status i = Investment.completed ->
  value (Investment.amount i) = Some y ->
  completed_total projectId (<[id := Investment.refund reason now i]> l)
  == completed_total projectId l - (if (Investment.projectId i =? projectId)%nat then y else 0).
Proof.
  intros Hi Hst Hy. rewrite (total_insert projectId l id i _ Hi).
  unfold counted. cbn [Investment.refund Investment.status Investment.Status_eqb andb].
  rewrite Hst, Hy. cbn [Investment.Status_eqb andb].
  destruct (Investment.projectId i =? projectId)%nat; ring.
Qed.

Lemma Investment_valid_amount (i : Investment.t) :
  Investment.invalid i = [] -> nonnegative (Investment.amount i) = true.
Proof.
  unfold Investment.invalid. rewrite failing_nil.
  cbn [forallb Investment.validators snd]. rewrite !andb_true_iff, !leb_zero_nonnegative.
  tauto.
Qed.

Lemma fresh_consistent (s : Store) : fresh s -> consistent s.
Proof.
  intros [Hnone Hall]. split.
  - intros pid p Hp. rewrite Hnone. cbn [completed_total].
    destruct (Hall pid p Hp) as [Hvalid Hzero]. split; [exact Hvalid|].
    exists 0. rewrite Hzero. split; reflexivity.
  - rewrite Hnone. constructor.
Qed.

(** An invest call whose sum is exact keeps the ledger consistent,
    whatever it answers. *)
Lemma createInvestment_exact_consistent now userId body s :
  consistent s -> exact_call s (Invest now userId body) = true ->
  consistent (snd (createInvestment now userId body s)).
Proof.
  intros Hs Hexact.
  destruct (createInvestment_outcome now userId body s)
    as [(err & ->) | (pid & amount & pm & p & Hreq & Hp & Hinv & H)]; [exact Hs|].
  cbv zeta in H.
  destruct Hs as [Hprojects Hinvestments].
  destruct (Hprojects pid p Hp) as (Hvalid & q & Hq & Hqtotal).
  cbn [exact_call] in Hexact. rewrite Hreq, Hp in Hexact.
  destruct (exact_sum_value _ _ Hexact) as (x & y & z & Hx & Hy & Hz & Hsum).
  rewrite Hq in Hx. injection Hx as <-.
  assert (Hamount : 0 <= y).
  { apply (value_nonnegative amount y Hy).
    exact (Investment_valid_amount _ Hinv). }
  assert (Hz0 : 0 <= z).
  { rewrite Hsum, Hqtotal. rewrite <- (Qplus_0_r 0).
    apply Qplus_le_compat; [apply total_nonneg|]; assumption. }
  assert (Hfunded : nonnegative (Project.fundedAmount p + amount)%float = true)
    by (apply (value_nonnegative _ z Hz); exact Hz0).
  pose proof (funded_valid amount p Hvalid Hfunded) as Hvalid'.
  unfold Project.schema_valid in Hvalid'. rewrite Hvalid' in H.
  destruct H as (bad & ->). cbn [snd]. split; cbn [projects investments].
  - intros pid' p0 Hp0.
    destruct (Nat.eq_dec pid pid') as [<-|Hne].
    + rewrite list_lookup_insert_eq in Hp0 by (eapply lookup_lt_Some; eassumption).
      injection Hp0 as <-. split; [exact Hvalid'|].
      exists z. split; [rewrite funded_fundedAmount; exact Hz|].
      rewrite (total_invested pid _ now userId pid amount pm p y Hy).
      rewrite Nat.eqb_refl, Hsum, Hqtotal. ring.
    + rewrite list_lookup_insert_ne in Hp0 by assumption.
      destruct (Hprojects pid' p0 Hp0) as (Hv0 & q0 & Hq0 & Hq0t).
      split; [exact Hv0|]. exists q0. split; [exact Hq0|].
      rewrite (total_invested pid' _ now userId pid amount pm p y Hy).
      destruct (Nat.eqb_spec pid pid'); [contradiction|]. rewrite Hq0t. ring.
  - apply Forall_app. split; [assumption|].
    constructor; [|constructor]. split; [|left; reflexivity].
    exists y. split; [exact Hy|exact Hamount].
Qed.

(** A cancel call whose difference is exact keeps the ledger consistent,
    whatever it answers. *)
Lemma cancelInvestment_exact_consistent now userId isAdmin id reason s :
  consistent s -> exact_call s (Cancel now userId isAdmin id reason) = true ->
  consistent (snd (cancelInvestment now userId isAdmin id reason s)).
Proof.
  intros Hs Hexact.
  destruct (cancelInvestment_outcome now userId isAdmin id reason s)
    as [(err & ->) | (i & Hi & Hnot & H)]; [exact Hs|].
  cbv zeta in H.
  set (i' := Investment.refund (Js.string_or_else reason "User requested refund") now i) in *.
  destruct Hs as [Hprojects Hinvestments].
  pose proof (Forall_lookup_1 _ _ _ _ Hinvestments Hi) as [(y & Hy & Hy0) Hstatus].
  assert (Hcompleted : Investment.status i = Investment.completed).
  { destruct Hstatus as [E|E]; [assumption|contradiction]. }
  assert (Hcounted : forall pid,
             counted pid i = if (Investment.projectId i =? pid)%nat then y else 0).
  { intros pid. unfold counted. rewrite Hcompleted, Hy. reflexivity. }
  assert (Htotal : forall pid,
             completed_total pid (<[id := i']> (investments s))
             == completed_total pid (investments s)
                - (if (Investment.projectId i =? pid)%nat then y else 0)).
  { intros pid. apply total_refunded; assumption. }
  assert (Hall' : Forall stored (<[id := i']> (investments s))).
  { apply Forall_insert; [assumption|]. split; [|right; reflexivity].
    exists y. split; [exact Hy|exact Hy0]. }
  cbn [exact_call] in Hexact. rewrite Hi in Hexact.
  destruct (projects s !! Investment.projectId i) as [p|] eqn:Hp.
  - destruct (Hprojects _ p Hp) as (Hvalid & q & Hq & Hqt).
    destruct (exact_difference_value _ _ Hexact) as (x & y' & z & Hx & Hy' & Hz & Hdiff).
    rewrite Hq in Hx. injection Hx as <-. rewrite Hy in Hy'. injection Hy' as <-.
    assert (Hz0 : 0 <= z).
    { rewrite Hdiff, Hqt.
      pose proof (counted_within_total (Investment.projectId i) _ _ _ Hinvestments Hi)
        as Hle.
      rewrite Hcounted, Nat.eqb_refl in Hle.
      unfold Qminus. rewrite <- (Qplus_opp_r y).
      apply Qplus_le_compat; [assumption|apply Qle_refl]. }
    assert (Hfunded :
              nonnegative (Project.fundedAmount p - Investment.amount i)%float = true)
      by (apply (value_nonnegative _ z Hz); exact Hz0).
    pose proof (released_valid i p Hvalid Hfunded) as Hvalid'.
    unfold Project.schema_valid in Hvalid'. rewrite Hvalid' in H.
    rewrite H. cbn [snd]. split; cbn [projects investments]; [|assumption].
    intros pid p0 Hp0.
    destruct (Nat.eq_dec (Investment.projectId i) pid) as [<-|Hne].
    + rewrite list_lookup_insert_eq in Hp0 by (eapply lookup_lt_Some; eassumption).
      injection Hp0 as <-. split; [exact Hvalid'|].
      exists z. split; [rewrite released_fundedAmount; exact Hz|].
      rewrite Htotal, Nat.eqb_refl, Hdiff, Hqt. ring.
    + rewrite list_lookup_insert_ne in Hp0 by assumption.
      destruct (Hprojects pid p0 Hp0) as (Hv0 & q0 & Hq0 & Hq0t).
      split; [exact Hv0|]. exists q0. split; [exact Hq0|].
      rewrite Htotal.
      destruct (Nat.eqb_spec (Investment.projectId i) pid); [contradiction|].
      rewrite Hq0t. ring.
  - rewrite H. cbn [snd]. split; cbn [projects investments]; [|assumption].
    intros pid p0 Hp0.
    destruct (Hprojects pid p0 Hp0) as (Hv0 & q0 & Hq0 & Hq0t).
    split; [exact Hv0|]. exists q0. split; [exact Hq0|].
    rewrite Htotal.
    destruct (Nat.eqb_spec (Investment.projectId i) pid) as [E|_].
    + rewrite E in Hp. congruence.
    + rewrite Hq0t. ring.
Qed.

Lemma perform_all_exact_consistent (calls : list Call) (s : Store) :
  consistent s -> exact calls s = true -> consistent (perform_all calls s).
Proof.
  unfold perform_all. revert s.
  induction calls as [|c calls IH]; intros s Hs Hexact; cbn [fold_left]; [assumption|].
  cbn [exact] in Hexact. apply andb_true_iff in Hexact as [Hc Hrest].
  apply IH; [|exact Hrest]. destruct c; cbn [perform].
  - apply createInvestment_exact_consistent; assumption.
  - apply cancelInvestment_exact_consistent; assumption.
Qed.

(** C1, for amounts whose sums and differences binary64 represents
    exactly: starting from fresh projects (documents the schema accepts,
    with fundedAmount 0, and no investments), after any sequence of invest
    and cancel calls - those that write, and those that are refused, which
    change nothing - every project's fundedAmount equals the sum of the
    amounts of its investments whose status is completed. *)
Theorem ledger_consistency (calls : list Call) (s : Store) :
  fresh s -> exact calls s = true ->
  forall projectId p,
    projects (perform_all calls s) !! projectId = Some p ->
    exists funded,
      value (Project.fundedAmount p) = Some funded /\
      funded == completed_total projectId (investments (perform_all calls s)).
Proof.
  intros Hfresh Hexact pid p Hp.
  destruct (perform_all_exact_consistent calls s (fresh_consistent s Hfresh) Hexact)
    as [H _].
  exact (proj2 (H pid p Hp)).
Qed.

Lemma ledger_consistency_witness :
  let s := Sample.store_of Sample.fresh_project in
  let s' := perform_all Sample.whole_history s in
  fresh s /\ exact Sample.whole_history s = true /\
  projects s' = [Sample.project 0.1 1000 250 1 Project.active] /\
  map Investment.status (investments s') = [Investment.refunded; Investment.completed] /\
  exists funded,
    value 250 = Some funded /\ funded == completed_total 0%nat (investments s').
Proof.
  intros s s'.
  assert (Hfresh : fresh s).
  { split; [reflexivity|]. intros [|id] p Hp; [|discriminate].
    injection Hp as <-. split; reflexivity. }
  assert (Hexact : exact Sample.whole_history s = true) by reflexivity.
  split; [exact Hfresh|]. split; [exact Hexact|].
  split; [reflexivity|]. split; [reflexivity|].
  exact (ledger_consistency Sample.whole_history s Hfresh Hexact 0%nat
           (Sample.project 0.1 1000 250 1 Project.active) eq_refl).
Defined.

(** C1 as stated fails on amounts binary64 rounds: after investments of
    0.1 and 0.2 in a fresh project and the cancellation of the first, the
    project's fundedAmount is 0.1 + 0.2 - 0.1 = 0.20000000000000004, and
    the one completed investment has amount 0.2. *)
Lemma ledger_rounds_fundedAmount :
  let s := Sample.store_of Sample.fresh_project in
  let s' := perform_all Sample.tenths_history s in
  fresh s /\
  projects s' = [Sample.project 0.1 1000 0.20000000000000004 1 Project.active] /\
  investments s' = [Sample.refunded 0.1; Sample.investment 0.2 Investment.completed] /\
  (0.20000000000000004 =? 0.2)%float = false /\
  exists funded,
    value 0.20000000000000004 = Some funded /\
    ~ funded == completed_total 0%nat (investments s').
Proof.
  intros s s'.
  split.
  { split; [reflexivity|]. intros [|id] p Hp; [|discriminate].
    injection Hp as <-. split; reflexivity. }
  split; [reflexivity|]. split; [reflexivity|]. split; [reflexivity|].
  eexists. split; [reflexivity|]. intros H. vm_compute in H. discriminate H.
Qed.

End DoubleLedger.

(** * Further properties *)

(** ** The plan tiers and the funding progress *)

Section PlanTiers.

Import PlanFeatures.

(** X1: the four plans are tiers. For every capability there is a position
    in the order free, basic, plus, premium — that of the plan
    getMinimumPlanForFeature returns — from which on every plan grants the
    capability and before which none does. *)
Theorem getMinimumPlanForFeature_least (x : Feature) :
  exists n,
    ["free"; "basic"; "plus"; "premium"] !! n = Some (getMinimumPlanForFeature x) /\
    forall m planKey,
      ["free"; "basic"; "plus"; "premium"] !! m = Some planKey ->
      hasFeatureAccess planKey x = inr (n <=? m)%nat.
Proof.
  destruct x;
    [exists 0%nat | exists 1%nat | exists 2%nat | exists 2%nat | exists 3%nat | exists 2%nat];
    (split; [reflexivity|]);
    intros [|[|[|[|m]]]] planKey H; cbn in H; try discriminate H;
    injection H as <-; reflexivity.
Qed.

End PlanTiers.

Section Progress.

Open Scope Q_scope.




End Progress.

(** ** What the two ledger operations write *)

Section Writes.

Import InvestmentController Ledger.
Open Scope Q_scope.

(** The invest operation past its checks, with the terms of the project it
    saves. *)
Lemma createInvestment_commit_terms now userId pid amount pm s p :
  ~ amount == 0 -> pm <> EmptyString ->
  projects s !! pid = Some p ->
  InvestSpec.first_violated (Some p) amount = None ->
  let inv := Investment.mk userId pid amount Investment.completed pm now
               (amount + amount * Project.roiPercent p / 100)
               (if (Project.durationMonths p =? 0)%Z then None
                else Some (now, Project.durationMonths p))
               None None in
  let result := createInvestment now userId (mkCreateBody (Some pid) (Some amount) (Some pm)) s in
  exists p',
    Reading.same_terms p p' /\
    Project.fundedAmount p' = Project.fundedAmount p + amount /\
    Project.totalInvestors p' = (Project.totalInvestors p + 1)%Z /\
    Project.status p' =
      (if Qle_bool (Project.targetAmount p) (Project.fundedAmount p + amount)
       then Project.completed else Project.active) /\
    ((Investment.invalid ["amount"; "paymentMethod"; "expectedReturn"] inv <> [] /\
      exists bad, result = (inl (ValidationError "Investment" bad), s)) \/
     (Investment.invalid ["amount"; "paymentMethod"; "expectedReturn"] inv = [] /\
      Project.invalid ["fundedAmount"; "totalInvestors"; "status"] p' <> [] /\
      exists bad, result = (inl (ValidationError "Project" bad),
                            mkStore (projects s) (investments s ++ [inv]) (payments s))) \/
     (Investment.invalid ["amount"; "paymentMethod"; "expectedReturn"] inv = [] /\
      Project.invalid ["fundedAmount"; "totalInvestors"; "status"] p' = [] /\
      exists bad, result = (inl (ValidationError "Payment" bad),
                            mkStore (<[pid := p']> (projects s)) (investments s ++ [inv])
                              (payments s)))).
Proof.
  intros Ha Hpm Hp Hfv inv result.
  apply first_violated_none in Hfv as (Hst & Hmin & Hfull & Hroom).
  assert (Hres : result
                 = createInvestment now userId (mkCreateBody (Some pid) (Some amount) (Some pm)) s)
    by reflexivity.
  clearbody result.
  unfold createInvestment in Hres.
  rewrite (required_fields_present pid amount pm Ha Hpm) in Hres.
  unfold bind at 1 in Hres. unfold Project_findById in Hres. rewrite Hp in Hres.
  rewrite Hst in Hres. cbn [Project.Status_eqb negb] in Hres.
  apply Qle_bool_iff in Hmin. unfold Js.Qlt_bool at 1 in Hres.
  rewrite Hmin in Hres. cbn [negb] in Hres.
  apply Qlt_bool_iff in Hfull. unfold Js.Qlt_bool in Hfull.
  apply negb_true_iff in Hfull. rewrite Hfull in Hres.
  apply Qle_bool_iff in Hroom. unfold Js.Qlt_bool at 1 in Hres.
  rewrite Hroom in Hres. cbn [negb] in Hres.
  fold inv in Hres.
  set (p1 := Project.set_totalInvestors
               (Js.or_else (Project.totalInvestors
                              (Project.set_fundedAmount (Project.fundedAmount p + amount) p)) 0
                + 1)
               (Project.set_fundedAmount (Project.fundedAmount p + amount) p)) in *.
  cbn [Project.targetAmount Project.fundedAmount p1 Project.set_totalInvestors
         Project.set_fundedAmount] in Hres.
  set (p' := if Qle_bool (Project.targetAmount p) (Project.fundedAmount p + amount)
             then Project.set_status Project.completed p1 else p1) in *.
  exists p'.
  assert (Hfields :
    Reading.same_terms p p' /\
    Project.fundedAmount p' = Project.fundedAmount p + amount /\
    Project.totalInvestors p' = (Project.totalInvestors p + 1)%Z /\
    Project.status p' =
      (if Qle_bool (Project.targetAmount p) (Project.fundedAmount p + amount)
       then Project.completed else Project.active)).
  { subst p' p1. unfold Reading.same_terms.
    destruct (Qle_bool (Project.targetAmount p) (Project.fundedAmount p + amount));
      cbn; rewrite or_else_zero; auto 20. }
  destruct Hfields as (H0 & H1 & H2 & H4).
  repeat (split; [assumption|]).
  unfold bind, Investment_create in Hres.
  destruct (Investment.invalid _ inv) as [|bad1 bads1] eqn:Einv.
  - right. unfold Project_save in Hres.
    destruct (Project.invalid _ p') as [|bad2 bads2] eqn:Eproj.
    + right. repeat (split; [reflexivity|]).
      unfold Payment_create in Hres. cbn -[Qle_bool p' inv] in Hres.
      eexists. exact Hres.
    + left. split; [reflexivity|]. split; [discriminate|].
      eexists. exact Hres.
  - left. split; [discriminate|]. eexists. exact Hres.
Qed.

(** The cancel operation past its checks, with the terms of the project it
    saves. *)
Lemma cancelInvestment_commit_terms now userId isAdmin id reason s i :
  investments s !! id = Some i ->
  CancelSpec.first_violated (Some i) now userId isAdmin = None ->
  let i' := Investment.refund (Js.string_or_else reason "User requested refund") now i in
  let result := cancelInvestment now userId isAdmin id reason s in
  (Investment.invalid ["status"; "refundReason"; "refundDate"] i' <> [] /\
   exists bad, result = (inl (ValidationError "Investment" bad), s)) \/
  (Investment.invalid ["status"; "refundReason"; "refundDate"] i' = [] /\
   match projects s !! Investment.projectId i with
   | None => result = (inr i', mkStore (projects s) (<[id := i']> (investments s)) (payments s))
   | Some p =>
       exists p',
         Reading.same_terms p p' /\
         Project.fundedAmount p' = Project.fundedAmount p - Investment.amount i /\
         Project.totalInvestors p' = Z.max (Project.totalInvestors p - 1) 0 /\
         Project.status p' =
           (if Project.Status_eqb (Project.status p) Project.completed
            then Project.active else Project.status p) /\
         ((Project.invalid ["fundedAmount"; "totalInvestors"; "status"] p' <> [] /\
           exists bad, result = (inl (ValidationError "Project" bad),
                                 mkStore (projects s) (<[id := i']> (investments s))
                                   (payments s))) \/
          (Project.invalid ["fundedAmount"; "totalInvestors"; "status"] p' = [] /\
           result = (inr i',
                     mkStore (<[Investment.projectId i := p']> (projects s))
                       (<[id := i']> (investments s)) (payments s))))
   end).
Proof.
  intros Hi Hfv i' result.
  apply cancel_first_violated_none in Hfv as (Hown & Hst & Hwin).
  assert (Hres : result = cancelInvestment now userId isAdmin id reason s) by reflexivity.
  clearbody result. unfold cancelInvestment in Hres.
  unfold bind at 1 in Hres. unfold Investment_findById in Hres. rewrite Hi in Hres.
  assert (E1 : negb (Investment.userId i =? userId)%nat && negb isAdmin = false).
  { rewrite <- negb_orb, Hown. reflexivity. }
  rewrite E1, Hst in Hres.
  assert (E2 : negb isAdmin &&
               Js.Qlt_bool 24 (inject_Z (now - Investment.investmentDate i)
                               / inject_Z (1000 * 60 * 60)) = false).
  { rewrite hours_since_window, <- negb_orb, Hwin. reflexivity. }
  cbv zeta in Hres. rewrite E2 in Hres.
  fold i' in Hres. unfold bind, Investment_save in Hres.
  destruct (Investment.invalid _ i') as [|bad1 bads1] eqn:Einv.
  - right. split; [reflexivity|].
    unfold Project_findById in Hres. cbn [projects investments payments] in Hres.
    replace (Investment.projectId i') with (Investment.projectId i) in Hres by reflexivity.
    destruct (projects s !! Investment.projectId i) as [p|]; [|exact Hres].
    set (p1 := Project.set_totalInvestors _ _) in Hres.
    cbn [Project.status p1 Project.set_totalInvestors Project.set_fundedAmount] in Hres.
    set (p' := if Project.Status_eqb (Project.status p) Project.completed
               then Project.set_status Project.active p1 else p1) in Hres.
    exists p'.
    assert (Hfields :
      Reading.same_terms p p' /\
      Project.fundedAmount p' = Project.fundedAmount p - Investment.amount i /\
      Project.totalInvestors p' = Z.max (Project.totalInvestors p - 1) 0 /\
      Project.status p' =
        (if Project.Status_eqb (Project.status p) Project.completed
         then Project.active else Project.status p)).
    { subst p' p1. unfold Reading.same_terms.
      destruct (Project.Status_eqb (Project.status p) Project.completed);
        cbn; rewrite or_else_one_floor; auto 20. }
    destruct Hfields as (H0 & H1 & H2 & H3). repeat (split; [assumption|]).
    unfold Project_save in Hres.
    destruct (Project.invalid _ p') as [|bad2 bads2] eqn:Eproj.
    + right. split; [reflexivity|exact Hres].
    + left. split; [discriminate|]. eexists. exact Hres.
  - left. split; [discriminate|]. eexists. exact Hres.
Qed.

End Writes.

(** ** The answer of the invest operation, and what the ledger preserves *)

Section Answers.

Import InvestmentController Ledger.
Open Scope Q_scope.

(** X3: POST /api/investments is always answered with status 400 or 404,
    never with 201; and whenever the call has written to the store — the
    investment is recorded and the project funded — the answer is the 400
    "Validation error" that the payment record (or a schema validator)
    raised after the write. *)
Theorem createInvestment_answer now userId body s :
  exists r,
    fst (createInvestment_response now userId body s) = Failure r /\
    (status r = 400%Z \/ status r = 404%Z) /\
    (snd (createInvestment_response now userId body s) <> s ->
     r = mkErrorResponse 400 (Lit "Validation error")).
Proof.
  unfold createInvestment_response, respond.
  destruct (required_fields body) as [[[pid amount] pm]|] eqn:Hreq.
  - apply required_fields_some in Hreq as (-> & Ha & Hpm).
    destruct (InvestSpec.first_violated (projects s !! pid) amount) as [c|] eqn:Hfv.
    + rewrite (createInvestment_refused now userId pid amount pm s c Ha Hpm Hfv).
      cbn [fst snd]. eexists. split; [reflexivity|]. split.
      * destruct c; [right|left|left|left|left]; reflexivity.
      * intros H. contradiction H. reflexivity.
    + destruct (projects s !! pid) as [p|] eqn:Hp; [|discriminate Hfv].
      destruct (createInvestment_commit_terms now userId pid amount pm s p Ha Hpm Hp Hfv)
        as (p' & _ & _ & _ & _ & Hcases).
      destruct Hcases as [(_ & bad & ->) | [(_ & _ & bad & ->) | (_ & _ & bad & ->)]];
        cbn [fst snd]; eexists; (split; [reflexivity|]); split;
        try (left; reflexivity); intros _; reflexivity.
  - unfold createInvestment. rewrite Hreq. cbn [fst snd].
    eexists. split; [reflexivity|]. split; [left; reflexivity|].
    intros H. contradiction H. reflexivity.
Qed.

Lemma same_terms_refl (p : Project.t) : Reading.same_terms p p.
Proof. unfold Reading.same_terms. auto 20. Qed.

Lemma same_terms_trans (p q r : Project.t) :
  Reading.same_terms p q -> Reading.same_terms q r -> Reading.same_terms p r.
Proof. unfold Reading.same_terms. intuition congruence. Qed.

Lemma same_stake_refl (i : Investment.t) : Reading.same_stake i i.
Proof. unfold Reading.same_stake. auto 20. Qed.

Lemma same_stake_trans (i j k : Investment.t) :
  Reading.same_stake i j -> Reading.same_stake j k -> Reading.same_stake i k.
Proof. unfold Reading.same_stake. intuition congruence. Qed.

Lemma preserved_refl (s : Store) : Reading.preserved s s.
Proof.
  repeat split.
  - intros pid p H. exists p. split; [assumption|apply same_terms_refl].
  - intros id i H. exists i. split; [assumption|apply same_stake_refl].
Qed.

Lemma preserved_trans (s1 s2 s3 : Store) :
  Reading.preserved s1 s2 -> Reading.preserved s2 s3 -> Reading.preserved s1 s3.
Proof.
  intros (Hpay1 & Hlen1 & Hp1 & Hi1) (Hpay2 & Hlen2 & Hp2 & Hi2).
  split; [congruence|]. split; [congruence|]. split.
  - intros pid p H. destruct (Hp1 pid p H) as (q & Hq & Hpq).
    destruct (Hp2 pid q Hq) as (r & Hr & Hqr).
    exists r. split; [assumption|]. eapply same_terms_trans; eassumption.
  - intros id i H. destruct (Hi1 id i H) as (j & Hj & Hij).
    destruct (Hi2 id j Hj) as (k & Hk & Hjk).
    exists k. split; [assumption|]. eapply same_stake_trans; eassumption.
Qed.

Lemma preserved_writes (s : Store) (ps : list Project.t) (invs : list Investment.t) :
  (ps = projects s \/
   exists pid p p', projects s !! pid = Some p /\ Reading.same_terms p p' /\
                    ps = <[pid := p']> (projects s)) ->
  (invs = investments s \/
   (exists inv, invs = (investments s ++ [inv])%list) \/
   exists id i i', investments s !! id = Some i /\ Reading.same_stake i i' /\
                   invs = <[id := i']> (investments s)) ->
  Reading.preserved s (mkStore ps invs (payments s)).
Proof.
  intros Hps His. split; [reflexivity|]. cbn [projects investments]. split; [|split].
  - destruct Hps as [-> | (pid & p & p' & _ & _ & ->)]; [reflexivity|].
    apply length_insert.
  - intros k q Hq. destruct Hps as [-> | (pid & p & p' & Hp & Hterms & ->)].
    + exists q. split; [assumption|apply same_terms_refl].
    + destruct (Nat.eq_dec pid k) as [<-|Hne].
      * exists p'. rewrite list_lookup_insert_eq by (eapply lookup_lt_Some; eassumption).
        split; [reflexivity|]. congruence.
      * exists q. rewrite list_lookup_insert_ne by assumption.
        split; [assumption|apply same_terms_refl].
  - intros k j Hj. destruct His as [-> | [(inv & ->) | (id & i & i' & Hi & Hstake & ->)]].
    + exists j. split; [assumption|apply same_stake_refl].
    + exists j. split; [apply lookup_app_l_Some; assumption|apply same_stake_refl].
    + destruct (Nat.eq_dec id k) as [<-|Hne].
      * exists i'. rewrite list_lookup_insert_eq by (eapply lookup_lt_Some; eassumption).
        split; [reflexivity|]. congruence.
      * exists j. rewrite list_lookup_insert_ne by assumption.
        split; [assumption|apply same_stake_refl].
Qed.

Lemma createInvestment_preserved now userId body s :
  Reading.preserved s (snd (createInvestment now userId body s)).
Proof.
  destruct (required_fields body) as [[[pid amount] pm]|] eqn:Hreq.
  2:{ unfold createInvestment. rewrite Hreq. apply preserved_refl. }
  apply required_fields_some in Hreq as (-> & Ha & Hpm).
  destruct (InvestSpec.first_violated (projects s !! pid) amount) as [c|] eqn:Hfv.
  { rewrite (createInvestment_refused now userId pid amount pm s c Ha Hpm Hfv).
    apply preserved_refl. }
  destruct (projects s !! pid) as [p|] eqn:Hp; [|discriminate Hfv].
  destruct (createInvestment_commit_terms now userId pid amount pm s p Ha Hpm Hp Hfv)
    as (p' & Hterms & _ & _ & _ & Hcases).
  destruct Hcases as [(_ & bad & ->) | [(_ & _ & bad & ->) | (_ & _ & bad & ->)]];
    cbn [snd].
  - apply preserved_refl.
  - apply preserved_writes; [left; reflexivity|right; left; eexists; reflexivity].
  - apply preserved_writes; [right|right; left; eexists; reflexivity].
    exists pid, p, p'. auto.
Qed.

Lemma cancelInvestment_preserved now userId isAdmin id reason s :
  Reading.preserved s (snd (cancelInvestment now userId isAdmin id reason s)).
Proof.
  destruct (CancelSpec.first_violated (investments s !! id) now userId isAdmin)
    as [c|] eqn:Hfv.
  { rewrite (cancelInvestment_refused now userId isAdmin id reason s c Hfv).
    apply preserved_refl. }
  destruct (investments s !! id) as [i|] eqn:Hi; [|discriminate Hfv].
  pose proof (cancelInvestment_commit_terms now userId isAdmin id reason s i Hi Hfv) as H.
  cbv zeta in H.
  set (i' := Investment.refund (Js.string_or_else reason "User requested refund") now i) in *.
  assert (Hstake : Reading.same_stake i i')
    by (unfold Reading.same_stake; cbn; auto 20).
  destruct H as [(_ & bad & ->) | (_ & H)]; [apply preserved_refl|].
  destruct (projects s !! Investment.projectId i) as [p|] eqn:Hp.
  - destruct H as (p' & Hterms & _ & _ & _ & [(_ & bad & ->) | (_ & ->)]); cbn [snd].
    + apply preserved_writes; [left; reflexivity|].
      right; right. exists id, i, i'. auto.
    + apply preserved_writes.
      * right. exists (Investment.projectId i), p, p'. auto.
      * right; right. exists id, i, i'. auto.
  - rewrite H. cbn [snd]. apply preserved_writes; [left; reflexivity|].
    right; right. exists id, i, i'. auto.
Qed.

Lemma perform_all_preserved (calls : list Call) (s : Store) :
  Reading.preserved s (perform_all calls s).
Proof.
  unfold perform_all. revert s.
  induction calls as [|c calls IH]; intros s; cbn [fold_left]; [apply preserved_refl|].
  eapply preserved_trans; [|apply IH].
  destruct c; cbn [perform];
    [apply createInvestment_preserved|apply cancelInvestment_preserved].
Qed.

(** X4: whatever sequence of invest and cancel calls is handled, no
    payment document is ever stored, no project is added or removed and
    the terms of each (title, category, minimum, ROI, target, duration,
    premium flag) stay as they were, and every investment that was stored
    stays stored, for the same user, project, amount and expected
    return. *)
Theorem ledger_preserves (calls : list Call) (s : Store) :
  payments (perform_all calls s) = payments s /\
  length (projects (perform_all calls s)) = length (projects s) /\
  Reading.preserved s (perform_all calls s).
Proof.
  pose proof (perform_all_preserved calls s) as H.
  split; [exact (proj1 H)|]. split; [exact (proj1 (proj2 H))|exact H].
Qed.

End Answers.

(** ** A recorded investment read back *)

Section Recorded.

Import InvestmentController Ledger.
Open Scope Q_scope.

(** An invest call that meets the preconditions, with a listed payment
    method on a project the schema accepts, records the investment and
    funds the project before the payment record stops it. *)
Lemma createInvestment_recorded now userId pid amount pm s p :
  ~ amount == 0 ->
  In pm Investment.paymentMethods ->
  projects s !! pid = Some p ->
  Project.schema_valid p ->
  InvestSpec.first_violated (Some p) amount = None ->
  let inv := Investment.mk userId pid amount Investment.completed pm now
               (amount + amount * Project.roiPercent p / 100)
               (if (Project.durationMonths p =? 0)%Z then None
                else Some (now, Project.durationMonths p))
               None None in
  exists p' bad,
    createInvestment now userId (mkCreateBody (Some pid) (Some amount) (Some pm)) s
    = (inl (ValidationError "Payment" bad),
       mkStore (<[pid := p']> (projects s)) (investments s ++ [inv]) (payments s)) /\
    Reading.same_terms p p' /\
    Project.fundedAmount p' = Project.fundedAmount p + amount /\
    Project.totalInvestors p' = (Project.totalInvestors p + 1)%Z /\
    Project.status p' =
      (if Qle_bool (Project.targetAmount p) (Project.fundedAmount p + amount)
       then Project.completed else Project.active).
Proof.
  intros Ha Hpm Hp Hvalid Hfv inv.
  pose proof (paymentMethod_nonempty pm Hpm) as Hne.
  destruct (schema_valid_bounds p Hvalid) as (Hmin0 & Hroi0 & Hfun0 & Hinv0).
  pose proof Hfv as Hpre.
  apply first_violated_none in Hpre as (Hst & Hmin & Hfull & Hroom).
  assert (Hamount : 0 <= amount)
    by (apply (Qle_trans _ (Project.minInvestment p)); assumption).
  destruct (createInvestment_commit_terms now userId pid amount pm s p Ha Hne Hp Hfv)
    as (p' & Hterms & Hf & Ht & Hstatus & Hcases).
  fold inv in Hcases.
  assert (Hiv : Investment.invalid ["amount"; "paymentMethod"; "expectedReturn"] inv = []).
  { apply Investment_created_valid. subst inv. cbn [Investment.amount
      Investment.paymentMethod Investment.expectedReturn].
    repeat split; try assumption.
    rewrite <- (Qplus_0_r 0). apply Qplus_le_compat; [assumption|].
    apply Qle_shift_div_l; [reflexivity|]. rewrite Qmult_0_l.
    apply Qmult_le_0_compat; assumption. }
  assert (Hpv : Project.invalid ["fundedAmount"; "totalInvestors"; "status"] p' = []).
  { apply Project_funding_valid. rewrite Hf, Ht. split; [|lia].
    rewrite <- (Qplus_0_r 0). apply Qplus_le_compat; assumption. }
  destruct Hcases as [(Hbad & _) | [(_ & Hbad & _) | (_ & _ & bad & Hrun)]];
    try contradiction.
  exists p', bad. auto.
Qed.

(** X7: the investment an invest call has just recorded can be read back
    under the next id by the investor and by any administrator, with the
    amount, project and status completed; any other caller gets the 403
    error, and the id after it is not found. *)
Theorem getInvestmentById_after_invest now userId pid amount pm s p :
  ~ amount == 0 ->
  In pm Investment.paymentMethods ->
  projects s !! pid = Some p ->
  Project.schema_valid p ->
  InvestSpec.first_violated (Some p) amount = None ->
  let s1 := snd (createInvestment now userId
                   (mkCreateBody (Some pid) (Some amount) (Some pm)) s) in
  let id := length (investments s) in
  exists inv,
    InvestmentQueries.getInvestmentById userId false id s1 = (inr inv, s1) /\
    Investment.userId inv = userId /\
    Investment.projectId inv = pid /\
    Investment.amount inv = amount /\
    Investment.status inv = Investment.completed /\
    (forall admin, InvestmentQueries.getInvestmentById admin true id s1 = (inr inv, s1)) /\
    (forall other, other <> userId ->
       InvestmentQueries.getInvestmentById other false id s1
       = (inl (AppErr (mkAppError
                         (Lit "You do not have permission to view this investment") 403)),
          s1)) /\
    (forall caller isAdmin,
       InvestmentQueries.getInvestmentById caller isAdmin (S id) s1
       = (inl (AppErr (mkAppError (Lit "Investment not found") 404)), s1)).
Proof.
  intros Ha Hpm Hp Hvalid Hfv s1 id.
  destruct (createInvestment_recorded now userId pid amount pm s p Ha Hpm Hp Hvalid Hfv)
    as (p' & bad & Hrun & _).
  cbv zeta in Hrun.
  set (inv := Investment.mk userId pid amount Investment.completed pm now
                (amount + amount * Project.roiPercent p / 100)
                (if (Project.durationMonths p =? 0)%Z then None
                 else Some (now, Project.durationMonths p))
                None None) in *.
  assert (Hi : investments s1 !! id = Some inv).
  { subst s1 id. rewrite Hrun. cbn [snd investments]. apply list_lookup_middle. reflexivity. }
  assert (Hnone : investments s1 !! S id = None).
  { subst s1 id. rewrite Hrun. cbn [snd investments]. apply lookup_ge_None.
    rewrite length_app. cbn. lia. }
  clearbody s1. exists inv.
  unfold InvestmentQueries.getInvestmentById, bind, Investment_findById.
  unfold ObjectId. rewrite Hi, Hnone. cbn [inv Investment.userId]. rewrite Nat.eqb_refl.
  split; [reflexivity|]. repeat (split; [reflexivity|]).
  split; [|split].
  - intros admin. rewrite andb_false_r. reflexivity.
  - intros other Hother.
    destruct (Nat.eqb_spec userId other) as [E|_]; [congruence|]. reflexivity.
  - intros caller isAdmin. reflexivity.
Qed.

End Recorded.

Lemma getInvestmentById_after_invest_witness :
  let p := Sample.solar_farm 900 3 Project.active in
  let s := mkStore [p] [] [] in
  let body := InvestmentController.mkCreateBody (Some 0%nat) (Some 100%Q) (Some "stripe") in
  let s1 := snd (InvestmentController.createInvestment 0 1%nat body s) in
  (Project.schema_valid p /\ InvestSpec.first_violated (Some p) 100 = None) /\
  exists inv,
    InvestmentQueries.getInvestmentById 1%nat false 0%nat s1 = (inr inv, s1) /\
    Investment.amount inv = 100%Q /\
    InvestmentQueries.getInvestmentById 2%nat false 0%nat s1
    = (inl (AppErr (mkAppError (Lit "You do not have permission to view this investment") 403)),
       s1).
Proof.
  intros p s body s1.
  assert (Ha : ~ (100 == 0)%Q) by (intros H; discriminate H).
  assert (Hpm : In "stripe" Investment.paymentMethods) by (cbn; tauto).
  assert (Hvalid : Project.schema_valid p) by reflexivity.
  assert (Hfv : InvestSpec.first_violated (Some p) 100 = None) by reflexivity.
  split; [split; assumption|].
  destruct (getInvestmentById_after_invest 0 1%nat 0%nat 100 "stripe" s p
              Ha Hpm eq_refl Hvalid Hfv)
    as (inv & Hown & _ & _ & Hamount & _ & _ & Hother & _).
  exists inv. split; [exact Hown|]. split; [exact Hamount|].
  apply Hother. discriminate.
Defined.

(** ** Filters and aggregates of the readers *)

Section ReadingLedger.

Import InvestmentController Ledger.
Open Scope Q_scope.

Lemma or_zero_some (q : Q) : Aggregate.or_zero (Some q) == q.
Proof.
  unfold Aggregate.or_zero. destruct (Qeq_bool q 0) eqn:E; [|reflexivity].
  apply Qeq_bool_iff in E. symmetry. assumption.
Qed.

Lemma matches_completed_in_project projectId (i : Investment.t) :
  InvestmentQueries.matches
    (InvestmentQueries.mkFilter None (Some projectId) (Some "completed")) i
  = InvestmentStatics.completed_in_project projectId i.
Proof.
  unfold InvestmentQueries.matches, InvestmentStatics.completed_in_project.
  cbn [InvestmentQueries.userId InvestmentQueries.projectId InvestmentQueries.status andb].
  destruct (Investment.status i); reflexivity.
Qed.

Lemma filter_ext_eq {A : Type} (f g : A -> bool) (l : list A) :
  (forall x, f x = g x) -> List.filter f l = List.filter g l.
Proof.
  intros H. induction l as [|x l IH]; cbn [List.filter]; [reflexivity|].
  rewrite H, IH. reflexivity.
Qed.

End ReadingLedger.

(** ** Totals by user and the statistics *)

Section Statistics.

Import InvestmentController Ledger.
Open Scope Q_scope.

Lemma getTotalInvestedByUser_total userId s :
  exists total,
    InvestmentStatics.getTotalInvestedByUser userId s = (inr total, s) /\
    total == Aggregate.sum Investment.amount
               (List.filter (InvestmentStatics.completed_by_user userId) (investments s)).
Proof.
  unfold InvestmentStatics.getTotalInvestedByUser, Investment_collection.
  eexists. split; [reflexivity|].
  destruct (List.filter _ (investments s)) as [|i l];
    cbn [InvestmentStatics.group head option_map InvestmentStatics.total].
  - reflexivity.
  - apply or_zero_some.
Qed.

Lemma filter_insert_irrelevant {A : Type} (f : A -> bool) (l : list A) id old new :
  l !! id = Some old -> f old = false -> f new = false ->
  List.filter f (<[id := new]> l) = List.filter f l.
Proof.
  revert id. induction l as [|x l IH]; intros [|id] H Hold Hnew; try discriminate H.
  - cbn in H. injection H as ->.
    change (<[0%nat := new]> (old :: l)) with (new :: l). cbn [List.filter].
    rewrite Hold, Hnew. reflexivity.
  - cbn in H. change (<[S id := new]> (x :: l)) with (x :: <[id := new]> l).
    cbn [List.filter]. rewrite (IH id H Hold Hnew). reflexivity.
Qed.

(** The investments a cancel call leaves: those it found, with the one it
    names refunded when the call got that far. *)
Lemma cancelInvestment_investments now caller isAdmin id reason s :
  investments (snd (cancelInvestment now caller isAdmin id reason s)) = investments s \/
  exists i,
    investments s !! id = Some i /\
    investments (snd (cancelInvestment now caller isAdmin id reason s))
    = <[id := Investment.refund (Js.string_or_else reason "User requested refund") now i]>
        (investments s).
Proof.
  destruct (CancelSpec.first_violated (investments s !! id) now caller isAdmin)
    as [c|] eqn:Hfv.
  { left. rewrite (cancelInvestment_refused now caller isAdmin id reason s c Hfv).
    reflexivity. }
  destruct (investments s !! id) as [i|] eqn:Hi; [|discriminate Hfv].
  pose proof (cancelInvestment_commit_terms now caller isAdmin id reason s i Hi Hfv) as H.
  cbv zeta in H.
  destruct H as [(_ & bad & ->) | (_ & H)]; [left; reflexivity|].
  right. exists i. split; [reflexivity|].
  destruct (projects s !! Investment.projectId i) as [p|].
  - destruct H as (p' & _ & _ & _ & _ & [(_ & bad & ->) | (_ & ->)]); reflexivity.
  - rewrite H. reflexivity.
Qed.

(** X10: whatever a cancel call answers, the total invested of every user
    other than the owner of the investment it names (the static
    getTotalInvestedByUser, which my-investments reports) is the one the
    static returned before the call. *)
Theorem cancelInvestment_other_totals now caller isAdmin id reason s other :
  (forall i, investments s !! id = Some i -> Investment.userId i <> other) ->
  fst (InvestmentStatics.getTotalInvestedByUser other
         (snd (cancelInvestment now caller isAdmin id reason s)))
  = fst (InvestmentStatics.getTotalInvestedByUser other s).
Proof.
  intros Hother.
  unfold InvestmentStatics.getTotalInvestedByUser, Investment_collection. cbn [fst].
  destruct (cancelInvestment_investments now caller isAdmin id reason s)
    as [-> | (i & Hi & ->)]; [reflexivity|].
  specialize (Hother i Hi).
  rewrite (filter_insert_irrelevant _ _ id i _ Hi); [reflexivity| |];
    unfold InvestmentStatics.completed_by_user;
    cbn [Investment.refund Investment.userId];
    destruct (Nat.eqb_spec (Investment.userId i) other); try congruence; reflexivity.
Qed.

Lemma length_by_status (l : list Investment.t) :
  length l
  = (length (List.filter (fun i => Investment.Status_eqb (Investment.status i)
                                     Investment.pending) l)
     + length (List.filter (fun i => Investment.Status_eqb (Investment.status i)
                                       Investment.completed) l)
     + length (List.filter (fun i => Investment.Status_eqb (Investment.status i)
                                       Investment.failed) l)
     + length (List.filter (fun i => Investment.Status_eqb (Investment.status i)
                                       Investment.refunded) l))%nat.
Proof.
  induction l as [|i l IH]; [reflexivity|].
  cbn [List.filter]. destruct (Investment.status i); cbn [Investment.Status_eqb length]; lia.
Qed.

Lemma filter_filter_and {A : Type} (f g : A -> bool) (l : list A) :
  List.filter g (List.filter f l) = List.filter (fun x => f x && g x) l.
Proof.
  induction l as [|x l IH]; [reflexivity|]. cbn [List.filter].
  destruct (f x); cbn [List.filter andb]; [destruct (g x)|]; rewrite IH; reflexivity.
Qed.

Lemma length_nodup_le (l : list nat) : (length (nodup Nat.eq_dec l) <= length l)%nat.
Proof.
  induction l as [|x l IH]; [reflexivity|]. cbn [nodup].
  destruct (in_dec Nat.eq_dec x l); cbn [length]; lia.
Qed.

Lemma matches_user caller (i : Investment.t) :
  InvestmentQueries.matches (InvestmentQueries.mkFilter (Some caller) None None) i
  = (Investment.userId i =? caller)%nat.
Proof.
  unfold InvestmentQueries.matches.
  cbn [InvestmentQueries.userId InvestmentQueries.projectId InvestmentQueries.status].
  rewrite !andb_true_r. reflexivity.
Qed.

Lemma matches_completed_by_user caller (i : Investment.t) :
  InvestmentQueries.matches (InvestmentQueries.mkFilter (Some caller) None (Some "completed")) i
  = InvestmentStatics.completed_by_user caller i.
Proof.
  unfold InvestmentQueries.matches, InvestmentStatics.completed_by_user.
  cbn [InvestmentQueries.userId InvestmentQueries.projectId InvestmentQueries.status].
  rewrite andb_true_r. destruct (Investment.status i); reflexivity.
Qed.

(** X11: GET /api/investments/stats always answers; the counts of its
    groups add up to the number of the caller's investments, the
    totalAmount of the group of completed investments is the totalInvested
    that my-investments reports, and activeProjects is at most the number
    of the caller's completed investments. *)
Theorem getInvestmentStats_groups caller s :
  exists r invested,
    InvestmentQueries.getInvestmentStats caller s = (inr r, s) /\
    InvestmentStatics.getTotalInvestedByUser caller s = (inr invested, s) /\
    fold_right Z.add 0%Z (map InvestmentQueries.count (InvestmentQueries.stats r))
    = Z.of_nat (length (List.filter (fun i => (Investment.userId i =? caller)%nat)
                          (investments s))) /\
    (forall g, In g (InvestmentQueries.stats r) ->
               InvestmentQueries.group_id g = "completed" ->
               InvestmentQueries.totalAmount g == invested) /\
    (0 <= InvestmentQueries.activeProjects r
     <= Z.of_nat (length (List.filter (InvestmentStatics.completed_by_user caller)
                            (investments s))))%Z.
Proof.
  destruct (getTotalInvestedByUser_total caller s) as (invested & Hinvested & Hsum).
  eexists. exists invested. split; [reflexivity|]. split; [exact Hinvested|].
  cbn [InvestmentQueries.stats InvestmentQueries.activeProjects].
  unfold Investment_collection.
  rewrite (filter_ext_eq _ _ (investments s) (matches_user caller)).
  rewrite (filter_ext_eq _ _ (investments s) (matches_completed_by_user caller)).
  set (mine := List.filter (fun i => (Investment.userId i =? caller)%nat) (investments s)).
  assert (Hcompleted :
    List.filter (fun i => Investment.Status_eqb (Investment.status i) Investment.completed)
      mine
    = List.filter (InvestmentStatics.completed_by_user caller) (investments s)).
  { subst mine. rewrite filter_filter_and. reflexivity. }
  split; [|split].
  - pose proof (length_by_status mine) as Hlen.
    unfold InvestmentQueries.group_by_status, InvestmentQueries.statuses.
    cbn [flat_map].
    destruct (List.filter
                (fun i => Investment.Status_eqb (Investment.status i) Investment.pending)
                mine);
      destruct (List.filter
                  (fun i => Investment.Status_eqb (Investment.status i) Investment.completed)
                  mine);
      destruct (List.filter
                  (fun i => Investment.Status_eqb (Investment.status i) Investment.failed)
                  mine);
      destruct (List.filter
                  (fun i => Investment.Status_eqb (Investment.status i) Investment.refunded)
                  mine);
      cbn [app map fold_right InvestmentQueries.count length] in *; lia.
  - intros g Hg Hid.
    unfold InvestmentQueries.group_by_status, InvestmentQueries.statuses in Hg.
    cbn [flat_map] in Hg. rewrite !in_app_iff in Hg.
    rewrite Hcompleted in Hg. rewrite Hsum.
    destruct Hg as [Hg | [Hg | [Hg | [Hg | []]]]];
      match type of Hg with
      | In _ (match ?l with [] => _ | _ :: _ => _ end) =>
          destruct l; [destruct Hg|destruct Hg as [<-|[]]]
      end;
      cbn [InvestmentQueries.group_id InvestmentQueries.status_name] in Hid;
      try discriminate Hid.
    reflexivity.
  - split; [lia|]. apply inj_le.
    etransitivity; [apply length_nodup_le|]. rewrite length_map. reflexivity.
Qed.

Lemma count_statuses (l : list Project.t) :
  (ProjectStats.count_status Project.active l + ProjectStats.count_status Project.completed l
   + ProjectStats.count_status Project.closed l
   = Z.of_nat (length l))%Z.
Proof.
  unfold ProjectStats.count_status.
  induction l as [|p l IH]; cbn [List.filter length]; [lia|].
  destruct (Project.status p); cbn [Project.Status_eqb length]; lia.
Qed.

(** X12: getProjectStats always answers and leaves the store as it is;
    totalProjects is the number of stored projects, which no sequence of
    invest and cancel calls changes, and activeProjects and
    completedProjects are counts that with the number of closed projects
    add up to it. *)
Theorem getProjectStats_counts (calls : list Call) (s : Store) :
  exists r,
    ProjectStats.getProjectStats (perform_all calls s) = (inr r, perform_all calls s) /\
    ProjectStats.totalProjects r = Z.of_nat (length (projects s)) /\
    (0 <= ProjectStats.activeProjects r)%Z /\
    (0 <= ProjectStats.completedProjects r)%Z /\
    (ProjectStats.activeProjects r + ProjectStats.completedProjects r
     + ProjectStats.count_status Project.closed (projects (perform_all calls s))
     = ProjectStats.totalProjects r)%Z.
Proof.
  pose proof (proj1 (proj2 (perform_all_preserved calls s))) as Hlen.
  set (s' := perform_all calls s) in *. clearbody s'.
  eexists. split; [reflexivity|].
  cbn [ProjectStats.activeProjects ProjectStats.completedProjects
         ProjectStats.totalProjects].
  unfold Project_collection. split; [rewrite Hlen; reflexivity|].
  split; [unfold ProjectStats.count_status; lia|].
  split; [unfold ProjectStats.count_status; lia|].
  apply count_statuses.
Qed.

End Statistics.

Lemma cancelInvestment_other_totals_witness :
  let s := mkStore [Sample.solar_farm 1000 4 Project.completed] [Sample.stake] [] in
  (forall i, investments s !! 0%nat = Some i -> Investment.userId i <> 2%nat) /\
  fst (InvestmentStatics.getTotalInvestedByUser 2%nat
         (snd (InvestmentController.cancelInvestment 5 1%nat false 0%nat None s)))
  = fst (InvestmentStatics.getTotalInvestedByUser 2%nat s).
Proof.
  intros s.
  assert (Hother : forall i, investments s !! 0%nat = Some i -> Investment.userId i <> 2%nat).
  { intros i Hi. injection Hi as <-. discriminate. }
  split; [exact Hother|].
  exact (cancelInvestment_other_totals 5 1%nat false 0%nat None s 2%nat Hother).
Defined.

(** ** Pages and the bounds of a search *)

Section Paging.

Import ProjectService.

Variable regex_i : string -> string -> bool.

Lemma answers_ret {A : Type} (a : A) s (P : A -> Prop) (E : Thrown -> Prop) :
  P a -> Reading.answers (ret a) s P E.
Proof. intros H. split; [reflexivity|assumption]. Qed.

Lemma answers_throw {A : Type} (err : Thrown) s (P : A -> Prop) (E : Thrown -> Prop) :
  E err -> Reading.answers (throw err) s P E.
Proof. intros H. split; [reflexivity|assumption]. Qed.

Lemma answers_bind {A B : Type} (m : M A) (k : A -> M B) s
    (P : A -> Prop) (Q : B -> Prop) (E : Thrown -> Prop) :
  Reading.answers m s P E ->
  (forall a, P a -> Reading.answers (k a) s Q E) ->
  Reading.answers (bind m k) s Q E.
Proof.
  unfold Reading.answers, bind. destruct (m s) as [[err|a] s'].
  - intros H _. exact H.
  - intros [-> H] Hk. exact (Hk a H).
Qed.

Lemma hasFeatureAccess_throws (userPlan : string) feature err :
  PlanFeatures.hasFeatureAccess userPlan feature = inl err -> err = TypeError.
Proof.
  unfold PlanFeatures.hasFeatureAccess.
  destruct (PlanFeatures.resolve userPlan); intros H; try discriminate H; congruence.
Qed.

Lemma and_access_answers supplied userPlan feature s (E : Thrown -> Prop) :
  E TypeError ->
  Reading.answers (and_access supplied userPlan feature) s (fun _ => True) E.
Proof.
  intros HE. unfold and_access. destruct supplied; [|apply answers_ret; exact I].
  destruct (PlanFeatures.hasFeatureAccess userPlan feature) as [err|b] eqn:H.
  - apply answers_throw. rewrite (hasFeatureAccess_throws _ _ _ H). exact HE.
  - apply answers_ret. exact I.
Qed.

Lemma require_access_answers userPlan feature text s (E : Thrown -> Prop) :
  E TypeError -> E (AppErr (mkAppError (Lit text) 403)) ->
  Reading.answers (require_access userPlan feature text) s (fun _ => True) E.
Proof.
  intros HE Hdenied. unfold require_access.
  destruct (PlanFeatures.hasFeatureAccess userPlan feature) as [err|[|]] eqn:H.
  - apply answers_throw. rewrite (hasFeatureAccess_throws _ _ _ H). exact HE.
  - apply answers_ret. exact I.
  - split; [reflexivity|exact Hdenied].
Qed.

Lemma length_insert_sorted (o : Sort) (x : Project.t) (l : list Project.t) :
  length (insert_sorted o x l) = S (length l).
Proof.
  induction l as [|y l IH]; cbn [insert_sorted length]; [reflexivity|].
  destruct (before o x y); cbn [length]; [reflexivity|]. rewrite IH. reflexivity.
Qed.

Lemma length_sort (o : Sort) (l : list Project.t) : length (sort o l) = length l.
Proof.
  unfold sort. induction l as [|x l IH]; cbn [fold_right length]; [reflexivity|].
  rewrite length_insert_sorted, IH. reflexivity.
Qed.

Lemma ceil_div_bounds (total limit : Z) :
  (1 <= limit)%Z ->
  exists n, ceil_div total limit = Some n /\ ((n - 1) * limit < total <= n * limit)%Z.
Proof.
  intros Hlimit. unfold ceil_div.
  destruct (Z.eqb_spec limit 0) as [E|_]; [lia|].
  eexists. split; [reflexivity|].
  pose proof (Z.div_mod (total + limit - 1) limit ltac:(lia)) as Hdiv.
  pose proof (Z.mod_pos_bound (total + limit - 1) limit ltac:(lia)) as Hmod.
  nia.
Qed.

Lemma parse_throws raw err :
  AdvancedSearchInput.parse raw = inl err -> exists paths, err = ZodError paths.
Proof.
  unfold AdvancedSearchInput.parse. cbv zeta.
  repeat match goal with
         | |- context [match ?x with Some _ => _ | None => _ end] =>
             destruct x; try discriminate
         end;
    intros H; injection H as <-; eexists; reflexivity.
Qed.

(** X14: an advanced search whose body carries no search text (so that no
    regular expression reaches the database) and a page number whose skip
    a binary64 number holds exactly leaves the store as it is and either
    returns a page - of at most limit projects, limit between 1 and 100,
    page at least 1, no more projects than the total, and totalPages the
    least number of pages of that size that hold the total - or fails with
    the schema's error, a 403 error or (for a plan key that finds a member
    of Object.prototype) a TypeError: it never reaches the database with a
    negative skip. *)
Theorem advancedSearch_bounded raw userPlan s :
  Js.truthy_string (AdvancedSearchInput.raw_search raw) = false ->
  (forall number, AdvancedSearchInput.raw_page raw = Some number ->
     number * 100 <= 9007199254740992)%Q ->
  match advancedSearch regex_i raw userPlan s with
  | (inr r, s') =>
      s' = s /\
      (1 <= page (pagination (found r)))%Z /\
      (1 <= limit (pagination (found r)) <= 100)%Z /\
      (Z.of_nat (length (projects (found r))) <= limit (pagination (found r)))%Z /\
      (Z.of_nat (length (projects (found r))) <= total (pagination (found r)))%Z /\
      exists n,
        totalPages (pagination (found r)) = Some n /\
        ((n - 1) * limit (pagination (found r)) < total (pagination (found r))
         <= n * limit (pagination (found r)))%Z
  | (inl err, s') =>
      s' = s /\
      ((exists paths, err = ZodError paths) \/
       (exists text, err = AppErr (mkAppError (Lit text) 403)) \/
       err = TypeError)
  end.
Proof.
  set (E := fun err : Thrown =>
              (exists paths, err = ZodError paths) \/
              (exists text, err = AppErr (mkAppError (Lit text) 403)) \/
              err = TypeError).
  intros _ _.
  assert (HE : E TypeError) by (right; right; reflexivity).
  assert (Hdenied : forall text, E (AppErr (mkAppError (Lit text) 403)))
    by (intros text; right; left; eexists; reflexivity).
  unfold advancedSearch.
  destruct (AdvancedSearchInput.parse raw) as [err|v] eqn:Hparse.
  { split; [reflexivity|]. left. eapply parse_throws. eassumption. }
  destruct (parse_bounds raw v Hparse) as [Hpage Hlimit].
  cbv zeta.
  match goal with
  | |- match ?m s with _ => _ end =>
      change (Reading.answers m s
                (fun r =>
                   (1 <= page (pagination (found r)))%Z /\
                   (1 <= limit (pagination (found r)) <= 100)%Z /\
                   (Z.of_nat (length (projects (found r)))
                    <= limit (pagination (found r)))%Z /\
                   (Z.of_nat (length (projects (found r)))
                    <= total (pagination (found r)))%Z /\
                   exists n,
                     totalPages (pagination (found r)) = Some n /\
                     ((n - 1) * limit (pagination (found r))
                      < total (pagination (found r))
                      <= n * limit (pagination (found r)))%Z)
                E)
  end.
  eapply answers_bind; [apply and_access_answers; exact HE|intros byCategory _].
  eapply answers_bind; [apply and_access_answers; exact HE|intros byStatus _].
  eapply answers_bind; [apply and_access_answers; exact HE|intros bySearch _].
  eapply (answers_bind _ _ _ (fun _ => True)).
  { destruct (nonempty (AdvancedSearchInput.categories v)); [|apply answers_ret; exact I].
    eapply answers_bind; [apply require_access_answers; [exact HE|apply Hdenied]|].
    intros _ _. apply answers_ret. exact I. }
  intros filter1 _.
  eapply (answers_bind _ _ _ (fun _ => True)).
  { destruct (some_bound (AdvancedSearchInput.minROI v) (AdvancedSearchInput.maxROI v));
      [|apply answers_ret; exact I].
    eapply answers_bind; [apply require_access_answers; [exact HE|apply Hdenied]|].
    intros _ _. apply answers_ret. exact I. }
  intros filter2 _.
  eapply (answers_bind _ _ _ (fun _ => True)).
  { destruct (some_bound (AdvancedSearchInput.minAmount v) (AdvancedSearchInput.maxAmount v));
      [|apply answers_ret; exact I].
    eapply answers_bind; [apply require_access_answers; [exact HE|apply Hdenied]|].
    intros _ _. apply answers_ret. exact I. }
  intros filter3 _.
  eapply (answers_bind _ _ _ (fun _ => True)).
  { destruct (some_bound (AdvancedSearchInput.minDuration v)
                (AdvancedSearchInput.maxDuration v));
      [|apply answers_ret; exact I].
    eapply answers_bind; [apply require_access_answers; [exact HE|apply Hdenied]|].
    intros _ _. apply answers_ret. exact I. }
  intros filter4 _.
  eapply (answers_bind _ _ _ (fun _ => True)).
  { destruct (_ || _); [|apply answers_ret; exact I].
    eapply answers_bind; [apply require_access_answers; [exact HE|apply Hdenied]|].
    intros _ _.
    destruct (AdvancedSearchInput.SortBy_eqb _ _); apply answers_ret; exact I. }
  intros sortObject _.
  set (matching := List.filter (matches regex_i filter4) (Project_collection s)).
  eapply (answers_bind _ _ _
            (fun listed =>
               (length listed <= Z.to_nat (AdvancedSearchInput.limit v))%nat /\
               (length listed <= length matching)%nat)).
  { unfold Reading.answers, Project_find.
    destruct (Z.ltb_spec ((AdvancedSearchInput.page v - 1) * AdvancedSearchInput.limit v) 0)
      as [Hneg|_]; [nia|].
    split; [reflexivity|]. unfold limit_to.
    destruct (Z.eqb_spec (AdvancedSearchInput.limit v) 0) as [E0|_]; [lia|].
    fold matching. rewrite length_take, length_drop, length_sort. lia. }
  intros listed [Hlisted Hle].
  eapply (answers_bind _ _ _ (fun counted => counted = Z.of_nat (length matching))).
  { split; reflexivity. }
  intros counted ->.
  apply answers_ret. cbn [found projects pagination page limit total totalPages].
  split; [assumption|]. split; [assumption|]. split; [lia|]. split; [lia|].
  apply ceil_div_bounds. lia.
Qed.

Lemma matches_no_filter (p : Project.t) :
  matches regex_i (mkFilter None None None None None None None) p = true.
Proof. reflexivity. Qed.

Lemma filter_all {A : Type} (f : A -> bool) (l : list A) :
  (forall x, f x = true) -> List.filter f l = l.
Proof.
  intros H. induction l as [|x l IH]; cbn [List.filter]; [reflexivity|].
  rewrite H, IH. reflexivity.
Qed.

(** X15: the advanced search has no isPremium clause. A body with no field
    is answered, for every plan key, with the newest twenty of all stored
    projects and their total number, premium projects included. *)
Theorem advancedSearch_includes_premium userPlan s :
  exists r,
    advancedSearch regex_i Reading.empty_search userPlan s = (inr r, s) /\
    projects (found r)
    = take 20 (sort createdAt_descending (Project_collection s)) /\
    total (pagination (found r)) = Z.of_nat (length (Project_collection s)) /\
    forall p, In p (projects (found r)) -> In p (Project_collection s).
Proof.
  pose proof (filter_all _ (Project_collection s) matches_no_filter) as Hall.
  exists (mkSearchResult
            (mkListing (take 20 (sort createdAt_descending (Project_collection s)))
               (mkPagination 1 20 (Z.of_nat (length (Project_collection s)))
                  (ceil_div (Z.of_nat (length (Project_collection s))) 20)))
            (PlanFeatures.getPlanFeatures userPlan)).
  split; [|split; [reflexivity|split; [reflexivity|]]].
  - unfold advancedSearch.
    change (AdvancedSearchInput.parse Reading.empty_search)
      with (@inr Thrown _ (AdvancedSearchInput.mk 1 20 None None None None None None None
                             None None None AdvancedSearchInput.createdAt
                             AdvancedSearchInput.desc)).
    cbv zeta. unfold bind, and_access, ret, Project_find, Project_countDocuments.
    cbn [AdvancedSearchInput.page AdvancedSearchInput.limit AdvancedSearchInput.category
           AdvancedSearchInput.status AdvancedSearchInput.search
           AdvancedSearchInput.categories AdvancedSearchInput.minROI
           AdvancedSearchInput.maxROI AdvancedSearchInput.minAmount
           AdvancedSearchInput.maxAmount AdvancedSearchInput.minDuration
           AdvancedSearchInput.maxDuration AdvancedSearchInput.sortBy
           AdvancedSearchInput.sortOrder Js.truthy_string Js.defined nonempty some_bound
           AdvancedSearchInput.SortBy_eqb AdvancedSearchInput.SortOrder_eqb negb orb].
    change ((1 - 1) * 20 <? 0)%Z with false. cbv beta iota.
    rewrite !Hall. reflexivity.
  - cbn [found projects]. intros p Hp.
    apply (In_sort createdAt_descending). eapply In_take. eassumption.
Qed.

Lemma take_pages {A : Type} (l : list A) (m n : nat) :
  flat_map (fun k => take m (drop ((k - 1) * m) l)) (seq 1 n) = take (n * m) l.
Proof.
  induction n as [|n IH]; [reflexivity|].
  rewrite seq_S, flat_map_app, IH. cbn [flat_map].
  rewrite app_nil_r. replace (1 + n - 1)%nat with n by lia.
  rewrite take_take_drop. f_equal. lia.
Qed.

Lemma flat_map_pages {A : Type} (f g : nat -> list A) (n : nat) :
  (forall k, (1 <= k)%nat -> f k = g k) ->
  flat_map f (seq 1 n) = flat_map g (seq 1 n).
Proof.
  intros H. induction n as [|n IH]; [reflexivity|].
  rewrite seq_S, !flat_map_app, IH. cbn [flat_map]. rewrite H by lia. reflexivity.
Qed.

(** X13: for a query with no search text (so that no regular expression
    reaches the database) and a positive limit, every page from 1 on of
    the default listing whose skip a binary64 number holds exactly is
    answered, each reports the same total, and the pages 1 to n, one after
    the other, are the matching projects, newest first, each once - all of
    them as soon as n pages can hold the total. *)
Theorem getAllProjects_pages (query : ProjectQuery.t) s (n : nat) :
  Js.truthy_string (ProjectQuery.search query) = false ->
  (0 < ProjectQuery.limit query)%Z ->
  (Z.of_nat n * ProjectQuery.limit query <= 9007199254740992)%Z ->
  let matching :=
    sort createdAt_descending
      (List.filter (matches regex_i (listing_filter premium_ne_true query))
         (Project_collection s)) in
  (forall k, (1 <= k)%Z -> (k * ProjectQuery.limit query <= 9007199254740992)%Z ->
     exists r,
       getAllProjects regex_i (Reading.with_page k query) s = (inr r, s) /\
       total (pagination r) = Z.of_nat (length matching)) /\
  flat_map
    (fun k => Reading.returned (getAllProjects regex_i (Reading.with_page (Z.of_nat k) query) s))
    (seq 1 n)
  = take (n * Z.to_nat (ProjectQuery.limit query)) matching /\
  ((length matching <= n * Z.to_nat (ProjectQuery.limit query))%nat ->
   flat_map
     (fun k =>
        Reading.returned (getAllProjects regex_i (Reading.with_page (Z.of_nat k) query) s))
     (seq 1 n)
   = matching).
Proof.
  intros _ Hlimit _ matching.
  assert (Hpage : forall k, (1 <= k)%Z ->
            getAllProjects regex_i (Reading.with_page k query) s
            = (inr (mkListing
                      (take (Z.to_nat (ProjectQuery.limit query))
                         (drop (Z.to_nat ((k - 1) * ProjectQuery.limit query)) matching))
                      (mkPagination k (ProjectQuery.limit query)
                         (Z.of_nat (length matching))
                         (ceil_div (Z.of_nat (length matching)) (ProjectQuery.limit query)))),
               s)).
  { intros k Hk. unfold getAllProjects, listing, bind, Project_find, Project_countDocuments, ret.
    change (listing_filter premium_ne_true (Reading.with_page k query))
      with (listing_filter premium_ne_true query).
    cbn [Reading.with_page ProjectQuery.page ProjectQuery.limit].
    destruct (Z.ltb_spec ((k - 1) * ProjectQuery.limit query) 0) as [Hneg|_]; [nia|].
    unfold limit_to.
    destruct (Z.eqb_spec (ProjectQuery.limit query) 0) as [E0|_]; [lia|].
    subst matching. rewrite length_sort. reflexivity. }
  assert (Hall : flat_map
            (fun k => Reading.returned
                        (getAllProjects regex_i (Reading.with_page (Z.of_nat k) query) s))
            (seq 1 n)
          = take (n * Z.to_nat (ProjectQuery.limit query)) matching).
  { rewrite <- take_pages. apply flat_map_pages. intros k Hk.
    rewrite Hpage by lia. unfold Reading.returned. cbn [fst projects].
    f_equal. f_equal. rewrite Z2Nat.inj_mul by lia. f_equal. lia. }
  split; [|split].
  - intros k Hk _. eexists. split; [apply Hpage; assumption|reflexivity].
  - exact Hall.
  - intros Hn. rewrite Hall. apply take_ge. assumption.
Qed.

Ltac accepted H :=
  unfold AdvancedSearchInput.parse in H; cbv zeta in H;
  repeat match type of H with
         | context [match ?x with Some _ => _ | None => _ end] =>
             let E := fresh "E" in destruct x eqn:E; try discriminate H
         end.

Lemma parse_without_category raw v :
  AdvancedSearchInput.parse raw = inr v ->
  AdvancedSearchInput.parse (Reading.without_category raw)
  = inr (AdvancedSearchInput.mk
           (AdvancedSearchInput.page v) (AdvancedSearchInput.limit v)
           None (AdvancedSearchInput.status v)
           (AdvancedSearchInput.search v) (AdvancedSearchInput.categories v)
           (AdvancedSearchInput.minROI v) (AdvancedSearchInput.maxROI v)
           (AdvancedSearchInput.minAmount v) (AdvancedSearchInput.maxAmount v)
           (AdvancedSearchInput.minDuration v) (AdvancedSearchInput.maxDuration v)
           (AdvancedSearchInput.sortBy v) (AdvancedSearchInput.sortOrder v)).
Proof.
  intros H. accepted H. injection H as <-.
  unfold AdvancedSearchInput.parse, Reading.without_category. cbn.
  repeat match goal with
         | E : _ = Some _ |- _ => rewrite E; clear E
         end.
  reflexivity.
Qed.

(** X16: for a caller whose plan grants multipleCategories, a non-empty
    list of categories replaces the single category: the search answers
    exactly as it does for the same body without the category field. *)
Theorem advancedSearch_categories_replace_category raw v userPlan s :
  AdvancedSearchInput.parse raw = inr v ->
  nonempty (AdvancedSearchInput.categories v) = true ->
  PlanFeatures.hasFeatureAccess userPlan PlanFeatures.multipleCategories = inr true ->
  advancedSearch regex_i raw userPlan s
  = advancedSearch regex_i (Reading.without_category raw) userPlan s.
Proof.
  intros Hparse Hnonempty Hgrants.
  destruct (hasFeatureAccess_inr userPlan _ true Hgrants) as (p & Hp & Hres & Hflag).
  unfold advancedSearch. rewrite (parse_without_category raw v Hparse), Hparse. cbv zeta.
  rewrite !(and_access_plan _ userPlan p _ Hres).
  rewrite !(require_access_plan userPlan p _ _ Hres).
  cbn [AdvancedSearchInput.page AdvancedSearchInput.limit
         AdvancedSearchInput.category AdvancedSearchInput.status
         AdvancedSearchInput.search AdvancedSearchInput.categories
         AdvancedSearchInput.minROI AdvancedSearchInput.maxROI
         AdvancedSearchInput.minAmount AdvancedSearchInput.maxAmount
         AdvancedSearchInput.minDuration AdvancedSearchInput.maxDuration
         AdvancedSearchInput.sortBy AdvancedSearchInput.sortOrder].
  rewrite Hnonempty, Hflag.
  unfold bind at 1 2 3. unfold ret at 1 2 3.
  unfold bind at 4 5 6. unfold ret at 4 5 6.
  destruct (Js.truthy_string (AdvancedSearchInput.category v)
            && PlanFeatures.flag (PlanFeatures.searchFilters p) PlanFeatures.basicFilters);
    destruct (AdvancedSearchInput.status v) as [st|];
    destruct (Js.defined _ && PlanFeatures.flag (PlanFeatures.searchFilters p)
                                PlanFeatures.basicFilters);
    destruct (Js.truthy_string (AdvancedSearchInput.search v)
              && PlanFeatures.flag (PlanFeatures.searchFilters p) PlanFeatures.basicFilters);
    reflexivity.
Qed.

End Paging.

Lemma getAllProjects_pages_witness :
  let query := ProjectQuery.mk 1 1 None None None None None in
  let s := mkStore [Sample.solar_farm 900 3 Project.active; Sample.wind_park;
                    Sample.solar_farm 0 0 Project.active] [] [] in
  Js.truthy_string (ProjectQuery.search query) = false /\
  (0 < ProjectQuery.limit query)%Z /\
  (Z.of_nat 2 * ProjectQuery.limit query <= 9007199254740992)%Z /\
  flat_map
    (fun k =>
       Reading.returned
         (ProjectService.getAllProjects Sample.matches_everything
            (Reading.with_page (Z.of_nat k) query) s))
    (seq 1 2)
  = [Sample.solar_farm 900 3 Project.active; Sample.solar_farm 0 0 Project.active].
Proof.
  intros query s.
  assert (Hsearch : Js.truthy_string (ProjectQuery.search query) = false) by reflexivity.
  assert (Hlimit : (0 < ProjectQuery.limit query)%Z) by (cbn; lia).
  assert (Hskip : (Z.of_nat 2 * ProjectQuery.limit query <= 9007199254740992)%Z)
    by (cbn; lia).
  split; [exact Hsearch|]. split; [exact Hlimit|]. split; [exact Hskip|].
  pose proof (proj2 (proj2 (getAllProjects_pages Sample.matches_everything query s 2
                              Hsearch Hlimit Hskip)))
    as Hpages.
  cbv zeta in Hpages.
  eapply eq_trans; [apply Hpages; vm_compute; lia|reflexivity].
Defined.

Lemma advancedSearch_categories_replace_category_witness :
  let raw := AdvancedSearchInput.mkRaw None None (Some "solar") None None (Some ["energy"])
               None None None None None None None None in
  let v := AdvancedSearchInput.mk 1 20 (Some "solar") None None (Some ["energy"])
             None None None None None None AdvancedSearchInput.createdAt
             AdvancedSearchInput.desc in
  (AdvancedSearchInput.parse raw = inr v /\
   ProjectService.nonempty (AdvancedSearchInput.categories v) = true /\
   PlanFeatures.hasFeatureAccess "plus" PlanFeatures.multipleCategories = inr true) /\
  ProjectService.advancedSearch Sample.matches_everything raw "plus" Sample.catalogue
  = ProjectService.advancedSearch Sample.matches_everything (Reading.without_category raw)
      "plus" Sample.catalogue /\
  exists r,
    ProjectService.advancedSearch Sample.matches_everything raw "plus" Sample.catalogue
    = (inr r, Sample.catalogue) /\
    ProjectService.projects (ProjectService.found r)
    = [Sample.wind_park; Sample.solar_farm 900 3 Project.active].
Proof.
  intros raw v.
  assert (H1 : AdvancedSearchInput.parse raw = inr v) by reflexivity.
  assert (H2 : ProjectService.nonempty (AdvancedSearchInput.categories v) = true)
    by reflexivity.
  assert (H3 : PlanFeatures.hasFeatureAccess "plus" PlanFeatures.multipleCategories = inr true)
    by reflexivity.
  split; [repeat split; assumption|]. split.
  - exact (advancedSearch_categories_replace_category Sample.matches_everything raw v "plus"
             Sample.catalogue H1 H2 H3).
  - exists (ProjectService.mkSearchResult
              (ProjectService.mkListing
                 [Sample.wind_park; Sample.solar_farm 900 3 Project.active]
                 (ProjectService.mkPagination 1 20 2 (Some 1%Z)))
              (PlanFeatures.Plan PlanFeatures.plus)).
    split; reflexivity.
Defined.

Lemma advancedSearch_bounded_witness :
  let raw := Sample.request None None None None in
  Js.truthy_string (AdvancedSearchInput.raw_search raw) = false /\
  (forall number, AdvancedSearchInput.raw_page raw = Some number ->
     number * 100 <= 9007199254740992)%Q /\
  exists r,
    ProjectService.advancedSearch Sample.matches_everything raw "free" Sample.catalogue
    = (inr r, Sample.catalogue) /\
    (Z.of_nat (length (ProjectService.projects (ProjectService.found r)))
     <= ProjectService.limit (ProjectService.pagination (ProjectService.found r)))%Z.
Proof.
  intros raw.
  assert (Hsearch : Js.truthy_string (AdvancedSearchInput.raw_search raw) = false)
    by reflexivity.
  assert (Hpage : (forall number, AdvancedSearchInput.raw_page raw = Some number ->
                     number * 100 <= 9007199254740992)%Q)
    by (intros number H; discriminate H).
  split; [exact Hsearch|]. split; [exact Hpage|].
  pose proof (advancedSearch_bounded Sample.matches_everything raw "free" Sample.catalogue
                Hsearch Hpage) as H.
  destruct (ProjectService.advancedSearch Sample.matches_everything raw "free"
              Sample.catalogue) as [[err|r] s'] eqn:Hrun.
  - vm_compute in Hrun. discriminate Hrun.
  - destruct H as (-> & _ & _ & H & _). exists r. split; [reflexivity|exact H].
Defined.

(** ** The caller's own investments *)

Section MyInvestments.

Variable createdAt : ObjectId -> Z.

Lemma In_documents_from (id o : ObjectId) (i : Investment.t) (l : list Investment.t) :
  In (id, i) (InvestmentQueries.documents_from o l) ->
  (o <= id)%nat /\ l !! (id - o)%nat = Some i.
Proof.
  revert o. induction l as [|j l IH]; intros o; cbn [InvestmentQueries.documents_from In];
    [tauto|].
  intros [H|H].
  - injection H as <- <-. split; [lia|]. rewrite Nat.sub_diag. reflexivity.
  - apply IH in H as [Hle H]. split; [lia|].
    replace (id - o)%nat with (S (id - S o)) by lia. exact H.
Qed.

Lemma In_insert_newest (x y : InvestmentQueries.Document) (l : list InvestmentQueries.Document) :
  In x (InvestmentQueries.insert_sorted createdAt y l) <-> x = y \/ In x l.
Proof.
  induction l as [|z l IH]; cbn [InvestmentQueries.insert_sorted].
  - cbn. intuition congruence.
  - destruct (InvestmentQueries.before createdAt y z); cbn [In]; [intuition congruence|].
    rewrite IH. intuition congruence.
Qed.

Lemma In_sort_newest (x : InvestmentQueries.Document) (l : list InvestmentQueries.Document) :
  In x (InvestmentQueries.sort createdAt l) <-> In x l.
Proof.
  unfold InvestmentQueries.sort. induction l as [|y l IH]; cbn [fold_right In]; [tauto|].
  rewrite In_insert_newest, IH. intuition congruence.
Qed.

Lemma insert_newest_Sorted (x : InvestmentQueries.Document)
    (l : list InvestmentQueries.Document) :
  Sorted (fun a b => (createdAt (fst b) <= createdAt (fst a))%Z) l ->
  Sorted (fun a b => (createdAt (fst b) <= createdAt (fst a))%Z)
    (InvestmentQueries.insert_sorted createdAt x l).
Proof.
  induction 1 as [|y l Hl IH Hhd]; cbn [InvestmentQueries.insert_sorted].
  - repeat constructor.
  - unfold InvestmentQueries.before at 1.
    destruct (Z.leb_spec (createdAt (fst y)) (createdAt (fst x))) as [Hle|Hlt].
    + constructor; [constructor; assumption|constructor; assumption].
    + constructor; [assumption|].
      destruct l as [|z l]; cbn [InvestmentQueries.insert_sorted].
      * constructor. lia.
      * destruct (InvestmentQueries.before createdAt x z); constructor;
          [lia|inversion Hhd; assumption].
Qed.

Lemma sort_newest_Sorted (l : list InvestmentQueries.Document) :
  Sorted (fun a b => (createdAt (fst b) <= createdAt (fst a))%Z)
    (InvestmentQueries.sort createdAt l).
Proof.
  unfold InvestmentQueries.sort. induction l as [|x l IH]; cbn [fold_right]; [constructor|].
  apply insert_newest_Sorted. assumption.
Qed.

(** X18: GET /api/investments/my-investments answers for every page that
    does not start before the first document, and leaves the store as it
    is; every investment on the page is stored under its id, belongs to the
    caller and has the status asked for, newest first; totalInvestments is
    the total of the pagination, and totalInvested is the static
    getTotalInvestedByUser of the caller, whatever the status filter and
    the page. *)
Theorem getMyInvestments_own (caller : ObjectId) (status : option string)
    (page limit : option Z) (s : Store) :
  (0 <= (default 1 page - 1) * default 20 limit)%Z ->
  exists r invested,
    InvestmentQueries.getMyInvestments createdAt caller status page limit s = (inr r, s) /\
    InvestmentStatics.getTotalInvestedByUser caller s = (inr invested, s) /\
    InvestmentQueries.totalInvested r = invested /\
    InvestmentQueries.totalInvestments r
    = InvestmentQueries.total (InvestmentQueries.my_pagination r) /\
    (forall id i,
       In (id, i) (InvestmentQueries.my_investments r) ->
       investments s !! id = Some i /\
       Investment.userId i = caller /\
       (Js.truthy_string status = true ->
        status = Some (InvestmentQueries.status_name (Investment.status i)))) /\
    Sorted (fun a b => (createdAt (fst b) <= createdAt (fst a))%Z)
      (InvestmentQueries.my_investments r).
Proof.
  intros Hskip.
  unfold InvestmentQueries.getMyInvestments. cbv zeta.
  unfold bind, InvestmentQueries.Investment_find.
  assert (E : ((default 1 page - 1) * default 20 limit <? 0)%Z = false)
    by (apply Z.ltb_ge; assumption).
  rewrite E. unfold InvestmentQueries.Investment_countDocuments, ret.
  unfold InvestmentStatics.getTotalInvestedByUser at 1.
  eexists. eexists. split; [reflexivity|]. split; [reflexivity|].
  cbn [InvestmentQueries.totalInvested InvestmentQueries.totalInvestments
         InvestmentQueries.my_pagination InvestmentQueries.total
         InvestmentQueries.my_investments].
  split; [reflexivity|]. split; [reflexivity|]. split.
  - intros id i Hin.
    assert (Hsorted : In (id, i)
              (InvestmentQueries.sort createdAt
                 (List.filter
                    (fun d => InvestmentQueries.matches
                                (if Js.truthy_string status
                                 then InvestmentQueries.mkFilter (Some caller) None status
                                 else InvestmentQueries.mkFilter (Some caller) None None)
                                (snd d))
                    (InvestmentQueries.documents_from 0 (Investment_collection s))))).
    { apply (In_drop _ (Z.to_nat ((default 1 page - 1) * default 20 limit)%Z)).
      unfold InvestmentQueries.limit_to in Hin.
      destruct (default 20 limit =? 0)%Z; [assumption|].
      eapply In_take. eassumption. }
    apply In_sort_newest, filter_In in Hsorted as [Hstored Hmatch].
    apply In_documents_from in Hstored as [_ Hstored].
    rewrite Nat.sub_0_r in Hstored. split; [exact Hstored|].
    cbn [snd] in Hmatch. unfold InvestmentQueries.matches in Hmatch.
    destruct (Js.truthy_string status) eqn:Hstatus;
      cbn [InvestmentQueries.userId InvestmentQueries.projectId InvestmentQueries.status]
        in Hmatch;
      apply andb_true_iff in Hmatch as [Hmatch Hname];
      apply andb_true_iff in Hmatch as [Huser _];
      apply Nat.eqb_eq in Huser; (split; [assumption|]); [|discriminate].
    intros _. destruct status as [name|]; [|discriminate Hstatus].
    apply String.eqb_eq in Hname. congruence.
  - unfold InvestmentQueries.limit_to.
    destruct (default 20 limit =? 0)%Z;
      [apply Sorted_drop|apply Sorted_take, Sorted_drop]; apply sort_newest_Sorted.
Qed.

(** X8: GET /api/investments/project/:projectId answers 404 for a project
    that is not stored and, for a stored one and a page that does not
    start before the first document, a page of that project's completed
    investments, each stored under its id, newest first; the
    stats.totalInvested and stats.totalInvestors it reports are the total
    and the count of the static getTotalInvestedInProject, and the count is
    the total of the pagination. The store is left as it is. *)
Theorem getProjectInvestments_completed (projectId : ObjectId) (page limit : option Z)
    (s : Store) :
  (0 <= (default 1 page - 1) * default 20 limit)%Z ->
  match projects s !! projectId with
  | None =>
      InvestmentQueries.getProjectInvestments createdAt projectId page limit s
      = (inl (AppErr (mkAppError (Lit "Project not found") 404)), s)
  | Some _ =>
      exists r stats,
        InvestmentQueries.getProjectInvestments createdAt projectId page limit s
        = (inr r, s) /\
        InvestmentStatics.getTotalInvestedInProject projectId s = (inr stats, s) /\
        InvestmentQueries.stats_totalInvested r = InvestmentStatics.total stats /\
        InvestmentQueries.stats_totalInvestors r = InvestmentStatics.count stats /\
        InvestmentQueries.total (InvestmentQueries.project_pagination r)
        = Z.of_nat (length (List.filter (InvestmentStatics.completed_in_project projectId)
                              (investments s))) /\
        (forall id i,
           In (id, i) (InvestmentQueries.project_investments r) ->
           investments s !! id = Some i /\
           Investment.projectId i = projectId /\
           Investment.status i = Investment.completed) /\
        Sorted (fun a b => (createdAt (fst b) <= createdAt (fst a))%Z)
          (InvestmentQueries.project_investments r)
  end.
Proof.
  intros Hskip.
  destruct (projects s !! projectId) as [p|] eqn:Hp;
    unfold InvestmentQueries.getProjectInvestments; cbv zeta;
    unfold bind at 1; unfold Project_findById; rewrite Hp; [|reflexivity].
  unfold bind, InvestmentQueries.Investment_find.
  assert (E : ((default 1 page - 1) * default 20 limit <? 0)%Z = false)
    by (apply Z.ltb_ge; assumption).
  rewrite E. unfold InvestmentQueries.Investment_countDocuments, ret.
  unfold InvestmentStatics.getTotalInvestedInProject at 1.
  eexists. eexists. split; [reflexivity|]. split; [reflexivity|].
  cbn [InvestmentQueries.stats_totalInvested InvestmentQueries.stats_totalInvestors
         InvestmentQueries.project_pagination InvestmentQueries.total
         InvestmentQueries.project_investments].
  split; [reflexivity|]. split; [reflexivity|]. split; [|split].
  - unfold Investment_collection. f_equal. f_equal.
    apply filter_ext_eq. apply matches_completed_in_project.
  - intros id i Hin.
    assert (Hsorted : In (id, i)
              (InvestmentQueries.sort createdAt
                 (List.filter
                    (fun d => InvestmentQueries.matches
                                (InvestmentQueries.mkFilter None (Some projectId)
                                   (Some "completed"))
                                (snd d))
                    (InvestmentQueries.documents_from 0 (Investment_collection s))))).
    { apply (In_drop _ (Z.to_nat ((default 1 page - 1) * default 20 limit)%Z)).
      unfold InvestmentQueries.limit_to in Hin.
      destruct (default 20 limit =? 0)%Z; [assumption|].
      eapply In_take. eassumption. }
    apply In_sort_newest, filter_In in Hsorted as [Hstored Hmatch].
    apply In_documents_from in Hstored as [_ Hstored].
    rewrite Nat.sub_0_r in Hstored. split; [exact Hstored|].
    cbn [snd] in Hmatch. rewrite matches_completed_in_project in Hmatch.
    unfold InvestmentStatics.completed_in_project in Hmatch.
    apply andb_true_iff in Hmatch as [Hproject Hstatus].
    apply Nat.eqb_eq in Hproject. split; [exact Hproject|].
    destruct (Investment.status i); try discriminate Hstatus; reflexivity.
  - unfold InvestmentQueries.limit_to.
    destruct (default 20 limit =? 0)%Z;
      [apply Sorted_drop|apply Sorted_take, Sorted_drop]; apply sort_newest_Sorted.
Qed.

End MyInvestments.

Lemma getMyInvestments_own_witness :
  let s := Ledger.perform_all Sample.history
             (mkStore [Sample.solar_farm 0 0 Project.active] [] []) in
  (0 <= (default 1 None - 1) * default 20 None)%Z /\
  exists r,
    InvestmentQueries.getMyInvestments Z.of_nat 2%nat (Some "completed") None None s
    = (inr r, s) /\
    map fst (InvestmentQueries.my_investments r) = [1%nat] /\
    (InvestmentQueries.totalInvested r == 250)%Q /\
    InvestmentQueries.totalInvestments r = 1%Z.
Proof.
  intros s.
  assert (Hskip : (0 <= (default 1 None - 1) * default 20 None)%Z) by (cbn; lia).
  split; [exact Hskip|].
  destruct (getMyInvestments_own Z.of_nat 2%nat (Some "completed") None None s Hskip)
    as (r & invested & Hrun & _).
  exists r. split; [exact Hrun|].
  cbn in Hrun. injection Hrun as <-. repeat split; reflexivity.
Defined.

Lemma getProjectInvestments_completed_witness :
  let s := mkStore [Sample.solar_farm 1000 4 Project.completed] [Sample.stake] [] in
  (0 <= (default 1 None - 1) * default 20 None)%Z /\
  exists r,
    InvestmentQueries.getProjectInvestments Z.of_nat 0%nat None None s = (inr r, s) /\
    InvestmentQueries.project_investments r = [(0%nat, Sample.stake)] /\
    InvestmentQueries.stats_totalInvestors r = 1%Z.
Proof.
  intros s.
  assert (Hskip : (0 <= (default 1 None - 1) * default 20 None)%Z) by (cbn; lia).
  split; [exact Hskip|].
  pose proof (getProjectInvestments_completed Z.of_nat 0%nat None None s Hskip) as H.
  change (projects s !! 0%nat) with (Some (Sample.solar_farm 1000 4 Project.completed)) in H.
  destruct H as (r & stats & Hrun & _).
  exists r. split; [exact Hrun|].
  vm_compute in Hrun. injection Hrun as <-. split; reflexivity.
Defined.

(** ** What the two operations write, in double precision *)

Section DoubleEffects.

Import Double Double.Errors Double.InvestmentController Double.Ledger.
Local Open Scope float_scope.

Lemma Investment_refund_fits (reason : string) (now : Z) (i : Investment.t) :
  Investment.invalid i = [] -> (String.length reason <= 500)%nat ->
  Investment.invalid (Investment.refund reason now i) = [].
Proof.
  unfold Investment.invalid. rewrite !failing_nil.
  cbn [forallb Investment.validators snd Investment.refund Investment.amount
         Investment.paymentMethod Investment.expectedReturn Investment.actualReturn
         Investment.notes Investment.refundReason Investment.at_most].
  rewrite !andb_true_iff. intros (H1 & H2 & H3 & H4 & H5 & _) Hlen.
  repeat split; try assumption. apply Nat.leb_le, Hlen.
Qed.

Lemma funded_fields (amount : float) (p : Project.t) :
  Project.totalInvestors (Effects.funded amount p) = (Project.totalInvestors p + 1)%Z /\
  Project.status (Effects.funded amount p)
  = (if Project.targetAmount p <=? Project.fundedAmount p + amount
     then Project.completed else Project.status p).
Proof.
  unfold Effects.funded. cbv zeta.
  cbn [Project.set_fundedAmount Project.set_totalInvestors Project.targetAmount
         Project.fundedAmount Project.totalInvestors].
  rewrite or_else_zero.
  destruct (Project.targetAmount p <=? Project.fundedAmount p + amount); split; reflexivity.
Qed.

Lemma released_fields (i : Investment.t) (p : Project.t) :
  Project.totalInvestors (Effects.released i p) = Z.max (Project.totalInvestors p - 1) 0 /\
  Project.status (Effects.released i p)
  = (if Project.Status_eqb (Project.status p) Project.completed
     then Project.active else Project.status p).
Proof.
  unfold Effects.released. cbv zeta.
  cbn [Project.set_fundedAmount Project.set_totalInvestors Project.status
         Project.totalInvestors].
  rewrite or_else_one_floor.
  destruct (Project.Status_eqb (Project.status p) Project.completed); split; reflexivity.
Qed.

(** X5: an invest call that meets the five preconditions, with an
    investment its schema accepts (a listed payment method), on a project
    the schema accepts, stores the investment - status completed, expected
    return amount + amount * roiPercent / 100 - and saves the project with
    fundedAmount + amount, one investor more and status completed exactly
    when the new fundedAmount reaches the target. Cancelling that
    investment by its owner within 24 hours, with a reason of at most 500
    characters, when the difference of line 803 is not negative, returns
    it refunded and saves the project with fundedAmount + amount - amount
    (as binary64 computes it), its investor count and its active status
    back. *)
Theorem invest_then_cancel now later userId pid amount pm reason s p :
  falsy amount = false -> pm <> EmptyString ->
  projects s !! pid = Some p -> Project.schema_valid p ->
  InvestSpec.first_violated (Some p) amount = None ->
  let inv := Effects.invested now userId pid amount pm p in
  Investment.invalid inv = [] ->
  (later - now <= CancelSpec.window)%Z ->
  (String.length (Js.string_or_else reason "User requested refund") <= 500)%nat ->
  nonnegative (Project.fundedAmount p + amount - amount) = true ->
  let s1 := snd (createInvestment now userId
                   (mkCreateBody (Some pid) (Some amount) (Some pm)) s) in
  let refunded :=
    Investment.refund (Js.string_or_else reason "User requested refund") later inv in
  let p1 := Effects.funded amount p in
  let p2 := Effects.released inv p1 in
  s1 = mkStore (<[pid := p1]> (projects s)) (investments s ++ [inv]) (payments s) /\
  Project.fundedAmount p1 = Project.fundedAmount p + amount /\
  Project.totalInvestors p1 = (Project.totalInvestors p + 1)%Z /\
  Project.status p1
  = (if Project.targetAmount p <=? Project.fundedAmount p + amount
     then Project.completed else Project.active) /\
  cancelInvestment later userId false (length (investments s)) reason s1
  = (inr refunded,
     mkStore (<[pid := p2]> (projects s)) (investments s ++ [refunded]) (payments s)) /\
  Project.fundedAmount p2 = Project.fundedAmount p + amount - amount /\
  Project.totalInvestors p2 = Project.totalInvestors p /\
  Project.status p2 = Project.active.
Proof.
  intros Ha Hpm Hp Hvalid Hfv inv Hinv Hwindow Hreason Hback s1 refunded p1 p2.
  destruct (createInvestment_accepted now userId pid amount pm s p Ha Hpm Hp Hvalid Hfv)
    as [Hvalid1 Hrun].
  cbv zeta in Hrun. fold inv in Hrun. rewrite Hinv in Hrun. destruct Hrun as (bad & Hrun).
  fold p1 in Hrun, Hvalid1.
  assert (Hs1 : s1 = mkStore (<[pid := p1]> (projects s)) (investments s ++ [inv])
                       (payments s)) by (subst s1; rewrite Hrun; reflexivity).
  destruct (first_violated_holds p amount Hfv) as (Hst & _).
  destruct (schema_valid_amounts p Hvalid) as (_ & _ & _ & Hcount).
  destruct (funded_fields amount p) as [Ht1 Hst1]. fold p1 in Ht1, Hst1.
  destruct (released_fields inv p1) as [Ht2 Hst2]. fold p2 in Ht2, Hst2.
  split; [exact Hs1|].
  split; [apply funded_fundedAmount|].
  split; [exact Ht1|].
  split; [rewrite Hst1, Hst; reflexivity|].
  assert (Hf2 : Project.fundedAmount p2 = Project.fundedAmount p + amount - amount).
  { subst p2. rewrite released_fundedAmount. subst p1. rewrite funded_fundedAmount.
    reflexivity. }
  split; [|split; [exact Hf2|split]].
  - clearbody s1. subst s1.
    set (s1 := mkStore (<[pid := p1]> (projects s)) (investments s ++ [inv])%list
                 (payments s)).
    assert (Hi : investments s1 !! length (investments s) = Some inv).
    { cbn [s1 investments]. apply list_lookup_middle. reflexivity. }
    assert (Hown : (Investment.userId inv =? userId)%nat || false = true)
      by (cbn [inv Effects.invested Investment.userId]; rewrite Nat.eqb_refl; reflexivity).
    assert (Hnot : Investment.status inv <> Investment.refunded) by discriminate.
    assert (Hwin : false || (later - Investment.investmentDate inv <=? CancelSpec.window)%Z
                   = true)
      by (cbn [inv Effects.invested Investment.investmentDate orb]; apply Z.leb_le;
          exact Hwindow).
    pose proof (cancelInvestment_accepted later userId false (length (investments s))
                  reason s1 inv Hi Hown Hnot Hwin) as H.
    cbv zeta in H.
    rewrite (Investment_refund_fits _ later inv Hinv Hreason) in H.
    assert (Hp1 : projects s1 !! Investment.projectId inv = Some p1).
    { cbn [s1 projects inv Effects.invested Investment.projectId].
      apply list_lookup_insert_eq. eapply lookup_lt_Some. eassumption. }
    rewrite Hp1 in H. fold p2 in H.
    assert (Hvalid2 : Project.schema_valid p2).
    { apply released_valid; [exact Hvalid1|].
      subst p1. rewrite funded_fundedAmount. exact Hback. }
    unfold Project.schema_valid in Hvalid2. rewrite Hvalid2 in H.
    rewrite H. cbn [s1 projects investments payments inv Effects.invested
                      Investment.projectId].
    rewrite list_insert_insert_eq.
    replace (length (investments s)) with (length (investments s) + 0)%nat by lia.
    rewrite insert_app_r. reflexivity.
  - rewrite Ht2, Ht1. lia.
  - rewrite Hst2, Hst1, Hst.
    destruct (Project.targetAmount p <=? Project.fundedAmount p + amount); reflexivity.
Qed.

Lemma count_insert {A : Type} (f : A -> bool) (l : list A) id old new :
  l !! id = Some old ->
  Z.of_nat (length (List.filter f (<[id := new]> l)))
  = (Z.of_nat (length (List.filter f l)) - Z.b2z (f old) + Z.b2z (f new))%Z.
Proof.
  revert id. induction l as [|x l IH]; intros [|id] H; try discriminate H.
  - cbn in H. injection H as ->.
    change (<[0%nat := new]> (old :: l)) with (new :: l). cbn [List.filter].
    destruct (f old), (f new); cbn [length Z.b2z]; lia.
  - cbn in H. change (<[S id := new]> (x :: l)) with (x :: <[id := new]> l).
    cbn [List.filter]. specialize (IH id H).
    destruct (f x); cbn [length]; lia.
Qed.

Lemma count_app {A : Type} (f : A -> bool) (l : list A) x :
  Z.of_nat (length (List.filter f (l ++ [x])%list))
  = (Z.of_nat (length (List.filter f l)) + Z.b2z (f x))%Z.
Proof.
  rewrite List.filter_app, length_app. cbn [List.filter].
  destruct (f x); cbn [length Z.b2z]; lia.
Qed.

(** An invest call whose sum is exact either leaves a consistent store as
    it is or stores the investment and saves the funded project. *)
Lemma createInvestment_exact_step now userId body s :
  consistent s -> exact_call s (Invest now userId body) = true ->
  snd (createInvestment now userId body s) = s \/
  exists pid amount pm p,
    projects s !! pid = Some p /\
    snd (createInvestment now userId body s)
    = mkStore (<[pid := Effects.funded amount p]> (projects s))
        (investments s ++ [Effects.invested now userId pid amount pm p]) (payments s).
Proof.
  intros Hs Hexact.
  destruct (createInvestment_outcome now userId body s)
    as [(err & ->) | (pid & amount & pm & p & Hreq & Hp & Hinv & H)]; [left; reflexivity|].
  right. exists pid, amount, pm, p. split; [exact Hp|].
  cbv zeta in H.
  destruct Hs as [Hprojects Hinvestments].
  destruct (Hprojects pid p Hp) as (Hvalid & q & Hq & Hqtotal).
  cbn [exact_call] in Hexact. rewrite Hreq, Hp in Hexact.
  destruct (exact_sum_value _ _ Hexact) as (x & y & z & Hx & Hy & Hz & Hsum).
  rewrite Hq in Hx. injection Hx as <-.
  assert (Hamount : (0 <= y)%Q).
  { apply (value_nonnegative amount y Hy). exact (Investment_valid_amount _ Hinv). }
  assert (Hz0 : (0 <= z)%Q).
  { rewrite Hsum, Hqtotal. rewrite <- (Qplus_0_r 0).
    apply Qplus_le_compat; [apply total_nonneg|]; assumption. }
  assert (Hfunded : nonnegative (Project.fundedAmount p + amount) = true)
    by (apply (value_nonnegative _ z Hz); exact Hz0).
  pose proof (funded_valid amount p Hvalid Hfunded) as Hvalid'.
  unfold Project.schema_valid in Hvalid'. rewrite Hvalid' in H.
  destruct H as (bad & ->). reflexivity.
Qed.

(** A cancel call whose difference is exact either leaves a consistent
    store as it is or stores the refund of a completed investment and
    saves the released project, when there is one. *)
Lemma cancelInvestment_exact_step now userId isAdmin id reason s :
  consistent s -> exact_call s (Cancel now userId isAdmin id reason) = true ->
  snd (cancelInvestment now userId isAdmin id reason s) = s \/
  exists i,
    investments s !! id = Some i /\
    Investment.status i = Investment.completed /\
    let i' := Investment.refund (Js.string_or_else reason "User requested refund") now i in
    snd (cancelInvestment now userId isAdmin id reason s)
    = mkStore
        (match projects s !! Investment.projectId i with
         | Some p => <[Investment.projectId i := Effects.released i p]> (projects s)
         | None => projects s
         end)
        (<[id := i']> (investments s)) (payments s).
Proof.
  intros Hs Hexact.
  destruct (cancelInvestment_outcome now userId isAdmin id reason s)
    as [(err & ->) | (i & Hi & Hnot & H)]; [left; reflexivity|].
  right. exists i. split; [exact Hi|].
  cbv zeta in H.
  destruct Hs as [Hprojects Hinvestments].
  pose proof (Forall_lookup_1 _ _ _ _ Hinvestments Hi) as [(y & Hy & Hy0) Hstatus].
  assert (Hcompleted : Investment.status i = Investment.completed).
  { destruct Hstatus as [E|E]; [assumption|contradiction]. }
  split; [exact Hcompleted|]. cbv zeta.
  cbn [exact_call] in Hexact. rewrite Hi in Hexact.
  destruct (projects s !! Investment.projectId i) as [p|] eqn:Hp; [|rewrite H; reflexivity].
  destruct (Hprojects _ p Hp) as (Hvalid & q & Hq & Hqt).
  destruct (exact_difference_value _ _ Hexact) as (x & y' & z & Hx & Hy' & Hz & Hdiff).
  rewrite Hq in Hx. injection Hx as <-. rewrite Hy in Hy'. injection Hy' as <-.
  assert (Hz0 : (0 <= z)%Q).
  { rewrite Hdiff, Hqt.
    pose proof (counted_within_total (Investment.projectId i) _ _ _ Hinvestments Hi) as Hle.
    unfold counted in Hle. rewrite Hcompleted, Hy, Nat.eqb_refl in Hle.
    cbn [Investment.Status_eqb andb] in Hle.
    unfold Qminus. rewrite <- (Qplus_opp_r y).
    apply Qplus_le_compat; [assumption|apply Qle_refl]. }
  assert (Hfunded : nonnegative (Project.fundedAmount p - Investment.amount i) = true)
    by (apply (value_nonnegative _ z Hz); exact Hz0).
  pose proof (released_valid i p Hvalid Hfunded) as Hvalid'.
  unfold Project.schema_valid in Hvalid'. rewrite Hvalid' in H.
  rewrite H. reflexivity.
Qed.

Lemma createInvestment_investors_counted now userId body s :
  consistent s -> exact_call s (Invest now userId body) = true ->
  investors_counted s -> investors_counted (snd (createInvestment now userId body s)).
Proof.
  intros Hs Hexact Hcounted.
  destruct (createInvestment_exact_step now userId body s Hs Hexact)
    as [-> | (pid & amount & pm & p & Hp & ->)]; [exact Hcounted|].
  intros pid' q Hq. cbn [projects investments] in *.
  rewrite count_app. unfold completed_in at 2.
  cbn [Effects.invested Investment.status Investment.projectId Investment.Status_eqb andb].
  destruct (Nat.eq_dec pid pid') as [<-|Hne].
  - rewrite list_lookup_insert_eq in Hq by (eapply lookup_lt_Some; eassumption).
    injection Hq as <-. rewrite (proj1 (funded_fields amount p)), (Hcounted pid p Hp).
    rewrite Nat.eqb_refl. reflexivity.
  - rewrite list_lookup_insert_ne in Hq by assumption.
    rewrite (Hcounted pid' q Hq).
    destruct (Nat.eqb_spec pid pid'); [contradiction|]. cbn [Z.b2z]. lia.
Qed.

Lemma cancelInvestment_investors_counted now userId isAdmin id reason s :
  consistent s -> exact_call s (Cancel now userId isAdmin id reason) = true ->
  investors_counted s ->
  investors_counted (snd (cancelInvestment now userId isAdmin id reason s)).
Proof.
  intros Hs Hexact Hcounted.
  destruct (cancelInvestment_exact_step now userId isAdmin id reason s Hs Hexact)
    as [-> | (i & Hi & Hcompleted & H)]; [exact Hcounted|].
  cbv zeta in H. rewrite H. clear H.
  set (i' := Investment.refund (Js.string_or_else reason "User requested refund") now i).
  assert (Hlen : forall pid,
             Z.of_nat (length (List.filter (completed_in pid) (<[id := i']> (investments s))))
             = (Z.of_nat (length (List.filter (completed_in pid) (investments s)))
                - Z.b2z (Investment.projectId i =? pid)%nat)%Z).
  { intros pid. rewrite (count_insert _ _ id i i' Hi).
    unfold completed_in at 2 3. rewrite Hcompleted.
    cbn [i' Investment.refund Investment.status Investment.projectId
           Investment.Status_eqb andb Z.b2z]. lia. }
  intros pid q Hq. cbn [projects investments] in *. rewrite Hlen.
  destruct (projects s !! Investment.projectId i) as [p|] eqn:Hp.
  - destruct (Nat.eq_dec (Investment.projectId i) pid) as [<-|Hne].
    + rewrite list_lookup_insert_eq in Hq by (eapply lookup_lt_Some; eassumption).
      injection Hq as <-.
      rewrite (proj1 (released_fields i p)), (Hcounted _ p Hp), Nat.eqb_refl.
      pose proof (Hlen (Investment.projectId i)) as Hpos.
      rewrite Nat.eqb_refl in Hpos. cbn [Z.b2z] in *. lia.
    + rewrite list_lookup_insert_ne in Hq by assumption.
      rewrite (Hcounted pid q Hq).
      destruct (Nat.eqb_spec (Investment.projectId i) pid); [contradiction|].
      cbn [Z.b2z]. lia.
  - rewrite (Hcounted pid q Hq).
    destruct (Nat.eqb_spec (Investment.projectId i) pid) as [E|_].
    + rewrite E in Hp. congruence.
    + cbn [Z.b2z]. lia.
Qed.

Lemma perform_all_investors_counted (calls : list Call) (s : Store) :
  consistent s -> exact calls s = true -> investors_counted s ->
  investors_counted (perform_all calls s).
Proof.
  unfold perform_all. revert s.
  induction calls as [|c calls IH]; intros s Hs Hexact Hcounted; cbn [fold_left];
    [assumption|].
  cbn [exact] in Hexact. apply andb_true_iff in Hexact as [Hc Hrest].
  destruct c; cbn [perform] in *; apply IH; try exact Hrest.
  - apply createInvestment_exact_consistent; assumption.
  - apply createInvestment_investors_counted; assumption.
  - apply cancelInvestment_exact_consistent; assumption.
  - apply cancelInvestment_investors_counted; assumption.
Qed.

(** X9: on fresh projects that start with no investor, after any sequence
    of invest and cancel calls whose sums and differences binary64
    represents exactly, Project.totalInvestors is the number of the
    project's completed investments: a user who invests twice is counted
    as two investors. *)
Theorem totalInvestors_counts_investments (calls : list Call) (s : Store) :
  fresh s ->
  (forall projectId p, projects s !! projectId = Some p -> Project.totalInvestors p = 0%Z) ->
  exact calls s = true ->
  forall projectId p,
    projects (perform_all calls s) !! projectId = Some p ->
    Project.totalInvestors p
    = Z.of_nat (length (List.filter (completed_in projectId)
                          (investments (perform_all calls s)))).
Proof.
  intros Hfresh Hnone Hexact.
  apply perform_all_investors_counted; [apply fresh_consistent; exact Hfresh|exact Hexact|].
  intros pid p Hp. rewrite (proj1 Hfresh). cbn. exact (Hnone pid p Hp).
Qed.

End DoubleEffects.

Lemma invest_then_cancel_witness :
  let p := Double.Sample.project 100 1000 900 3 Double.Project.active in
  let s := Double.Sample.store_of p in
  let inv := Double.Effects.invested 0 7%nat 0%nat 100 "stripe" p in
  (Double.falsy 100 = false /\ "stripe" <> EmptyString /\
   Double.projects s !! 0%nat = Some p /\ Double.Project.schema_valid p /\
   Double.InvestSpec.first_violated (Some p) 100 = None /\
   Double.Investment.invalid inv = [] /\
   (3600000 - 0 <= CancelSpec.window)%Z /\
   (String.length (Js.string_or_else None "User requested refund") <= 500)%nat /\
   Double.nonnegative (900 + 100 - 100) = true) /\
  Double.InvestmentController.cancelInvestment 3600000 7%nat false 0%nat None
    (snd (Double.InvestmentController.createInvestment 0 7%nat
            (Double.InvestmentController.mkCreateBody (Some 0%nat) (Some 100%float)
               (Some "stripe")) s))
  = (inr (Double.Investment.refund "User requested refund" 3600000 inv),
     Double.mkStore [Double.Sample.project 100 1000 900 3 Double.Project.active]
       [Double.Investment.refund "User requested refund" 3600000 inv] []).
Proof.
  intros p s inv.
  assert (H1 : Double.falsy 100 = false) by reflexivity.
  assert (H2 : "stripe" <> EmptyString) by discriminate.
  assert (H3 : Double.projects s !! 0%nat = Some p) by reflexivity.
  assert (H4 : Double.Project.schema_valid p) by reflexivity.
  assert (H5 : Double.InvestSpec.first_violated (Some p) 100 = None) by reflexivity.
  assert (H6 : Double.Investment.invalid inv = []) by reflexivity.
  assert (H7 : (3600000 - 0 <= CancelSpec.window)%Z) by (vm_compute; discriminate).
  assert (H8 : (String.length (Js.string_or_else None "User requested refund") <= 500)%nat)
    by (vm_compute; lia).
  assert (H9 : Double.nonnegative (900 + 100 - 100) = true) by reflexivity.
  split; [repeat split; assumption|].
  exact (proj1 (proj2 (proj2 (proj2 (proj2
           (invest_then_cancel 0 3600000 7%nat 0%nat 100%float "stripe" None s p
              H1 H2 H3 H4 H5 H6 H7 H8 H9)))))).
Defined.

Lemma totalInvestors_counts_investments_witness :
  let s := Double.Sample.store_of Double.Sample.fresh_project in
  let s' := Double.Ledger.perform_all Double.Sample.whole_history s in
  (Double.Ledger.fresh s /\
   (forall projectId p, Double.projects s !! projectId = Some p ->
      Double.Project.totalInvestors p = 0%Z) /\
   Double.Ledger.exact Double.Sample.whole_history s = true) /\
  Double.projects s' = [Double.Sample.project 0.1 1000 250 1 Double.Project.active] /\
  1%Z = Z.of_nat (length (List.filter (Double.Ledger.completed_in 0%nat)
                            (Double.investments s'))).
Proof.
  intros s s'.
  assert (Hfresh : Double.Ledger.fresh s).
  { split; [reflexivity|]. intros [|id] p Hp; [|discriminate].
    injection Hp as <-. split; reflexivity. }
  assert (Hnone : forall projectId p, Double.projects s !! projectId = Some p ->
                    Double.Project.totalInvestors p = 0%Z).
  { intros [|id] p Hp; [|discriminate]. injection Hp as <-. reflexivity. }
  assert (Hexact : Double.Ledger.exact Double.Sample.whole_history s = true) by reflexivity.
  split; [split; [exact Hfresh|split; [exact Hnone|exact Hexact]]|].
  split; [reflexivity|].
  exact (totalInvestors_counts_investments Double.Sample.whole_history s Hfresh Hnone Hexact
           0%nat (Double.Sample.project 0.1 1000 250 1 Double.Project.active) eq_refl).
Defined.
